(** * Chunked CSV export of the temperature dashboard

    A shallow embedding of the download section of
    [src/app/components/TemperatureDashboard.tsx]: the filter handlers,
    [previewDownload] and [executeDownload], with the properties the
    specification states about them.

    Conventions of the embedding.
    - React state of the component is a record [DashState]; a handler reads
      the values captured by its closure (the state at the time of the call)
      and writes through the setters.
    - Effects visible outside the component (alerts, requests, progress
      updates, the file save) are collected in a chronological trace.
      [console.log] and [console.error] are left out.
    - The remote endpoint is a function from requests to fetch results.
    - A call runs to its end without another handler in between: while it
      runs, [downloadLoading] disables the inputs of the download section.
    - The [while (hasMore)] loop takes fuel; running out of fuel is the
      outcome [Diverge].
    - JavaScript numbers that the code uses as integers (offsets, counts,
      HTTP status) are [Z]; doubles are exact on them below 2^53.  The
      progress computation leaves the integers and is modelled on [number]
      (rationals with NaN and the infinities), every inexact operation being
      followed by the rounding function [fl] of the host.  Negative zero is
      not modelled. *)

From Stdlib Require Import ZArith QArith Qround String Ascii List Bool Lia.
From Stdlib Require Import DecimalString.
Import ListNotations.

Local Open Scope string_scope.
Local Open Scope Z_scope.

(** ** Strings *)

Definition LF : string := String "010"%char EmptyString.

(** JavaScript truthiness of a string: non-empty. *)
Definition truthy_string (s : string) : bool :=
  match s with EmptyString => false | String _ _ => true end.

(** [a || b] on strings. *)
Definition or_string (a b : string) : string :=
  if truthy_string a then a else b.

(** ** Numbers *)

Inductive number : Type :=
| NaN
| PosInf
| NegInf
| Num (q : Q).

Definition of_Z (z : Z) : number := Num (inject_Z z).

Definition Qlt_bool (x y : Q) : bool := negb (Qle_bool y x).

(** Truthiness of a number: neither zero nor NaN. *)
Definition truthy_number (n : number) : bool :=
  match n with
  | NaN => false
  | PosInf | NegInf => true
  | Num q => negb (Qeq_bool q 0)
  end.

(** [a === b] on numbers. *)
Definition strict_eq (a b : number) : bool :=
  match a, b with
  | Num x, Num y => Qeq_bool x y
  | PosInf, PosInf | NegInf, NegInf => true
  | _, _ => false
  end.

(** [a <= b] on numbers; every comparison with NaN is false. *)
Definition js_le (a b : number) : bool :=
  match a, b with
  | NaN, _ | _, NaN => false
  | NegInf, _ => true
  | _, PosInf => true
  | Num x, Num y => Qle_bool x y
  | _, _ => false
  end.

Section Arithmetic.

(** Rounding of an exact result to the nearest double. *)
Variable fl : Q -> Q.

Definition js_div (a b : number) : number :=
  match a, b with
  | NaN, _ | _, NaN => NaN
  | Num x, Num y =>
      if Qeq_bool y 0 then
        if Qeq_bool x 0 then NaN
        else if Qlt_bool x 0 then NegInf else PosInf
      else Num (fl (x / y))
  | Num _, _ => Num 0
  | _, Num y =>
      match a with
      | PosInf => if Qlt_bool y 0 then NegInf else PosInf
      | _ => if Qlt_bool y 0 then PosInf else NegInf
      end
  | _, _ => NaN
  end.

Definition js_mul (a b : number) : number :=
  match a, b with
  | NaN, _ | _, NaN => NaN
  | Num x, Num y => Num (fl (x * y))
  | Num x, inf | inf, Num x =>
      if Qeq_bool x 0 then NaN
      else if Qlt_bool x 0
           then match inf with PosInf => NegInf | _ => PosInf end
           else inf
  | PosInf, PosInf | NegInf, NegInf => PosInf
  | _, _ => NegInf
  end.

End Arithmetic.

(** [Math.round]: the closest integer, ties towards +infinity. *)
Definition Math_round (a : number) : number :=
  match a with
  | Num x => of_Z (Qfloor (x + (1 # 2)))
  | _ => a
  end.

Definition Math_min (a b : number) : number :=
  match a, b with
  | NaN, _ | _, NaN => NaN
  | NegInf, _ | _, NegInf => NegInf
  | PosInf, x | x, PosInf => x
  | Num x, Num y => if Qle_bool x y then a else b
  end.

(** ** [parseInt] with no radix argument

    Leading white space is skipped, then an optional sign, then an optional
    [0x] prefix; the longest run of digits of the radix is read.  No digit
    gives NaN. *)

Definition is_space (c : ascii) : bool :=
  let n := nat_of_ascii c in
  ((n =? 32) || (n =? 9) || (n =? 10) || (n =? 11) || (n =? 12) || (n =? 13))%nat.

Fixpoint skip_spaces (s : string) : string :=
  match s with
  | String c r => if is_space c then skip_spaces r else s
  | EmptyString => s
  end.

Definition digit_value (radix : Z) (c : ascii) : option Z :=
  let n := Z.of_nat (nat_of_ascii c) in
  let v := if (48 <=? n) && (n <=? 57) then Some (n - 48)
           else if (97 <=? n) && (n <=? 122) then Some (n - 87)
           else if (65 <=? n) && (n <=? 90) then Some (n - 55)
           else None in
  match v with
  | Some d => if d <? radix then Some d else None
  | None => None
  end.

Fixpoint read_digits (radix : Z) (acc : option Z) (s : string) : option Z :=
  match s with
  | String c r =>
      match digit_value radix c with
      | Some d =>
          read_digits radix
            (Some (match acc with Some a => a * radix + d | None => d end)) r
      | None => acc
      end
  | EmptyString => acc
  end.

Definition parseInt (s : string) : number :=
  let s1 := skip_spaces s in
  let '(sign, s2) :=
    match s1 with
    | String "-"%char r => (-1, r)
    | String "+"%char r => (1, r)
    | _ => (1, s1)
    end in
  let '(radix, s3) :=
    match s2 with
    | String "0"%char (String "x"%char r) => (16, r)
    | String "0"%char (String "X"%char r) => (16, r)
    | _ => (10, s2)
    end in
  match read_digits radix None s3 with
  | Some v => of_Z (sign * v)
  | None => NaN
  end.


(** ** Data model *)

Record TemperaturePoint : Type := {
  date : string;
  time : string;
  latitude : number;
  longitude : number;
  probe_temperature_f : number;
  transit : string
}.

Record DownloadSummary : Type := {
  count : Z;
  dateRange : string;
  timeRange : string;
  transport : string;
  estimatedSizeMB : number
}.

(** The download filter states of the component ([useState] hooks). *)
Record DashState : Type := {
  downloadStartDate : string;
  downloadEndDate : string;
  downloadStartTime : string;
  downloadEndTime : string;
  downloadTransport : option string;
  downloadMonth : option number;
  downloadLoading : bool;
  downloadSummary : option DownloadSummary;
  downloadProgress : number
}.

Definition initial_state : DashState := {|
  downloadStartDate := EmptyString;
  downloadEndDate := EmptyString;
  downloadStartTime := EmptyString;
  downloadEndTime := EmptyString;
  downloadTransport := None;
  downloadMonth := None;
  downloadLoading := false;
  downloadSummary := None;
  downloadProgress := of_Z 0
|}.

(** The setters. *)

Definition setDownloadStartDate (v : string) (s : DashState) : DashState :=
  {| downloadStartDate := v;
     downloadEndDate := downloadEndDate s;
     downloadStartTime := downloadStartTime s;
     downloadEndTime := downloadEndTime s;
     downloadTransport := downloadTransport s;
     downloadMonth := downloadMonth s;
     downloadLoading := downloadLoading s;
     downloadSummary := downloadSummary s;
     downloadProgress := downloadProgress s |}.

Definition setDownloadEndDate (v : string) (s : DashState) : DashState :=
  {| downloadStartDate := downloadStartDate s;
     downloadEndDate := v;
     downloadStartTime := downloadStartTime s;
     downloadEndTime := downloadEndTime s;
     downloadTransport := downloadTransport s;
     downloadMonth := downloadMonth s;
     downloadLoading := downloadLoading s;
     downloadSummary := downloadSummary s;
     downloadProgress := downloadProgress s |}.

Definition setDownloadStartTime (v : string) (s : DashState) : DashState :=
  {| downloadStartDate := downloadStartDate s;
     downloadEndDate := downloadEndDate s;
     downloadStartTime := v;
     downloadEndTime := downloadEndTime s;
     downloadTransport := downloadTransport s;
     downloadMonth := downloadMonth s;
     downloadLoading := downloadLoading s;
     downloadSummary := downloadSummary s;
     downloadProgress := downloadProgress s |}.

Definition setDownloadEndTime (v : string) (s : DashState) : DashState :=
  {| downloadStartDate := downloadStartDate s;
     downloadEndDate := downloadEndDate s;
     downloadStartTime := downloadStartTime s;
     downloadEndTime := v;
     downloadTransport := downloadTransport s;
     downloadMonth := downloadMonth s;
     downloadLoading := downloadLoading s;
     downloadSummary := downloadSummary s;
     downloadProgress := downloadProgress s |}.

Definition setDownloadTransport (v : option string) (s : DashState) : DashState :=
  {| downloadStartDate := downloadStartDate s;
     downloadEndDate := downloadEndDate s;
     downloadStartTime := downloadStartTime s;
     downloadEndTime := downloadEndTime s;
     downloadTransport := v;
     downloadMonth := downloadMonth s;
     downloadLoading := downloadLoading s;
     downloadSummary := downloadSummary s;
     downloadProgress := downloadProgress s |}.

Definition setDownloadMonth (v : option number) (s : DashState) : DashState :=
  {| downloadStartDate := downloadStartDate s;
     downloadEndDate := downloadEndDate s;
     downloadStartTime := downloadStartTime s;
     downloadEndTime := downloadEndTime s;
     downloadTransport := downloadTransport s;
     downloadMonth := v;
     downloadLoading := downloadLoading s;
     downloadSummary := downloadSummary s;
     downloadProgress := downloadProgress s |}.

Definition setDownloadLoading (v : bool) (s : DashState) : DashState :=
  {| downloadStartDate := downloadStartDate s;
     downloadEndDate := downloadEndDate s;
     downloadStartTime := downloadStartTime s;
     downloadEndTime := downloadEndTime s;
     downloadTransport := downloadTransport s;
     downloadMonth := downloadMonth s;
     downloadLoading := v;
     downloadSummary := downloadSummary s;
     downloadProgress := downloadProgress s |}.

Definition setDownloadSummary (v : option DownloadSummary) (s : DashState)
  : DashState :=
  {| downloadStartDate := downloadStartDate s;
     downloadEndDate := downloadEndDate s;
     downloadStartTime := downloadStartTime s;
     downloadEndTime := downloadEndTime s;
     downloadTransport := downloadTransport s;
     downloadMonth := downloadMonth s;
     downloadLoading := downloadLoading s;
     downloadSummary := v;
     downloadProgress := downloadProgress s |}.

Definition setDownloadProgress (v : number) (s : DashState) : DashState :=
  {| downloadStartDate := downloadStartDate s;
     downloadEndDate := downloadEndDate s;
     downloadStartTime := downloadStartTime s;
     downloadEndTime := downloadEndTime s;
     downloadTransport := downloadTransport s;
     downloadMonth := downloadMonth s;
     downloadLoading := downloadLoading s;
     downloadSummary := downloadSummary s;
     downloadProgress := v |}.

(** [if (downloadMonth)]: a month that is neither null, 0 nor NaN. *)
Definition month_selected (s : DashState) : bool :=
  match downloadMonth s with
  | Some m => truthy_number m
  | None => false
  end.

(** ** The request and the response of the query endpoint *)

Inductive DateFilter : Type :=
| ByMonth (month : number)
| ByRange (startDate endDate : string).

Module Req.
(** The JSON body and the headers of one POST to
    [/functions/v1/generate-csv-download]. *)
Record t : Type := {
  url : string;
  authorization : string;
  startTime : string;
  endTime : string;
  transport : option string;
  filter : DateFilter;
  offset : Z;
  limit : Z
}.
End Req.

Module Chunk.
(** The decoded JSON of a response. *)
Record t : Type := {
  success : bool;
  error : option string;
  data : list TemperaturePoint;
  fetchedCount : Z;
  hasMore : bool;
  total : option Z
}.
End Chunk.

Inductive JsonBody : Type :=
| Parsed (chunk : Chunk.t)
| SyntaxError (message : string).

Module Resp.
Record t : Type := {
  ok : bool;
  status : Z;
  text : string;
  json : JsonBody
}.
End Resp.

(** [fetch] rejects (no response at all) or resolves with a response. *)
Inductive FetchResult : Type :=
| Rejected (message : string)
| Resolved (response : Resp.t).

Record Env : Type := {
  NEXT_PUBLIC_SUPABASE_URL : option string;
  NEXT_PUBLIC_SUPABASE_ANON_KEY : option string
}.

Definition truthy_env (v : option string) : bool :=
  match v with Some s => truthy_string s | None => false end.

(** A value of the environment inside a template literal. *)
Definition env_text (v : option string) : string :=
  match v with Some s => s | None => "undefined" end.

(** Functions of the JavaScript host that the component calls on numbers:
    the rounding of an exact result to a double, the text of a number in a
    template literal, and [toLocaleString] on a count. *)
Record Host : Type := {
  fl : Q -> Q;
  Number_toString : number -> string;
  Number_toLocaleString : Z -> string
}.

(** ** Effects *)

(** What a call does outside the component, in the order of the source:
    [alert], [fetch], a call of [setDownloadProgress], the pause between two
    pages, [new Blob] with its object URL, the click on the link that names
    the file, and the revocation of the URL set for later. *)
Inductive Event : Type :=
| Alert (message : string)
| Fetch (request : Req.t)
| Progress (value : number)
| Timeout (ms : Z)
| CreateBlob (blobParts : list string) (type : string)
| ClickLink (download : string)
| RevokeLater (ms : Z).

(** A computation returns, throws an error with a message, or is still in
    the loop when the fuel is out. *)
Inductive outcome (A : Type) : Type :=
| Ret (a : A)
| Throw (message : string)
| Diverge.

Arguments Ret {A} a.
Arguments Throw {A} message.
Arguments Diverge {A}.

(** A computation reads and writes the component state and appends to the
    trace. *)
Definition M (A : Type) : Type := DashState -> outcome A * DashState * list Event.

Definition ret {A} (a : A) : M A := fun s => (Ret a, s, []).

Definition bind {A B} (m : M A) (k : A -> M B) : M B :=
  fun s =>
    match m s with
    | (Ret a, s1, t1) => let '(o, s2, t2) := k a s1 in (o, s2, (t1 ++ t2)%list)
    | (Throw e, s1, t1) => (Throw e, s1, t1)
    | (Diverge, s1, t1) => (Diverge, s1, t1)
    end.

Definition throw {A} (message : string) : M A := fun s => (Throw message, s, []).

Definition diverge {A} : M A := fun s => (Diverge, s, []).

Definition emit (e : Event) : M unit := fun s => (Ret tt, s, [e]).

Definition update (f : DashState -> DashState) : M unit :=
  fun s => (Ret tt, f s, []).

(** [try { body } catch (error) { handler } finally { final }]. *)
Definition try_catch_finally {A} (body : M A) (handler : string -> M A)
  (final : M unit) : M A :=
  fun s =>
    match body s with
    | (Ret a, s1, t1) =>
        let '(o, s2, t2) := final s1 in
        (match o with Ret _ => Ret a | Throw e => Throw e | Diverge => Diverge end,
         s2, (t1 ++ t2)%list)
    | (Throw e, s1, t1) =>
        match handler e s1 with
        | (Diverge, s2, t2) => (Diverge, s2, (t1 ++ t2)%list)
        | (o, s2, t2) =>
            let '(o', s3, t3) := final s2 in
            (match o' with Ret _ => o | Throw e' => Throw e' | Diverge => Diverge end,
             s3, (t1 ++ t2 ++ t3)%list)
        end
    | (Diverge, s1, t1) => (Diverge, s1, t1)
    end.

Declare Scope js_scope.
Delimit Scope js_scope with js.

Notation "x <- m ;; k" := (bind m (fun x => k))
  (at level 61, m at next level, right associativity) : js_scope.
Notation "m ;; k" := (bind m (fun _ => k))
  (at level 61, right associativity) : js_scope.

Local Open Scope js_scope.

Definition alert (message : string) : M unit := emit (Alert message).

(** ** Constants of the component *)

Definition months : list (Z * string) :=
  [ (1, "January"); (2, "February"); (3, "March"); (4, "April");
    (5, "May"); (6, "June"); (7, "July"); (8, "August");
    (9, "September"); (10, "October"); (11, "November"); (12, "December") ].

(** [months.find(m => m.value === month)?.label] inside a template literal. *)
Definition month_label (month : option number) : string :=
  match month with
  | Some n =>
      match find (fun m => strict_eq (of_Z (fst m)) n) months with
      | Some m => snd m
      | None => "undefined"
      end
  | None => "undefined"
  end.

Definition CHUNK_SIZE : Z := 5000.

Definition csv_header : string :=
  "date,time,latitude,longitude,probe_temperature_f,transit" ++ LF.

Definition endpoint (supabaseUrl : option string) : string :=
  env_text supabaseUrl ++ "/functions/v1/generate-csv-download".

Definition bearer (supabaseAnonKey : option string) : string :=
  "Bearer " ++ env_text supabaseAnonKey.

(** The local variables of [executeDownload] that the loop updates. *)
Record Locals : Type := {
  blobParts : list string;
  offset : Z;
  hasMore : bool;
  totalFetched : Z
}.

(** ** Handlers of the filter inputs *)

(** [onChange] of the month selector. *)
Definition onMonthChange (value : string) (s : DashState) : DashState :=
  let month := if truthy_string value then Some (parseInt value) else None in
  let s1 := setDownloadMonth month s in
  if match month with Some m => truthy_number m | None => false end
  then setDownloadEndDate EmptyString (setDownloadStartDate EmptyString s1)
  else s1.

(** [onChange] of the start date input. *)
Definition onStartDateChange (value : string) (s : DashState) : DashState :=
  let s1 := setDownloadStartDate value s in
  if truthy_string value then setDownloadMonth None s1 else s1.

(** [onChange] of the end date input. *)
Definition onEndDateChange (value : string) (s : DashState) : DashState :=
  let s1 := setDownloadEndDate value s in
  if truthy_string value then setDownloadMonth None s1 else s1.

Definition onStartTimeChange (value : string) (s : DashState) : DashState :=
  setDownloadStartTime value s.

Definition onEndTimeChange (value : string) (s : DashState) : DashState :=
  setDownloadEndTime value s.

(** [onClick] of a transport button: a second click on the selected type
    deselects it. *)
Definition onTransportClick (type : string) (s : DashState) : DashState :=
  setDownloadTransport
    (match downloadTransport s with
     | Some t => if String.eqb type t then None else Some type
     | None => Some type
     end) s.

(** ** Preview and download *)

Section Component.

Variable host : Host.
Variable env : Env.
(** The endpoint as seen through [fetch]. *)
Variable net : Req.t -> FetchResult.

Definition fetch (request : Req.t) : M Resp.t :=
  emit (Fetch request) ;;
  match net request with
  | Rejected e => throw e
  | Resolved r => ret r
  end.

(** [await response.json()]. *)
Definition response_json (r : Resp.t) : M Chunk.t :=
  match Resp.json r with
  | Parsed chunk => ret chunk
  | SyntaxError e => throw e
  end.

(** [json.error || fallback]. *)
Definition error_or (e : option string) (fallback : string) : string :=
  match e with
  | Some m => or_string m fallback
  | None => fallback
  end.

Definition date_filter (s : DashState) : DateFilter :=
  if month_selected s
  then match downloadMonth s with
       | Some m => ByMonth m
       | None => ByRange (downloadStartDate s) (downloadEndDate s)
       end
  else ByRange (downloadStartDate s) (downloadEndDate s).

Definition request (s : DashState) (offset limit : Z) : Req.t :=
  {| Req.url := endpoint (NEXT_PUBLIC_SUPABASE_URL env);
     Req.authorization := bearer (NEXT_PUBLIC_SUPABASE_ANON_KEY env);
     Req.startTime := downloadStartTime s;
     Req.endTime := downloadEndTime s;
     Req.transport := downloadTransport s;
     Req.filter := date_filter s;
     Req.offset := offset;
     Req.limit := limit |}.

Definition config_missing : bool :=
  negb (truthy_env (NEXT_PUBLIC_SUPABASE_URL env))
  || negb (truthy_env (NEXT_PUBLIC_SUPABASE_ANON_KEY env)).

Definition previewDownload : M unit := fun s =>
  (if negb (month_selected s)
      && (negb (truthy_string (downloadStartDate s))
          || negb (truthy_string (downloadEndDate s)))
   then alert "Please select either a month OR a date range"
   else
     update (setDownloadLoading true) ;;
     update (setDownloadSummary None) ;;
     update (setDownloadProgress (of_Z 0)) ;;
     emit (Progress (of_Z 0)) ;;
     try_catch_finally
       (if config_missing then throw "Supabase configuration missing"
        else
          response <- fetch (request s 0 1) ;;
          if negb (Resp.ok response)
          then throw ("Preview failed ("
                      ++ Number_toString host (of_Z (Resp.status response))
                      ++ "): " ++ Resp.text response)
          else
            json <- response_json response ;;
            if negb (Chunk.success json)
            then throw (error_or (Chunk.error json) "Failed to get preview")
            else
              let totalCount :=
                match Chunk.total json with Some t => t | None => 0 end in
              let estimatedSizeMB :=
                js_div (fl host) (of_Z (totalCount * 150)) (of_Z (1024 * 1024)) in
              let dateRange :=
                if month_selected s
                then month_label (downloadMonth s) ++ " (all years)"
                else downloadStartDate s ++ " to " ++ downloadEndDate s in
              let timeRange :=
                if truthy_string (downloadStartTime s)
                   || truthy_string (downloadEndTime s)
                then or_string (downloadStartTime s) "00:00" ++ " to "
                     ++ or_string (downloadEndTime s) "23:59"
                else "All day" in
              let transportFilter :=
                match downloadTransport s with
                | Some t => or_string t "All"
                | None => "All"
                end in
              let summary :=
                {| count := totalCount;
                   dateRange := dateRange;
                   timeRange := timeRange;
                   transport := transportFilter;
                   estimatedSizeMB :=
                     js_div (fl host)
                       (Math_round (js_mul (fl host) estimatedSizeMB (of_Z 100)))
                       (of_Z 100) |} in
              update (setDownloadSummary (Some summary)) ;;
              if totalCount =? 0
              then alert "No data found for the selected filters. Please adjust your selection."
              else ret tt)
       (fun errorMessage =>
          alert ("Failed to preview download: " ++ errorMessage ++ LF ++ LF
                 ++ "Check console for details."))
       (update (setDownloadLoading false))) s.

(** One line of the file: the template literal of the row loop. *)
Definition csv_row (row : TemperaturePoint) : string :=
  date row ++ "," ++ time row ++ ","
  ++ Number_toString host (latitude row) ++ ","
  ++ Number_toString host (longitude row) ++ ","
  ++ Number_toString host (probe_temperature_f row) ++ ","
  ++ transit row ++ LF.

(** [let chunkCsv = ''; for (const row of chunk.data) chunkCsv += ...]. *)
Definition chunk_csv (data : list TemperaturePoint) : string :=
  fold_left (fun chunkCsv row => chunkCsv ++ csv_row row) data EmptyString.

(** [Math.min(Math.round((totalFetched / count) * 100), 100)]. *)
Definition progress_of (totalFetched count : Z) : number :=
  Math_min
    (Math_round
       (js_mul (fl host) (js_div (fl host) (of_Z totalFetched) (of_Z count))
          (of_Z 100)))
    (of_Z 100).

(** The body of the [while (hasMore)] loop. *)
Definition fetch_chunk (s : DashState) (summary : DownloadSummary)
  (l : Locals) : M Locals :=
  response <- fetch (request s (offset l) CHUNK_SIZE) ;;
  if negb (Resp.ok response)
  then throw ("Chunk fetch failed ("
              ++ Number_toString host (of_Z (Resp.status response))
              ++ "): " ++ Resp.text response)
  else
    chunk <- response_json response ;;
    if negb (Chunk.success chunk)
    then throw (error_or (Chunk.error chunk) "Failed to fetch chunk")
    else
      let chunkCsv := chunk_csv (Chunk.data chunk) in
      let blobParts' :=
        if (0 <? String.length chunkCsv)%nat
        then (blobParts l ++ [chunkCsv])%list
        else blobParts l in
      let totalFetched' := totalFetched l + Chunk.fetchedCount chunk in
      let progress := progress_of totalFetched' (count summary) in
      update (setDownloadProgress progress) ;;
      emit (Progress progress) ;;
      emit (Timeout 10) ;;
      ret {| blobParts := blobParts';
             offset := offset l + CHUNK_SIZE;
             hasMore := Chunk.hasMore chunk;
             totalFetched := totalFetched' |}.

Fixpoint download_loop (fuel : nat) (s : DashState)
  (summary : DownloadSummary) (l : Locals) : M Locals :=
  if hasMore l then
    match fuel with
    | O => diverge
    | S fuel' =>
        l' <- fetch_chunk s summary l ;;
        download_loop fuel' s summary l'
    end
  else ret l.

Definition download_filename (s : DashState) : string :=
  if month_selected s
  then "temperature_data_" ++ month_label (downloadMonth s) ++ "_all_years.csv"
  else "temperature_data_" ++ downloadStartDate s ++ "_to_"
       ++ downloadEndDate s ++ ".csv".

Definition executeDownload (fuel : nat) : M unit := fun s =>
  match downloadSummary s with
  | None => alert "No preview available" s
  | Some summary =>
      (update (setDownloadLoading true) ;;
       update (setDownloadProgress (of_Z 0)) ;;
       emit (Progress (of_Z 0)) ;;
       try_catch_finally
         (if config_missing then throw "Supabase configuration missing"
          else
            l <- download_loop fuel s summary
                   {| blobParts := [csv_header];
                      offset := 0;
                      hasMore := true;
                      totalFetched := 0 |} ;;
            emit (CreateBlob (blobParts l) "text/csv;charset=utf-8;") ;;
            emit (ClickLink (download_filename s)) ;;
            emit (RevokeLater 100) ;;
            alert ("Successfully downloaded "
                   ++ Number_toLocaleString host (totalFetched l)
                   ++ " records!") ;;
            update (setDownloadStartDate EmptyString) ;;
            update (setDownloadEndDate EmptyString) ;;
            update (setDownloadStartTime EmptyString) ;;
            update (setDownloadEndTime EmptyString) ;;
            update (setDownloadTransport None) ;;
            update (setDownloadMonth None) ;;
            update (setDownloadSummary None) ;;
            update (setDownloadProgress (of_Z 0)) ;;
            emit (Progress (of_Z 0)))
         (fun errorMessage =>
            alert ("Failed to download data: " ++ errorMessage ++ LF ++ LF
                   ++ "Check console for details."))
         (update (setDownloadLoading false))) s
  end.

End Component.

(** ** Vocabulary of the properties *)

(** *** Traces *)

(** The requests, the progress values and the alerts of a trace, in order. *)

Fixpoint fetches (tr : list Event) : list Req.t :=
  match tr with
  | Fetch r :: tr' => r :: fetches tr'
  | _ :: tr' => fetches tr'
  | [] => []
  end.

Fixpoint progress_values (tr : list Event) : list number :=
  match tr with
  | Progress p :: tr' => p :: progress_values tr'
  | _ :: tr' => progress_values tr'
  | [] => []
  end.

Fixpoint alerts (tr : list Event) : list string :=
  match tr with
  | Alert m :: tr' => m :: alerts tr'
  | _ :: tr' => alerts tr'
  | [] => []
  end.

(** An event of the final artifact: the blob or the click on its link. *)
Definition is_artifact (e : Event) : bool :=
  match e with
  | CreateBlob _ _ | ClickLink _ => true
  | _ => false
  end.

(** *** Pages *)

(** The chunk of a request that succeeds: a response with an ok status
    whose JSON decodes and says [success]. *)
Definition page (net : Req.t -> FetchResult) (r : Req.t) : option Chunk.t :=
  match net r with
  | Resolved response =>
      if Resp.ok response then
        match Resp.json response with
        | Parsed chunk => if Chunk.success chunk then Some chunk else None
        | SyntaxError _ => None
        end
      else None
  | Rejected _ => None
  end.

Definition page_failed (net : Req.t -> FetchResult) (r : Req.t) : bool :=
  match page net r with Some _ => false | None => true end.

(** The records a request returned; none when it failed. *)
Definition page_data (net : Req.t -> FetchResult) (r : Req.t)
  : list TemperaturePoint :=
  match page net r with Some chunk => Chunk.data chunk | None => [] end.

(** All records returned over a session, in the order of the requests. *)
Definition returned_records (net : Req.t -> FetchResult) (tr : list Event)
  : list TemperaturePoint :=
  flat_map (page_data net) (fetches tr).

(** The message of the error a failed chunk request throws. *)
Definition failure_message (host : Host) (result : FetchResult) : string :=
  match result with
  | Rejected e => e
  | Resolved response =>
      if Resp.ok response then
        match Resp.json response with
        | Parsed chunk => error_or (Chunk.error chunk) "Failed to fetch chunk"
        | SyntaxError e => e
        end
      else "Chunk fetch failed ("
           ++ Number_toString host (of_Z (Resp.status response))
           ++ "): " ++ Resp.text response
  end.

Definition download_failed_alert (message : string) : Event :=
  Alert ("Failed to download data: " ++ message ++ LF ++ LF
         ++ "Check console for details.").

Definition preview_failed_alert (message : string) : Event :=
  Alert ("Failed to preview download: " ++ message ++ LF ++ LF
         ++ "Check console for details.").

(** [ceil(T / P)]. *)
Definition ceil_div (T P : Z) : Z := (T + P - 1) / P.

(** The number of round trips of the loop over [T] records. *)
Definition round_trips (T : Z) : nat := Z.to_nat (Z.max 1 (ceil_div T CHUNK_SIZE)).

(** The endpoint answers every request with a page and reports [hasMore]
    exactly when records remain beyond it, for a data set of [T] records. *)
Definition paginates (net : Req.t -> FetchResult) (T : Z) : Prop :=
  forall r, exists chunk,
    page net r = Some chunk
    /\ Chunk.hasMore chunk = (Req.offset r + Req.limit r <? T).

(** *** The state *)

(** The decimal text of an integer. *)
Definition decimal (z : Z) : string := NilZero.string_of_int (Z.to_int z).

(** The Export Request part of the state: the filters and the preview. *)
Definition same_request (s s' : DashState) : Prop :=
  downloadStartDate s' = downloadStartDate s
  /\ downloadEndDate s' = downloadEndDate s
  /\ downloadStartTime s' = downloadStartTime s
  /\ downloadEndTime s' = downloadEndTime s
  /\ downloadTransport s' = downloadTransport s
  /\ downloadMonth s' = downloadMonth s
  /\ downloadSummary s' = downloadSummary s.

(** The filters pass the validation of [previewDownload]. *)
Definition request_valid (s : DashState) : bool :=
  month_selected s
  || (truthy_string (downloadStartDate s) && truthy_string (downloadEndDate s)).

(** The date range of the state is set: a start or an end date is given. *)
Definition range_set (s : DashState) : bool :=
  truthy_string (downloadStartDate s) || truthy_string (downloadEndDate s).

Definition exclusive (s : DashState) : Prop :=
  month_selected s && range_set s = false.

(** The exclusion with a month that is merely not null. *)
Definition strictly_exclusive (s : DashState) : Prop :=
  downloadMonth s = None
  \/ (downloadStartDate s = EmptyString /\ downloadEndDate s = EmptyString).

(** The operations on the filters of the download section. *)
Inductive FilterOp : Type :=
| MonthChange (value : string)
| StartDateChange (value : string)
| EndDateChange (value : string)
| StartTimeChange (value : string)
| EndTimeChange (value : string)
| TransportClick (type : string).

Definition apply_op (s : DashState) (op : FilterOp) : DashState :=
  match op with
  | MonthChange v => onMonthChange v s
  | StartDateChange v => onStartDateChange v s
  | EndDateChange v => onEndDateChange v s
  | StartTimeChange v => onStartTimeChange v s
  | EndTimeChange v => onEndTimeChange v s
  | TransportClick t => onTransportClick t s
  end.

(** The changes that the inputs of the page can produce: the selector offers
    the empty value and the twelve month values. *)
Definition from_inputs (op : FilterOp) : Prop :=
  match op with
  | MonthChange v => v = EmptyString \/ exists m, In m months /\ v = decimal (fst m)
  | _ => True
  end.

(** The state in which the loop of [executeDownload] starts. *)
Definition started (s : DashState) : DashState :=
  setDownloadProgress (of_Z 0) (setDownloadLoading true s).

(** The state a completed download leaves: the clearing at the end of the
    [try] block, then the [finally] block. *)
Definition cleared (s : DashState) : DashState :=
  setDownloadLoading false
    (setDownloadProgress (of_Z 0)
       (setDownloadSummary None
          (setDownloadMonth None
             (setDownloadTransport None
                (setDownloadEndTime EmptyString
                   (setDownloadStartTime EmptyString
                      (setDownloadEndDate EmptyString
                         (setDownloadStartDate EmptyString s)))))))).

(** *** The loop and the call as relations *)

Definition initial_locals : Locals :=
  {| blobParts := [csv_header]; offset := 0; hasMore := true; totalFetched := 0 |}.

(** The locals after a successful round trip. *)
Definition next_locals (host : Host) (l : Locals) (chunk : Chunk.t) : Locals :=
  {| blobParts :=
       if (0 <? String.length (chunk_csv host (Chunk.data chunk)))%nat
       then (blobParts l ++ [chunk_csv host (Chunk.data chunk)])%list
       else blobParts l;
     offset := offset l + CHUNK_SIZE;
     hasMore := Chunk.hasMore chunk;
     totalFetched := totalFetched l + Chunk.fetchedCount chunk |}.

(** The events of a completed download after its last round trip. *)
Definition completion (host : Host) (s : DashState) (l : Locals) : list Event :=
  [ CreateBlob (blobParts l) "text/csv;charset=utf-8;";
    ClickLink (download_filename s);
    RevokeLater 100;
    Alert ("Successfully downloaded "
           ++ Number_toLocaleString host (totalFetched l) ++ " records!");
    Progress (of_Z 0) ].

(** The runs of the loop of [executeDownload] as a relation between the
    locals and the state before, and the outcome, the state and the trace
    after: the loop is over, the fuel is out, the request fails, or a page
    arrives and the loop goes on. *)
Inductive loop_run (host : Host) (env : Env) (net : Req.t -> FetchResult)
  (s : DashState) (summary : DownloadSummary)
  : Locals -> DashState -> outcome Locals -> DashState -> list Event -> Prop :=
| run_done l st :
    hasMore l = false ->
    loop_run host env net s summary l st (Ret l) st []
| run_out_of_fuel l st :
    hasMore l = true ->
    loop_run host env net s summary l st Diverge st []
| run_failed l st :
    hasMore l = true ->
    page net (request env s (offset l) CHUNK_SIZE) = None ->
    loop_run host env net s summary l st
      (Throw (failure_message host (net (request env s (offset l) CHUNK_SIZE))))
      st [Fetch (request env s (offset l) CHUNK_SIZE)]
| run_page l st chunk o st' tr :
    hasMore l = true ->
    page net (request env s (offset l) CHUNK_SIZE) = Some chunk ->
    loop_run host env net s summary (next_locals host l chunk)
      (setDownloadProgress
         (progress_of host (totalFetched (next_locals host l chunk))
            (count summary)) st)
      o st' tr ->
    loop_run host env net s summary l st o st'
      (Fetch (request env s (offset l) CHUNK_SIZE)
       :: Progress (progress_of host (totalFetched (next_locals host l chunk))
                      (count summary))
       :: Timeout 10 :: tr).

(** The ways a call of [executeDownload] ends, with its outcome, final state
    and trace. *)
Inductive download_run (host : Host) (env : Env) (net : Req.t -> FetchResult)
  (s : DashState) : outcome unit -> DashState -> list Event -> Prop :=
| no_preview :
    downloadSummary s = None ->
    download_run host env net s (Ret tt) s [Alert "No preview available"]
| no_configuration summary :
    downloadSummary s = Some summary ->
    config_missing env = true ->
    download_run host env net s (Ret tt) (setDownloadLoading false (started s))
      [Progress (of_Z 0); download_failed_alert "Supabase configuration missing"]
| completed summary l s1 t1 :
    downloadSummary s = Some summary ->
    config_missing env = false ->
    loop_run host env net s summary initial_locals (started s) (Ret l) s1 t1 ->
    download_run host env net s (Ret tt) (cleared s1)
      (Progress (of_Z 0) :: t1 ++ completion host s l)
| failed summary e s1 t1 :
    downloadSummary s = Some summary ->
    config_missing env = false ->
    loop_run host env net s summary initial_locals (started s) (Throw e) s1 t1 ->
    download_run host env net s (Ret tt) (setDownloadLoading false s1)
      (Progress (of_Z 0) :: t1 ++ [download_failed_alert e])
| unfinished summary s1 t1 :
    downloadSummary s = Some summary ->
    config_missing env = false ->
    loop_run host env net s summary initial_locals (started s) Diverge s1 t1 ->
    download_run host env net s Diverge s1 (Progress (of_Z 0) :: t1).

(** The fragments the loop appends for a sequence of requests: the text of
    each page that has any. *)
Definition data_fragments (host : Host) (net : Req.t -> FetchResult)
  (requests : list Req.t) : list string :=
  filter (fun fragment => (0 <? String.length fragment)%nat)
    (map (fun r => chunk_csv host (page_data net r)) requests).

(** The requests that returned at least one record. *)
Definition pages_with_records (net : Req.t -> FetchResult)
  (requests : list Req.t) : list Req.t :=
  filter (fun r => match page_data net r with [] => false | _ => true end)
    requests.

(** *** The file *)

(** The artifact in the words of the specification: a first line of field
    names, then one line per record, the fields of a line joined by commas
    in the fixed order, nothing quoted. *)

Definition field_names : list string :=
  ["date"; "time"; "latitude"; "longitude"; "probe_temperature_f"; "transit"].

Definition record_fields (host : Host) (r : TemperaturePoint) : list string :=
  [date r; time r; Number_toString host (latitude r);
   Number_toString host (longitude r);
   Number_toString host (probe_temperature_f r); transit r].

Definition delimited_line (fields : list string) : string :=
  String.concat "," fields ++ LF.

Definition delimited_file (host : Host) (records : list TemperaturePoint)
  : string :=
  String.concat EmptyString
    (map delimited_line (field_names :: map (record_fields host) records)).

(** The lines of a list of records, in the words of the specification: one
    delimited line per record, in the order of the list. *)
Definition record_lines (host : Host) (records : list TemperaturePoint)
  : string :=
  String.concat EmptyString
    (map (fun r => delimited_line (record_fields host r)) records).

(** The content of a blob: its parts in order. *)
Definition blob_text (parts : list string) : string :=
  String.concat EmptyString parts.

(** *** Progress *)

(** A sequence of numbers that never decreases, by [<=] of the language. *)
Fixpoint non_decreasing (l : list number) : bool :=
  match l with
  | a :: (b :: _) as r => js_le a b && non_decreasing r
  | _ => true
  end.

(** The percentage before the cap, for a positive count. *)
Definition percent (host : Host) (totalFetched count : Z) : Z :=
  Qfloor (fl host (fl host (inject_Z totalFetched / inject_Z count)
                   * inject_Z 100) + (1 # 2)).

(** ** Hosts, environments and endpoints to run the component on *)

(** A host that computes exactly and prints the integer part of a number. *)
Definition exact_host : Host := {|
  fl := fun q => q;
  Number_toString := fun n =>
    match n with
    | NaN => "NaN"
    | PosInf => "Infinity"
    | NegInf => "-Infinity"
    | Num q => decimal (Qfloor q)
    end;
  Number_toLocaleString := decimal
|}.

Definition configured : Env := {|
  NEXT_PUBLIC_SUPABASE_URL := Some "https://project.supabase.co";
  NEXT_PUBLIC_SUPABASE_ANON_KEY := Some "anon-key"
|}.

Definition unconfigured : Env := {|
  NEXT_PUBLIC_SUPABASE_URL := None;
  NEXT_PUBLIC_SUPABASE_ANON_KEY := Some "anon-key"
|}.

Definition reading (d : string) (t : Z) : TemperaturePoint := {|
  date := d;
  time := "12:00:00";
  latitude := of_Z 33;
  longitude := of_Z (-84);
  probe_temperature_f := of_Z t;
  transit := "walking"
|}.

Definition respond (chunk : Chunk.t) : FetchResult :=
  Resolved {| Resp.ok := true; Resp.status := 200;
              Resp.text := EmptyString; Resp.json := Parsed chunk |}.

(** The query endpoint is an external collaborator of the component.  This
    one serves [records] page by page, as section 6 of the specification
    describes it: a page holds the records from [offset] on, [limit] at
    most. *)
Definition paged_endpoint (records : list TemperaturePoint) (r : Req.t)
  : FetchResult :=
  let rows :=
    firstn (Z.to_nat (Req.limit r)) (skipn (Z.to_nat (Req.offset r)) records) in
  respond {| Chunk.success := true;
             Chunk.error := None;
             Chunk.data := rows;
             Chunk.fetchedCount := Z.of_nat (List.length rows);
             Chunk.hasMore :=
               Req.offset r + Req.limit r <? Z.of_nat (List.length records);
             Chunk.total := Some (Z.of_nat (List.length records)) |}.

(** An endpoint that answers the request at page [n] with the [n]-th result
    of a script, and with an empty last page beyond the script. *)
Definition scripted_endpoint (script : list FetchResult) (r : Req.t)
  : FetchResult :=
  nth (Z.to_nat (Req.offset r / CHUNK_SIZE)) script
    (respond {| Chunk.success := true; Chunk.error := None; Chunk.data := [];
                Chunk.fetchedCount := 0; Chunk.hasMore := false;
                Chunk.total := None |}).

Definition chunk_of (rows : list TemperaturePoint) (more : bool) : FetchResult :=
  respond {| Chunk.success := true; Chunk.error := None; Chunk.data := rows;
             Chunk.fetchedCount := Z.of_nat (List.length rows);
             Chunk.hasMore := more; Chunk.total := None |}.

Definition http_error (status : Z) (body : string) : FetchResult :=
  Resolved {| Resp.ok := false; Resp.status := status; Resp.text := body;
              Resp.json := SyntaxError "Unexpected token" |}.

Definition logical_failure (message : string) : FetchResult :=
  Resolved {| Resp.ok := true; Resp.status := 200; Resp.text := EmptyString;
              Resp.json := Parsed {| Chunk.success := false;
                                     Chunk.error := Some message;
                                     Chunk.data := [];
                                     Chunk.fetchedCount := 0;
                                     Chunk.hasMore := false;
                                     Chunk.total := None |} |}.

Definition summary_of (n : Z) : DownloadSummary := {|
  count := n;
  dateRange := "2025-07-01 to 2025-07-31";
  timeRange := "All day";
  transport := "All";
  estimatedSizeMB := of_Z 0
|}.

(** The state after a preview of a date range that counted [n] records. *)
Definition previewed (n : Z) : DashState := {|
  downloadStartDate := "2025-07-01";
  downloadEndDate := "2025-07-31";
  downloadStartTime := EmptyString;
  downloadEndTime := EmptyString;
  downloadTransport := None;
  downloadMonth := None;
  downloadLoading := false;
  downloadSummary := Some (summary_of n);
  downloadProgress := of_Z 0
|}.

(** The same filters before any preview. *)
Definition not_previewed : DashState := setDownloadSummary None (previewed 0).

(** ** Sessions to run *)

(** The second of three pages fails with HTTP 500. *)
Definition failing_script : list FetchResult :=
  [ chunk_of [reading "2025-07-01" 70] true;
    http_error 500 "Internal Server Error";
    chunk_of [reading "2025-07-03" 72] false ].

Definition failing_session : outcome unit * DashState * list Event :=
  executeDownload exact_host configured (scripted_endpoint failing_script) 5
    (previewed 3).

(** The first page is answered with [success = false]. *)
Definition refused_session : outcome unit * DashState * list Event :=
  executeDownload exact_host configured
    (scripted_endpoint [logical_failure "Query timed out"]) 5 (previewed 3).

(** Three pages, the second without records. *)
Definition sparse_script : list FetchResult :=
  [ chunk_of [reading "2025-07-01" 70; reading "2025-07-02" 71] true;
    chunk_of [] true;
    chunk_of [reading "2025-07-03" 72] false ].

Definition sparse_session : outcome unit * DashState * list Event :=
  executeDownload exact_host configured (scripted_endpoint sparse_script) 5
    (previewed 3).

(** A download of a data set without records, after a preview that counted
    none. *)
Definition empty_session : outcome unit * DashState * list Event :=
  executeDownload exact_host configured (paged_endpoint []) 5 (previewed 0).

(** The preview of a data set without records, and the download that
    follows it. *)
Definition empty_preview : outcome unit * DashState * list Event :=
  previewDownload exact_host configured (paged_endpoint []) not_previewed.

Definition download_after_empty_preview : outcome unit * DashState * list Event :=
  executeDownload exact_host configured (paged_endpoint []) 5
    (snd (fst empty_preview)).

(** The example of the specification: 12000 records, pages of 5000. *)
Definition example_records : list TemperaturePoint :=
  repeat (reading "2025-07-01" 70) (Z.to_nat 12000).

Definition example_session : outcome unit * DashState * list Event :=
  executeDownload exact_host configured (paged_endpoint example_records) 5
    (previewed 12000).

(** ** The colour of a temperature *)

(** [a < b] on numbers; every comparison with NaN is false. *)
Definition js_lt (a b : number) : bool :=
  match a, b with
  | NaN, _ | _, NaN => false
  | NegInf, NegInf => false
  | NegInf, _ => true
  | PosInf, _ => false
  | Num _, PosInf => true
  | Num _, NegInf => false
  | Num x, Num y => Qlt_bool x y
  end.

Definition getTemperatureColor (temp : number) : string :=
  if js_lt temp (of_Z 32) then "#0066cc"
  else if js_lt temp (of_Z 50) then "#00cccc"
  else if js_lt temp (of_Z 70) then "#00cc00"
  else if js_lt temp (of_Z 80) then "#cccc00"
  else if js_lt temp (of_Z 90) then "#ff8800"
  else "#ff0000".

(** The colours of the legend of the page, from the coldest to the hottest. *)
Definition temperature_scale : list string :=
  ["#0066cc"; "#00cccc"; "#00cc00"; "#cccc00"; "#ff8800"; "#ff0000"].

(** The place of a colour in a scale; the length of the scale when it is not
    in it. *)
Fixpoint scale_index (scale : list string) (colour : string) : nat :=
  match scale with
  | c :: rest => if String.eqb c colour then O else S (scale_index rest colour)
  | [] => O
  end.

(** ** The map section *)

Module Points.

(** The body sent to [get-temperature-points] and the JSON it answers. *)
Record Bounds : Type := {
  north : number;
  south : number;
  east : number;
  west : number
}.

Record Payload : Type := {
  startDate : string;
  endDate : string;
  startTime : string;
  endTime : string;
  transport : option string;
  bounds : Bounds
}.

Record Json : Type := {
  success : bool;
  message : option string;
  error : option string;
  count : Z;
  totalFromDb : Z;
  data : option (list TemperaturePoint)
}.

(** [supabase.functions.invoke] throws, returns an error with a message, or
    returns the decoded body, which may be null. *)
Inductive Result : Type :=
| Threw (message : string)
| Failed (message : string)
| Answered (json : option Json).

End Points.

Inductive MapStyle : Type :=
| minimal | clean | grayscale | dark | standard | satellite.

Module MapView.

(** The map filter states of the component and the map reference. *)
Record t : Type := {
  selectedDate : string;
  startTime : string;
  endTime : string;
  transport : option string;
  loading : bool;
  lastResult : option Points.Json;
  temperaturePoints : list TemperaturePoint;
  hasInitiallyLoaded : bool;
  mapStyle : MapStyle;
  mapRef : option Points.Bounds
}.

Definition setSelectedDate (v : string) (s : t) : t :=
  {| selectedDate := v;
     startTime := startTime s;
     endTime := endTime s;
     transport := transport s;
     loading := loading s;
     lastResult := lastResult s;
     temperaturePoints := temperaturePoints s;
     hasInitiallyLoaded := hasInitiallyLoaded s;
     mapStyle := mapStyle s;
     mapRef := mapRef s |}.

Definition setStartTime (v : string) (s : t) : t :=
  {| selectedDate := selectedDate s;
     startTime := v;
     endTime := endTime s;
     transport := transport s;
     loading := loading s;
     lastResult := lastResult s;
     temperaturePoints := temperaturePoints s;
     hasInitiallyLoaded := hasInitiallyLoaded s;
     mapStyle := mapStyle s;
     mapRef := mapRef s |}.

Definition setEndTime (v : string) (s : t) : t :=
  {| selectedDate := selectedDate s;
     startTime := startTime s;
     endTime := v;
     transport := transport s;
     loading := loading s;
     lastResult := lastResult s;
     temperaturePoints := temperaturePoints s;
     hasInitiallyLoaded := hasInitiallyLoaded s;
     mapStyle := mapStyle s;
     mapRef := mapRef s |}.

Definition setTransport (v : option string) (s : t) : t :=
  {| selectedDate := selectedDate s;
     startTime := startTime s;
     endTime := endTime s;
     transport := v;
     loading := loading s;
     lastResult := lastResult s;
     temperaturePoints := temperaturePoints s;
     hasInitiallyLoaded := hasInitiallyLoaded s;
     mapStyle := mapStyle s;
     mapRef := mapRef s |}.

Definition setLoading (v : bool) (s : t) : t :=
  {| selectedDate := selectedDate s;
     startTime := startTime s;
     endTime := endTime s;
     transport := transport s;
     loading := v;
     lastResult := lastResult s;
     temperaturePoints := temperaturePoints s;
     hasInitiallyLoaded := hasInitiallyLoaded s;
     mapStyle := mapStyle s;
     mapRef := mapRef s |}.

Definition setLastResult (v : option Points.Json) (s : t) : t :=
  {| selectedDate := selectedDate s;
     startTime := startTime s;
     endTime := endTime s;
     transport := transport s;
     loading := loading s;
     lastResult := v;
     temperaturePoints := temperaturePoints s;
     hasInitiallyLoaded := hasInitiallyLoaded s;
     mapStyle := mapStyle s;
     mapRef := mapRef s |}.

Definition setTemperaturePoints (v : list TemperaturePoint) (s : t) : t :=
  {| selectedDate := selectedDate s;
     startTime := startTime s;
     endTime := endTime s;
     transport := transport s;
     loading := loading s;
     lastResult := lastResult s;
     temperaturePoints := v;
     hasInitiallyLoaded := hasInitiallyLoaded s;
     mapStyle := mapStyle s;
     mapRef := mapRef s |}.

Definition setHasInitiallyLoaded (v : bool) (s : t) : t :=
  {| selectedDate := selectedDate s;
     startTime := startTime s;
     endTime := endTime s;
     transport := transport s;
     loading := loading s;
     lastResult := lastResult s;
     temperaturePoints := temperaturePoints s;
     hasInitiallyLoaded := v;
     mapStyle := mapStyle s;
     mapRef := mapRef s |}.

Definition setMapStyle (v : MapStyle) (s : t) : t :=
  {| selectedDate := selectedDate s;
     startTime := startTime s;
     endTime := endTime s;
     transport := transport s;
     loading := loading s;
     lastResult := lastResult s;
     temperaturePoints := temperaturePoints s;
     hasInitiallyLoaded := hasInitiallyLoaded s;
     mapStyle := v;
     mapRef := mapRef s |}.

Definition setMapRef (v : option Points.Bounds) (s : t) : t :=
  {| selectedDate := selectedDate s;
     startTime := startTime s;
     endTime := endTime s;
     transport := transport s;
     loading := loading s;
     lastResult := lastResult s;
     temperaturePoints := temperaturePoints s;
     hasInitiallyLoaded := hasInitiallyLoaded s;
     mapStyle := mapStyle s;
     mapRef := v |}.

Inductive Event : Type :=
| Alert (message : string)
| Invoke (name : string) (body : Points.Payload).

Fixpoint alerts (tr : list Event) : list string :=
  match tr with
  | Alert m :: tr' => m :: alerts tr'
  | _ :: tr' => alerts tr'
  | [] => []
  end.

Fixpoint invocations (tr : list Event) : list Points.Payload :=
  match tr with
  | Invoke _ body :: tr' => body :: invocations tr'
  | _ :: tr' => invocations tr'
  | [] => []
  end.

End MapView.

Section MapSection.

(** [supabase.functions.invoke(name, { body })]. *)
Variable invoke : string -> Points.Payload -> Points.Result.

(** [alert(message)] behind [if (!isInitialLoad)]. *)
Definition notify (isInitialLoad : bool) (message : string) : list MapView.Event :=
  if negb isInitialLoad then [MapView.Alert message] else [].

(** [json.message || json.error] inside a template literal. *)
Definition message_or_error (json : Points.Json) : string :=
  let e := match Points.error json with Some e => e | None => "undefined" end in
  match Points.message json with
  | Some m => if truthy_string m then m else e
  | None => e
  end.

Definition points_payload (s : MapView.t) (map : Points.Bounds) : Points.Payload :=
  {| Points.startDate := MapView.selectedDate s;
     Points.endDate := MapView.selectedDate s;
     Points.startTime := MapView.startTime s;
     Points.endTime := MapView.endTime s;
     Points.transport := MapView.transport s;
     Points.bounds := map |}.

(** The [try] block of [fetchPoints] with its [catch]: the state and the
    alerts when the block is left, by its end, by a [return] or through the
    handler. *)
Definition fetchPoints_try (isInitialLoad : bool) (payload : Points.Payload)
  (s : MapView.t) : MapView.t * list MapView.Event :=
  match invoke "get-temperature-points" payload with
  | Points.Threw _ => (s, notify isInitialLoad "Failed to fetch data")
  | Points.Failed m => (s, notify isInitialLoad ("Error: " ++ m))
  | Points.Answered None =>
      (MapView.setLastResult None s, notify isInitialLoad "Failed to fetch data")
  | Points.Answered (Some json) =>
      let s1 := MapView.setLastResult (Some json) s in
      if negb (Points.success json)
      then (s1, notify isInitialLoad ("Error: " ++ message_or_error json))
      else
        let s2 :=
          MapView.setTemperaturePoints
            (match Points.data json with Some d => d | None => [] end) s1 in
        let empty :=
          match Points.data json with Some [] => true | _ => false end in
        (if isInitialLoad then MapView.setHasInitiallyLoaded true s2 else s2,
         if negb isInitialLoad && empty
         then [MapView.Alert "No data found for the selected criteria"]
         else [])
  end.

Definition fetchPoints (isInitialLoad : bool) (s : MapView.t)
  : MapView.t * list MapView.Event :=
  match MapView.mapRef s with
  | None => (s, notify isInitialLoad "Map not ready")
  | Some map =>
      let payload := points_payload s map in
      let '(s', tr) :=
        fetchPoints_try isInitialLoad payload (MapView.setLoading true s) in
      (MapView.setLoading false s',
       MapView.Invoke "get-temperature-points" payload :: tr)
  end.

Definition applyFilters (s : MapView.t) : MapView.t * list MapView.Event :=
  fetchPoints false s.

(** The condition of the effect that loads the data of the day. *)
Definition autoload_due (s : MapView.t) : bool :=
  match MapView.mapRef s with Some _ => true | None => false end
  && negb (MapView.hasInitiallyLoaded s) && negb (MapView.loading s).

(** One run of the effect. *)
Definition autoload (s : MapView.t) : MapView.t * list MapView.Event :=
  if autoload_due s then fetchPoints true s else (s, []).

(** [n] runs of the effect, one after the other. *)
Fixpoint autoload_rounds (n : nat) (s : MapView.t)
  : MapView.t * list MapView.Event :=
  match n with
  | O => (s, [])
  | S n' =>
      let '(s1, t1) := autoload s in
      let '(s2, t2) := autoload_rounds n' s1 in
      (s2, (t1 ++ t2)%list)
  end.

End MapSection.

Definition clearPoints (s : MapView.t) : MapView.t :=
  MapView.setLastResult None (MapView.setTemperaturePoints [] s).

(** [resetToDefaults]; [newSelectedDate] is the date [getDefaultDates] reads
    from the clock. *)
Definition resetToDefaults (newSelectedDate : string) (s : MapView.t) : MapView.t :=
  MapView.setHasInitiallyLoaded false
    (MapView.setLastResult None
       (MapView.setTemperaturePoints []
          (MapView.setMapStyle clean
             (MapView.setTransport None
                (MapView.setEndTime EmptyString
                   (MapView.setStartTime EmptyString
                      (MapView.setSelectedDate newSelectedDate s))))))).

(** The call failed: the function threw, returned an error, a null body, or
    a body without [success]. *)
Definition points_failed (result : Points.Result) : bool :=
  match result with
  | Points.Answered (Some json) => negb (Points.success json)
  | _ => true
  end.

(** ** The earlier encoder of the file *)

Module Raw.

(** A field of a row as the JSON of a response gives it: the interface of
    the component says string or number, the wire may also say null or
    leave the field out. *)
Inductive value : Type :=
| null
| undefined
| text (s : string)
| num (n : number).

Record row : Type := {
  date : value;
  time : value;
  latitude : value;
  longitude : value;
  probe_temperature_f : value;
  transit : value
}.

End Raw.

(** A field inside a template literal. *)
Definition template_text (host : Host) (v : Raw.value) : string :=
  match v with
  | Raw.null => "null"
  | Raw.undefined => "undefined"
  | Raw.text s => s
  | Raw.num n => Number_toString host n
  end.

(** A field as [Array.prototype.join] prints it: nothing for null and
    undefined. *)
Definition join_text (host : Host) (v : Raw.value) : string :=
  match v with
  | Raw.null | Raw.undefined => EmptyString
  | Raw.text s => s
  | Raw.num n => Number_toString host n
  end.

(** [row.join(',')] and [headers.join(',')]. *)
Definition join_commas (fields : list string) : string :=
  String.concat "," fields.

(** [convertToCSV]: the header and one entry per point, each joined by
    commas, the entries joined by line feeds. *)
Definition convertToCSV (host : Host) (data : list Raw.row) : string :=
  let headers :=
    ["date"; "time"; "latitude"; "longitude"; "probe_temperature_f"; "transit"] in
  let csvRows :=
    fold_left
      (fun csvRows point =>
         (csvRows
          ++ [join_commas
                (map (join_text host)
                   [Raw.date point; Raw.time point; Raw.latitude point;
                    Raw.longitude point; Raw.probe_temperature_f point;
                    Raw.transit point])])%list)
      data [join_commas headers] in
  String.concat LF csvRows.

(** The template literal of the row loop of [executeDownload], on a row as
    the wire gives it. *)
Definition raw_csv_row (host : Host) (row : Raw.row) : string :=
  template_text host (Raw.date row) ++ ","
  ++ template_text host (Raw.time row) ++ ","
  ++ template_text host (Raw.latitude row) ++ ","
  ++ template_text host (Raw.longitude row) ++ ","
  ++ template_text host (Raw.probe_temperature_f row) ++ ","
  ++ template_text host (Raw.transit row) ++ LF.

(** The row loop of [executeDownload] on such rows. *)
Definition raw_chunk_csv (host : Host) (data : list Raw.row) : string :=
  fold_left (fun chunkCsv row => chunkCsv ++ raw_csv_row host row) data
    EmptyString.

(** A row of the interface as a row of the wire. *)
Definition of_point (p : TemperaturePoint) : Raw.row :=
  {| Raw.date := Raw.text (date p);
     Raw.time := Raw.text (time p);
     Raw.latitude := Raw.num (latitude p);
     Raw.longitude := Raw.num (longitude p);
     Raw.probe_temperature_f := Raw.num (probe_temperature_f p);
     Raw.transit := Raw.text (transit p) |}.

Definition present (v : Raw.value) : bool :=
  match v with
  | Raw.null | Raw.undefined => false
  | _ => true
  end.

(** Every field of the row is there. *)
Definition complete (r : Raw.row) : bool :=
  present (Raw.date r) && present (Raw.time r) && present (Raw.latitude r)
  && present (Raw.longitude r) && present (Raw.probe_temperature_f r)
  && present (Raw.transit r).

(** The entry of [convertToCSV] for a row, and the line of the template
    literal without its line feed, as a join. *)
Definition joined (host : Host) (r : Raw.row) : string :=
  join_commas
    (map (join_text host)
       [Raw.date r; Raw.time r; Raw.latitude r; Raw.longitude r;
        Raw.probe_temperature_f r; Raw.transit r]).

Definition templated (host : Host) (r : Raw.row) : string :=
  join_commas
    (map (template_text host)
       [Raw.date r; Raw.time r; Raw.latitude r; Raw.longitude r;
        Raw.probe_temperature_f r; Raw.transit r]).

(** A row whose transit is null. *)
Definition without_transit : Raw.row :=
  {| Raw.date := Raw.text "2025-07-01";
     Raw.time := Raw.text "12:00:00";
     Raw.latitude := Raw.num (of_Z 33);
     Raw.longitude := Raw.num (of_Z (-84));
     Raw.probe_temperature_f := Raw.num (of_Z 70);
     Raw.transit := Raw.null |}.

(** ** The sort of the submissions table *)

Module Sort.

(** The columns: the fields of a submission and its duration. *)
Inductive key : Type :=
| email | submission_datetime | device | transport | complete | csv_check
| temp_check | location_check | start_time | stop_time | num_records
| duration.

Inductive direction : Type := asc | desc.

Record SortConfig : Type := {
  sort_key : key;
  sort_direction : direction
}.

Definition key_eq_dec (a b : key) : {a = b} + {a <> b}.
Proof. decide equality. Defined.

(** [handleSort]: the update of the sort when the header of a column is
    clicked. *)
Definition handleSort (k : key) (current : option SortConfig)
  : option SortConfig :=
  match current with
  | Some c =>
      if key_eq_dec (sort_key c) k then
        match sort_direction c with
        | asc => Some {| sort_key := k; sort_direction := desc |}
        | desc => None
        end
      else Some {| sort_key := k; sort_direction := asc |}
  | None => Some {| sort_key := k; sort_direction := asc |}
  end.

End Sort.

(** ** The middleware of the routes *)

Inductive Routing : Type :=
| Redirect (pathname : string)
| Next.

(** [middleware], as a function of the session read from the cookies and of
    the path of the request. *)
Definition middleware {Session : Type} (session : option Session)
  (pathname : string) : Routing :=
  match session with
  | None => if negb (String.eqb pathname "/login") then Redirect "/login" else Next
  | Some _ => if String.eqb pathname "/login" then Redirect "/" else Next
  end.

(** ** More vocabulary *)

(** The sum of the counts that the pages of a sequence of requests report. *)
Definition fetched_total (net : Req.t -> FetchResult) (requests : list Req.t) : Z :=
  fold_right
    (fun r total =>
       match page net r with
       | Some chunk => Chunk.fetchedCount chunk + total
       | None => total
       end) 0 requests.

(** The endpoint answers every request with a page and says that more
    remain. *)
Definition always_more (net : Req.t -> FetchResult) : Prop :=
  forall r, exists chunk, page net r = Some chunk /\ Chunk.hasMore chunk = true.

(** An endpoint that never runs out of empty pages. *)
Definition endless_endpoint (r : Req.t) : FetchResult := chunk_of [] true.

(** The message of the error a failed preview throws. *)
Definition preview_failure_message (host : Host) (result : FetchResult) : string :=
  match result with
  | Rejected e => e
  | Resolved response =>
      if Resp.ok response then
        match Resp.json response with
        | Parsed json => error_or (Chunk.error json) "Failed to get preview"
        | SyntaxError e => e
        end
      else "Preview failed ("
           ++ Number_toString host (of_Z (Resp.status response))
           ++ "): " ++ Resp.text response
  end.


(** A map view with the map mounted, and some answers of the function. *)

Definition atlanta : Points.Bounds :=
  {| Points.north := of_Z 34; Points.south := of_Z 33;
     Points.east := of_Z (-84); Points.west := of_Z (-85) |}.

Definition mounted : MapView.t :=
  {| MapView.selectedDate := "2025-07-04";
     MapView.startTime := "08:00";
     MapView.endTime := EmptyString;
     MapView.transport := Some "Walking";
     MapView.loading := false;
     MapView.lastResult := None;
     MapView.temperaturePoints := [reading "2025-07-03" 75];
     MapView.hasInitiallyLoaded := false;
     MapView.mapStyle := dark;
     MapView.mapRef := Some atlanta |}.

Definition answer (rows : list TemperaturePoint) : Points.Result :=
  Points.Answered
    (Some {| Points.success := true; Points.message := None;
             Points.error := None;
             Points.count := Z.of_nat (List.length rows);
             Points.totalFromDb := Z.of_nat (List.length rows);
             Points.data := Some rows |}).

Definition serves (rows : list TemperaturePoint) (name : string)
  (body : Points.Payload) : Points.Result := answer rows.

Definition refuses (name : string) (body : Points.Payload) : Points.Result :=
  Points.Failed "Function not found".

(** The state in which the [try] block of [previewDownload] starts. *)
Definition prepared (s : DashState) : DashState :=
  setDownloadProgress (of_Z 0) (setDownloadSummary None (setDownloadLoading true s)).

(** [json.total || 0]. *)
Definition total_or_zero (json : Chunk.t) : Z :=
  match Chunk.total json with Some t => t | None => 0 end.

Definition no_data_alert : Event :=
  Alert "No data found for the selected filters. Please adjust your selection.".

(** * Properties *)

(** ** Strings *)

Lemma append_nil_r (s : string) : s ++ EmptyString = s.
Proof. induction s as [|c s IH]; simpl; [reflexivity | now rewrite IH]. Qed.

Lemma append_assoc (a b c : string) : (a ++ b) ++ c = a ++ (b ++ c).
Proof. induction a as [|x a IH]; simpl; [reflexivity | now rewrite IH]. Qed.

Lemma length_append (a b : string) :
  String.length (a ++ b) = (String.length a + String.length b)%nat.
Proof. induction a as [|x a IH]; simpl; [reflexivity | now rewrite IH]. Qed.

Lemma concat_empty_app (xs ys : list string) :
  String.concat EmptyString (xs ++ ys)
  = String.concat EmptyString xs ++ String.concat EmptyString ys.
Proof.
  induction xs as [|x xs IH]; [reflexivity|].
  destruct xs as [|x' xs'].
  - simpl. destruct ys as [|y ys]; simpl.
    + now rewrite append_nil_r.
    + reflexivity.
  - change ((x :: x' :: xs') ++ ys)%list with (x :: (x' :: xs') ++ ys)%list.
    simpl in IH |- *. rewrite IH. now rewrite append_assoc.
Qed.

Lemma concat_empty_cons (x : string) (xs : list string) :
  String.concat EmptyString (x :: xs) = x ++ String.concat EmptyString xs.
Proof.
  destruct xs as [|y ys]; simpl; [now rewrite append_nil_r | reflexivity].
Qed.

(** ** [parseInt] on the option values of the month selector *)

Example parseInt_7 : parseInt "7" = of_Z 7.
Proof. reflexivity. Qed.

Example parseInt_12 : parseInt "12" = of_Z 12.
Proof. reflexivity. Qed.

Example parseInt_junk : parseInt "abc" = NaN.
Proof. reflexivity. Qed.

(** ** One round trip *)

Section Loop.

Variable host : Host.
Variable env : Env.
Variable net : Req.t -> FetchResult.
Variable s : DashState.
Variable summary : DownloadSummary.

Local Abbreviation req l := (request env s (offset l) CHUNK_SIZE).

Local Abbreviation after l chunk :=
  (progress_of host (totalFetched (next_locals host l chunk)) (count summary)).

Lemma fetch_chunk_eq (l : Locals) (st : DashState) :
  fetch_chunk host env net s summary l st =
  match page net (req l) with
  | Some chunk =>
      (Ret (next_locals host l chunk),
       setDownloadProgress (after l chunk) st,
       [Fetch (req l); Progress (after l chunk); Timeout 10])
  | None => (Throw (failure_message host (net (req l))), st, [Fetch (req l)])
  end.
Proof.
  unfold fetch_chunk, fetch, response_json, page, failure_message,
    bind, emit, update, throw, ret.
  destruct (net (request env s (offset l) CHUNK_SIZE)) as [e|r]; [reflexivity|].
  destruct (Resp.ok r); simpl; [|reflexivity].
  destruct (Resp.json r) as [chunk|e]; simpl; [|reflexivity].
  destruct (Chunk.success chunk); reflexivity.
Qed.

Lemma download_loop_done (fuel : nat) (l : Locals) (st : DashState) :
  hasMore l = false ->
  download_loop host env net fuel s summary l st = (Ret l, st, []).
Proof. intros H. destruct fuel; simpl; rewrite H; reflexivity. Qed.

Lemma download_loop_out_of_fuel (l : Locals) (st : DashState) :
  hasMore l = true ->
  download_loop host env net 0 s summary l st = (Diverge, st, []).
Proof. intros H. simpl. rewrite H. reflexivity. Qed.

Lemma download_loop_step (fuel : nat) (l : Locals) (st : DashState) :
  hasMore l = true ->
  download_loop host env net (S fuel) s summary l st =
  match page net (req l) with
  | Some chunk =>
      let '(o, st', tr) :=
        download_loop host env net fuel s summary (next_locals host l chunk)
          (setDownloadProgress (after l chunk) st) in
      (o, st', Fetch (req l) :: Progress (after l chunk) :: Timeout 10 :: tr)
  | None => (Throw (failure_message host (net (req l))), st, [Fetch (req l)])
  end.
Proof.
  intros H. simpl. rewrite H. unfold bind. rewrite fetch_chunk_eq.
  destruct (page net (req l)) as [chunk|]; reflexivity.
Qed.

End Loop.

(** ** The loop and its relation *)

Section Runs.

Variable host : Host.
Variable env : Env.
Variable net : Req.t -> FetchResult.
Variable s : DashState.
Variable summary : DownloadSummary.

Lemma download_loop_run (fuel : nat) :
  forall l st o st' tr,
    download_loop host env net fuel s summary l st = (o, st', tr) ->
    loop_run host env net s summary l st o st' tr.
Proof.
  induction fuel as [|fuel IH]; intros l st o st' tr H.
  - destruct (hasMore l) eqn:Hm.
    + rewrite download_loop_out_of_fuel in H by assumption.
      inversion H; subst. now constructor.
    + rewrite download_loop_done in H by assumption.
      inversion H; subst. now constructor.
  - destruct (hasMore l) eqn:Hm.
    + rewrite download_loop_step in H by assumption.
      destruct (page net (request env s (offset l) CHUNK_SIZE))
        as [chunk|] eqn:Hp.
      * destruct (download_loop host env net fuel s summary
                    (next_locals host l chunk) _) as [[o1 st1] tr1] eqn:Hl.
        inversion H; subst.
        eapply run_page; eauto.
      * inversion H; subst. now apply run_failed.
    + rewrite download_loop_done in H by assumption.
      inversion H; subst. now constructor.
Qed.

(** The loop writes the progress and nothing else of the state. *)
Lemma loop_run_state l st o st' tr :
  loop_run host env net s summary l st o st' tr ->
  same_request st st' /\ downloadLoading st' = downloadLoading st.
Proof.
  unfold same_request.
  induction 1 as [l st Hm|l st Hm|l st Hm Hp|l st chunk o st' tr Hm Hp Hr IH];
    try (repeat split; reflexivity).
  simpl in IH. exact IH.
Qed.

(** The loop alerts nothing and makes no artifact. *)
Lemma loop_run_events l st o st' tr :
  loop_run host env net s summary l st o st' tr ->
  Forall (fun e => match e with
                   | Fetch _ | Progress _ | Timeout _ => True
                   | _ => False
                   end) tr.
Proof.
  induction 1; repeat constructor; assumption.
Qed.

(** A loop that throws has just sent the request that failed; the
    requests before it succeeded. *)
Lemma loop_run_throw l st e st' tr :
  loop_run host env net s summary l st (Throw e) st' tr ->
  exists pre r,
    tr = (pre ++ [Fetch r])%list
    /\ page net r = None
    /\ e = failure_message host (net r)
    /\ Forall (fun r' => page_failed net r' = false) (fetches pre).
Proof.
  intros H. remember (Throw e) as o eqn:Ho.
  induction H as [l st Hm|l st Hm|l st Hm Hp|l st chunk o st' tr Hm Hp Hr IH];
    try discriminate.
  - inversion Ho; subst.
    exists [], (request env s (offset l) CHUNK_SIZE).
    repeat split; [assumption | constructor].
  - destruct (IH Ho) as (pre & r & -> & Hr1 & He & Hall).
    eexists (_ :: _ :: _ :: pre), r.
    split; [reflexivity|]. repeat split; try assumption.
    cbn [fetches]. constructor; [|assumption].
    unfold page_failed. now rewrite Hp.
Qed.

(** In a loop that does not throw every request succeeded. *)
Lemma loop_run_no_throw l st o st' tr :
  loop_run host env net s summary l st o st' tr ->
  (forall e, o <> Throw e) ->
  Forall (fun r => page_failed net r = false) (fetches tr).
Proof.
  induction 1 as [l st Hm|l st Hm|l st Hm Hp|l st chunk o st' tr Hm Hp Hr IH];
    intros Ho; cbn [fetches].
  - constructor.
  - constructor.
  - exfalso. eapply Ho. reflexivity.
  - constructor; [|now apply IH].
    unfold page_failed. now rewrite Hp.
Qed.

End Runs.

(** ** The text of a page *)

Section Encoding.

Variable host : Host.

Lemma fold_csv_rows (data : list TemperaturePoint) (init : string) :
  fold_left (fun chunkCsv row => chunkCsv ++ csv_row host row) data init
  = init ++ String.concat EmptyString (map (csv_row host) data).
Proof.
  revert init. induction data as [|row data IH]; intros init.
  - simpl. now rewrite append_nil_r.
  - cbn [fold_left map]. rewrite IH, concat_empty_cons.
    now rewrite append_assoc.
Qed.

Lemma chunk_csv_rows (data : list TemperaturePoint) :
  chunk_csv host data = String.concat EmptyString (map (csv_row host) data).
Proof. unfold chunk_csv. now rewrite fold_csv_rows. Qed.

Lemma chunk_csv_app (xs ys : list TemperaturePoint) :
  chunk_csv host (xs ++ ys) = chunk_csv host xs ++ chunk_csv host ys.
Proof. now rewrite !chunk_csv_rows, map_app, concat_empty_app. Qed.

Lemma csv_row_length (row : TemperaturePoint) :
  (0 < String.length (csv_row host row))%nat.
Proof.
  unfold csv_row. rewrite !length_append. simpl. lia.
Qed.

(** A page has text exactly when it has a record. *)
Lemma chunk_csv_empty (data : list TemperaturePoint) :
  (0 <? String.length (chunk_csv host data))%nat
  = match data with [] => false | _ => true end.
Proof.
  destruct data as [|row data]; [reflexivity|].
  change (row :: data) with ([row] ++ data)%list.
  rewrite chunk_csv_app, length_append.
  apply Nat.ltb_lt.
  assert (H : chunk_csv host [row] = csv_row host row) by reflexivity.
  rewrite H. pose proof (csv_row_length row). lia.
Qed.

(** Dropping the pages without text does not change the concatenation. *)
Lemma concat_filter_nonempty (parts : list string) :
  String.concat EmptyString
    (filter (fun fragment => (0 <? String.length fragment)%nat) parts)
  = String.concat EmptyString parts.
Proof.
  induction parts as [|p parts IH]; [reflexivity|].
  cbn [filter]. destruct (0 <? String.length p)%nat eqn:Hp.
  - now rewrite !concat_empty_cons, IH.
  - rewrite concat_empty_cons, IH.
    destruct p; [reflexivity | discriminate].
Qed.

Lemma data_fragments_text (net : Req.t -> FetchResult) (requests : list Req.t) :
  String.concat EmptyString (data_fragments host net requests)
  = chunk_csv host (flat_map (page_data net) requests).
Proof.
  unfold data_fragments. rewrite concat_filter_nonempty.
  induction requests as [|r requests IH]; [reflexivity|].
  cbn [map flat_map]. now rewrite concat_empty_cons, IH, chunk_csv_app.
Qed.

Lemma data_fragments_length (net : Req.t -> FetchResult) (requests : list Req.t) :
  List.length (data_fragments host net requests)
  = List.length (pages_with_records net requests).
Proof.
  unfold data_fragments, pages_with_records.
  induction requests as [|r requests IH]; [reflexivity|].
  cbn [map filter]. rewrite chunk_csv_empty.
  destruct (page_data net r); simpl; now rewrite IH.
Qed.

(** The row of the code is the delimited line of its fields. *)
Lemma csv_row_delimited (row : TemperaturePoint) :
  csv_row host row = delimited_line (record_fields host row).
Proof.
  unfold csv_row, delimited_line, record_fields. simpl.
  repeat (rewrite append_assoc; cbn [append]). reflexivity.
Qed.

Lemma csv_header_delimited : csv_header = delimited_line field_names.
Proof. reflexivity. Qed.

End Encoding.

(** ** What a finished loop holds *)

Section Results.

Variable host : Host.
Variable env : Env.
Variable net : Req.t -> FetchResult.
Variable s : DashState.
Variable summary : DownloadSummary.

Lemma next_locals_parts (l : Locals) (r : Req.t) (chunk : Chunk.t) :
  page net r = Some chunk ->
  blobParts (next_locals host l chunk)
  = (blobParts l ++ data_fragments host net [r])%list.
Proof.
  intros Hp. unfold next_locals, data_fragments, page_data. cbn [blobParts map filter].
  rewrite Hp. destruct (0 <? String.length _)%nat; [reflexivity|].
  now rewrite app_nil_r.
Qed.

Lemma data_fragments_cons (r : Req.t) (requests : list Req.t) :
  data_fragments host net (r :: requests)
  = (data_fragments host net [r] ++ data_fragments host net requests)%list.
Proof.
  unfold data_fragments. cbn [map filter].
  destruct (0 <? String.length _)%nat; reflexivity.
Qed.

(** When the loop returns, the server has said that nothing remains, and the
    buffer has grown by the fragments of the pages, in the order of the
    requests. *)
Lemma loop_run_ret l st l' st' tr :
  loop_run host env net s summary l st (Ret l') st' tr ->
  hasMore l' = false
  /\ blobParts l' = (blobParts l ++ data_fragments host net (fetches tr))%list.
Proof.
  intros H. remember (Ret l') as o eqn:Ho.
  induction H as [l st Hm|l st Hm|l st Hm Hp|l st chunk o st' tr Hm Hp Hr IH];
    try discriminate.
  - inversion Ho; subst. split; [assumption|].
    cbn. now rewrite app_nil_r.
  - destruct (IH Ho) as [Hdone Hparts]. split; [assumption|].
    cbn [fetches]. rewrite data_fragments_cons, Hparts.
    rewrite (next_locals_parts l _ chunk Hp). now rewrite app_assoc.
Qed.

(** The requests of the loop: the filters of the closure, the page size as
    limit, and offsets that start at the current one and go up by the page
    size. *)
Lemma loop_run_requests l st o st' tr :
  loop_run host env net s summary l st o st' tr ->
  fetches tr
  = map (fun i => request env s (offset l + Z.of_nat i * CHUNK_SIZE) CHUNK_SIZE)
      (seq 0 (List.length (fetches tr))).
Proof.
  induction 1 as [l st Hm|l st Hm|l st Hm Hp|l st chunk o st' tr Hm Hp Hr IH].
  - reflexivity.
  - reflexivity.
  - cbn. now rewrite Z.add_0_r.
  - cbn [fetches List.length seq map]. f_equal.
    + now rewrite Z.add_0_r.
    + rewrite IH at 1. rewrite <- seq_shift, map_map.
      apply map_ext. intros i. cbn [offset next_locals]. f_equal. lia.
Qed.

End Results.

(** ** The ways [executeDownload] ends *)

Section Sessions.

Variable host : Host.
Variable env : Env.
Variable net : Req.t -> FetchResult.

Lemma executeDownload_no_preview (fuel : nat) (s : DashState) :
  downloadSummary s = None ->
  executeDownload host env net fuel s = (Ret tt, s, [Alert "No preview available"]).
Proof. intros H. unfold executeDownload. rewrite H. reflexivity. Qed.

Lemma executeDownload_no_configuration (fuel : nat) (s : DashState) summary :
  downloadSummary s = Some summary ->
  config_missing env = true ->
  executeDownload host env net fuel s
  = (Ret tt, setDownloadLoading false (started s),
     [Progress (of_Z 0); download_failed_alert "Supabase configuration missing"]).
Proof.
  intros H Hc. unfold executeDownload. rewrite H, Hc. reflexivity.
Qed.

Lemma executeDownload_loop (fuel : nat) (s : DashState) summary :
  downloadSummary s = Some summary ->
  config_missing env = false ->
  executeDownload host env net fuel s =
  match download_loop host env net fuel s summary initial_locals (started s) with
  | (Ret l, s1, t1) =>
      (Ret tt, cleared s1, Progress (of_Z 0) :: t1 ++ completion host s l)
  | (Throw e, s1, t1) =>
      (Ret tt, setDownloadLoading false s1,
       Progress (of_Z 0) :: t1 ++ [download_failed_alert e])
  | (Diverge, s1, t1) => (Diverge, s1, Progress (of_Z 0) :: t1)
  end%list.
Proof.
  intros H Hc. unfold executeDownload. rewrite H, Hc.
  unfold bind, try_catch_finally, update, emit, alert.
  cbn [negb].
  change {| blobParts := [csv_header]; offset := 0; hasMore := true;
            totalFetched := 0 |} with initial_locals.
  change (setDownloadProgress (of_Z 0) (setDownloadLoading true s))
    with (started s).
  destruct (download_loop host env net fuel s summary initial_locals (started s))
    as [[[l|e|] s1] t1]; cbn; try reflexivity.
  rewrite app_nil_r. reflexivity.
Qed.

Lemma executeDownload_run (fuel : nat) (s : DashState) o st' tr :
  executeDownload host env net fuel s = (o, st', tr) ->
  download_run host env net s o st' tr.
Proof.
  intros H.
  destruct (downloadSummary s) as [summary|] eqn:Hs.
  - destruct (config_missing env) eqn:Hc.
    + rewrite (executeDownload_no_configuration fuel s summary Hs Hc) in H.
      inversion H; subst. now apply no_configuration with summary.
    + rewrite (executeDownload_loop fuel s summary Hs Hc) in H.
      destruct (download_loop host env net fuel s summary initial_locals
                  (started s)) as [[[l|e|] s1] t1] eqn:Hl;
        apply download_loop_run in Hl; inversion H; subst.
      * now apply completed with summary.
      * now apply failed with summary.
      * now apply unfinished with summary.
  - rewrite (executeDownload_no_preview fuel s Hs) in H.
    inversion H; subst. now apply no_preview.
Qed.

End Sessions.

(** ** Traces *)

Lemma fetches_app (a b : list Event) :
  fetches (a ++ b) = (fetches a ++ fetches b)%list.
Proof.
  induction a as [|e a IH]; [reflexivity|].
  destruct e; cbn [app fetches]; now rewrite IH.
Qed.

Lemma In_fetches (r : Req.t) (tr : list Event) :
  In (Fetch r) tr <-> In r (fetches tr).
Proof.
  induction tr as [|e tr IH]; [reflexivity|].
  destruct e; cbn [fetches In]; rewrite IH;
    try (split; [intros [H|H]; [discriminate | exact H] | now right]).
  split; (intros [H|H]; [left; congruence | now right]).
Qed.

Lemma existsb_artifact_app (a b : list Event) :
  existsb is_artifact (a ++ b) = existsb is_artifact a || existsb is_artifact b.
Proof. apply existsb_app. Qed.

Lemma progress_values_app (a b : list Event) :
  progress_values (a ++ b) = (progress_values a ++ progress_values b)%list.
Proof.
  induction a as [|e a IH]; [reflexivity|].
  destruct e; cbn [app progress_values]; now rewrite IH.
Qed.

Section LoopTraces.

Variable host : Host.
Variable env : Env.
Variable net : Req.t -> FetchResult.
Variable s : DashState.
Variable summary : DownloadSummary.

Lemma loop_run_no_artifact l st o st' tr :
  loop_run host env net s summary l st o st' tr ->
  existsb is_artifact tr = false.
Proof.
  intros H. apply loop_run_events in H.
  induction H as [|e tr He _ IH]; [reflexivity|].
  destruct e; cbn; solve [assumption | contradiction].
Qed.

Lemma loop_run_no_blob l st o st' tr parts type :
  loop_run host env net s summary l st o st' tr ->
  ~ In (CreateBlob parts type) tr.
Proof.
  intros H Hin. apply loop_run_events in H.
  rewrite Forall_forall in H. exact (H _ Hin).
Qed.

End LoopTraces.

Lemma fetches_completion host s l : fetches (completion host s l) = [].
Proof. reflexivity. Qed.

(** ** A failed page aborts the session *)

(** C3.  Whenever a request of a download fails (no response, a status that
    is not ok, a body that does not decode, or [success = false]), the call
    returns with the exception caught, the failing request is the last one
    (nothing is sent after it and every request before it had succeeded),
    the next and last event is the alert that carries the message of the
    failure, no blob is created and no link is clicked (the buffer is not
    used), and the loading flag is off. *)
Theorem failed_page_aborts_session
  (host : Host) (env : Env) (net : Req.t -> FetchResult)
  (fuel : nat) (s : DashState) o st' tr (r : Req.t) :
  executeDownload host env net fuel s = (o, st', tr) ->
  In (Fetch r) tr ->
  page_failed net r = true ->
  o = Ret tt
  /\ downloadLoading st' = false
  /\ (exists pre,
        tr = (pre ++ [Fetch r; download_failed_alert (failure_message host (net r))])%list
        /\ Forall (fun r' => page_failed net r' = false) (fetches pre))
  /\ existsb is_artifact tr = false.
Proof.
  intros Hrun Hin Hfail. apply executeDownload_run in Hrun.
  assert (Hok : forall t, Forall (fun r' => page_failed net r' = false) (fetches t) ->
                          ~ In r (fetches t)).
  { intros t Hall Hr. rewrite Forall_forall in Hall.
    specialize (Hall _ Hr). congruence. }
  destruct Hrun as [Hs|summary Hs Hc|summary l s1 t1 Hs Hc Hl
                   |summary e s1 t1 Hs Hc Hl|summary s1 t1 Hs Hc Hl].
  - destruct Hin as [H|[]]; discriminate.
  - destruct Hin as [H|[H|[]]]; discriminate.
  - exfalso. apply In_fetches in Hin.
    cbn [fetches] in Hin. rewrite fetches_app, fetches_completion, app_nil_r in Hin.
    apply (Hok t1); [|assumption].
    apply (loop_run_no_throw _ _ _ _ _ _ _ _ _ _ Hl). discriminate.
  - pose proof (loop_run_no_artifact _ _ _ _ _ _ _ _ _ _ Hl) as Hart.
    destruct (loop_run_throw _ _ _ _ _ _ _ _ _ _ Hl)
      as (pre & r0 & -> & Hp & -> & Hall).
    apply In_fetches in Hin. cbn [fetches] in Hin.
    rewrite !fetches_app in Hin. cbn [fetches app] in Hin.
    rewrite app_nil_r in Hin.
    apply in_app_or in Hin. destruct Hin as [Hin|[<-|[]]];
      [exfalso; exact (Hok pre Hall Hin)|].
    repeat split.
    + exists (Progress (of_Z 0) :: pre). split; [|exact Hall].
      cbn [app]. now rewrite <- app_assoc.
    + cbn [existsb is_artifact orb]. rewrite existsb_artifact_app, Hart.
      reflexivity.
  - exfalso. apply In_fetches in Hin. cbn [fetches] in Hin.
    apply (Hok t1); [|assumption].
    apply (loop_run_no_throw _ _ _ _ _ _ _ _ _ _ Hl). discriminate.
Qed.

Lemma failed_page_aborts_session_witness :
  let net := scripted_endpoint failing_script in
  let r := request configured (previewed 3) 5000 CHUNK_SIZE in
  let '(o, st', tr) := failing_session in
  In (Fetch r) tr
  /\ page_failed net r = true
  /\ o = Ret tt
  /\ downloadLoading st' = false
  /\ (exists pre,
        tr = (pre ++ [Fetch r; download_failed_alert
                                 (failure_message exact_host (net r))])%list
        /\ Forall (fun r' => page_failed net r' = false) (fetches pre))
  /\ existsb is_artifact tr = false.
Proof.
  intros net r.
  destruct failing_session as [[o st'] tr] eqn:Hrun.
  assert (Hin : In (Fetch r) tr).
  { vm_compute in Hrun. inversion Hrun; subst.
    right; right; right; right. left. reflexivity. }
  assert (Hfail : page_failed net r = true) by reflexivity.
  split; [exact Hin|]. split; [exact Hfail|].
  exact (failed_page_aborts_session exact_host configured net 5 (previewed 3)
           o st' tr r Hrun Hin Hfail).
Defined.

(** The example of the specification: the second of three pages fails with
    HTTP 500.  Two requests are sent, the failure is alerted, and neither a
    blob nor a click on the link follows. *)
Example failing_session_trace :
  map Req.offset (fetches (snd failing_session)) = [0; 5000]
  /\ alerts (snd failing_session)
     = ["Failed to download data: Chunk fetch failed (500): Internal Server Error"
        ++ LF ++ LF ++ "Check console for details."]
  /\ existsb is_artifact (snd failing_session) = false.
Proof. repeat split; reflexivity. Qed.

(** A response that says [success = false] is alerted with its message. *)
Example refused_session_trace :
  map Req.offset (fetches (snd refused_session)) = [0]
  /\ alerts (snd refused_session)
     = ["Failed to download data: Query timed out"
        ++ LF ++ LF ++ "Check console for details."]
  /\ existsb is_artifact (snd refused_session) = false.
Proof. repeat split; reflexivity. Qed.

(** ** A failed export leaves the request as it was *)

Lemma same_request_refl (s : DashState) : same_request s s.
Proof. unfold same_request. repeat split. Qed.

Lemma same_request_started (s : DashState) : same_request s (started s).
Proof. unfold same_request. repeat split. Qed.

Lemma same_request_trans (a b c : DashState) :
  same_request a b -> same_request b c -> same_request a c.
Proof.
  unfold same_request.
  intros (H1 & H2 & H3 & H4 & H5 & H6 & H7) (K1 & K2 & K3 & K4 & K5 & K6 & K7).
  repeat split; congruence.
Qed.

Lemma same_request_loading (a b : DashState) (v : bool) :
  same_request a b -> same_request a (setDownloadLoading v b).
Proof. unfold same_request. cbn. trivial. Qed.

(** The request sent for a state depends on its filters only. *)
Lemma same_request_request (env : Env) (a b : DashState) :
  same_request a b ->
  forall offset limit, request env b offset limit = request env a offset limit.
Proof.
  unfold same_request. intros (H1 & H2 & H3 & H4 & H5 & H6 & H7) offset limit.
  unfold request, date_filter, month_selected.
  now rewrite H1, H2, H3, H4, H5, H6.
Qed.

(** C10.  When a request of a download fails, the filters (dates, times,
    transport, month) and the preview summary are in the final state what
    they were at the call, so that a new call sends the same requests; and
    whenever one of them differs, the download has completed: every request
    succeeded and the link of the file was clicked. *)
Theorem failed_export_keeps_request
  (host : Host) (env : Env) (net : Req.t -> FetchResult)
  (fuel : nat) (s : DashState) o st' tr :
  executeDownload host env net fuel s = (o, st', tr) ->
  ((exists r, In (Fetch r) tr /\ page_failed net r = true) ->
   same_request s st'
   /\ forall offset limit,
        request env st' offset limit = request env s offset limit)
  /\ (~ same_request s st' ->
      In (ClickLink (download_filename s)) tr
      /\ Forall (fun r => page_failed net r = false) (fetches tr)).
Proof.
  intros Hrun. apply executeDownload_run in Hrun.
  assert (Hsame : forall st1, same_request s st1 ->
            same_request s st1
            /\ forall offset limit,
                 request env st1 offset limit = request env s offset limit).
  { intros st1 H. split; [exact H | now apply same_request_request]. }
  destruct Hrun as [Hs|summary Hs Hc|summary l s1 t1 Hs Hc Hl
                   |summary e s1 t1 Hs Hc Hl|summary s1 t1 Hs Hc Hl].
  - split.
    + intros _. apply Hsame, same_request_refl.
    + intros H. exfalso. apply H, same_request_refl.
  - split.
    + intros _. apply Hsame, same_request_loading, same_request_started.
    + intros H. exfalso.
      apply H, same_request_loading, same_request_started.
  - pose proof (loop_run_no_throw _ _ _ _ _ _ _ _ _ _ Hl) as Hok.
    assert (Hall : Forall (fun r => page_failed net r = false)
                     (fetches (Progress (of_Z 0) :: t1 ++ completion host s l))).
    { cbn [fetches]. rewrite fetches_app, fetches_completion, app_nil_r.
      apply Hok. discriminate. }
    split.
    + intros (r & Hin & Hfail). exfalso.
      apply In_fetches in Hin. rewrite Forall_forall in Hall.
      specialize (Hall _ Hin). congruence.
    + intros _. split; [|exact Hall].
      right. apply in_or_app. right. cbn. tauto.
  - assert (Hkeep : same_request s (setDownloadLoading false s1)).
    { apply same_request_loading.
      apply same_request_trans with (started s);
        [apply same_request_started|].
      apply (loop_run_state _ _ _ _ _ _ _ _ _ _ Hl). }
    split.
    + intros _. now apply Hsame.
    + intros H. exfalso. now apply H.
  - assert (Hkeep : same_request s s1).
    { apply same_request_trans with (started s);
        [apply same_request_started|].
      apply (loop_run_state _ _ _ _ _ _ _ _ _ _ Hl). }
    split.
    + intros _. now apply Hsame.
    + intros H. exfalso. now apply H.
Qed.

Lemma failed_export_keeps_request_witness :
  let net := scripted_endpoint failing_script in
  let net' := scripted_endpoint sparse_script in
  ((exists r, In (Fetch r) (snd failing_session) /\ page_failed net r = true)
   /\ same_request (previewed 3) (snd (fst failing_session))
   /\ forall offset limit,
        request configured (snd (fst failing_session)) offset limit
        = request configured (previewed 3) offset limit)
  /\ (~ same_request (previewed 3) (snd (fst sparse_session))
      /\ In (ClickLink (download_filename (previewed 3))) (snd sparse_session)
      /\ Forall (fun r => page_failed net' r = false)
           (fetches (snd sparse_session))).
Proof.
  intros net net'. split.
  - destruct failing_session as [[o st'] tr] eqn:Hrun.
    assert (Hfail : exists r, In (Fetch r) tr /\ page_failed net r = true).
    { exists (request configured (previewed 3) 5000 CHUNK_SIZE).
      vm_compute in Hrun. inversion Hrun; subst.
      split; [|reflexivity].
      right; right; right; right. left. reflexivity. }
    split; [exact Hfail|].
    exact (proj1 (failed_export_keeps_request exact_host configured net 5
                    (previewed 3) o st' tr Hrun) Hfail).
  - destruct sparse_session as [[o st'] tr] eqn:Hrun.
    assert (Hdiff : ~ same_request (previewed 3) st').
    { vm_compute in Hrun. inversion Hrun; subst.
      intros (H & _). discriminate H. }
    split; [exact Hdiff|].
    exact (proj2 (failed_export_keeps_request exact_host configured net' 5
                    (previewed 3) o st' tr Hrun) Hdiff).
Defined.

(** ** No download without a preview *)

(** C8.  Called in a state without a preview summary, [executeDownload]
    returns at once: it alerts, sends no request, makes no file and leaves
    the state as it is, whatever the fuel.  With a summary, whatever its
    count, zero included, and with the backend configured, the download
    starts: its first request is the page at offset 0. *)
Theorem download_needs_preview
  (host : Host) (env : Env) (net : Req.t -> FetchResult) (s : DashState) :
  (downloadSummary s = None ->
   forall fuel,
     executeDownload host env net fuel s
     = (Ret tt, s, [Alert "No preview available"]))
  /\ (forall summary,
        downloadSummary s = Some summary ->
        config_missing env = false ->
        forall fuel, exists o st' tr,
          executeDownload host env net (S fuel) s
          = (o, st', Progress (of_Z 0) :: Fetch (request env s 0 CHUNK_SIZE) :: tr)).
Proof.
  split.
  - intros H fuel. now apply executeDownload_no_preview.
  - intros summary Hs Hc fuel.
    rewrite (executeDownload_loop host env net (S fuel) s summary Hs Hc).
    rewrite download_loop_step by reflexivity.
    change (offset initial_locals) with 0.
    destruct (page net (request env s 0 CHUNK_SIZE)) as [chunk|].
    + destruct (download_loop host env net fuel s summary _ _)
        as [[[l|e|] s1] t1]; cbn [app]; eauto.
    + cbn [app]. eauto.
Qed.

Lemma download_needs_preview_witness :
  (downloadSummary not_previewed = None
   /\ forall fuel,
        executeDownload exact_host configured (paged_endpoint []) fuel not_previewed
        = (Ret tt, not_previewed, [Alert "No preview available"]))
  /\ (downloadSummary (previewed 0) = Some (summary_of 0)
      /\ count (summary_of 0) = 0
      /\ config_missing configured = false
      /\ forall fuel, exists o st' tr,
           executeDownload exact_host configured (paged_endpoint []) (S fuel)
             (previewed 0)
           = (o, st',
              Progress (of_Z 0)
              :: Fetch (request configured (previewed 0) 0 CHUNK_SIZE) :: tr)).
Proof.
  split.
  - split; [reflexivity|].
    exact (proj1 (download_needs_preview exact_host configured (paged_endpoint [])
                    not_previewed) eq_refl).
  - split; [reflexivity|]. split; [reflexivity|]. split; [reflexivity|].
    exact (proj2 (download_needs_preview exact_host configured (paged_endpoint [])
                    (previewed 0)) (summary_of 0) eq_refl eq_refl).
Defined.

(** ** Missing configuration *)

Section Unconfigured.

Variable host : Host.
Variable env : Env.
Variable net : Req.t -> FetchResult.

Lemma previewDownload_invalid (s : DashState) :
  request_valid s = false ->
  previewDownload host env net s
  = (Ret tt, s, [Alert "Please select either a month OR a date range"]).
Proof.
  unfold request_valid, previewDownload. intros H.
  destruct (month_selected s); [discriminate|].
  destruct (truthy_string (downloadStartDate s));
    destruct (truthy_string (downloadEndDate s)); try discriminate; reflexivity.
Qed.

Lemma previewDownload_no_configuration (s : DashState) :
  request_valid s = true ->
  config_missing env = true ->
  previewDownload host env net s
  = (Ret tt,
     setDownloadLoading false
       (setDownloadProgress (of_Z 0)
          (setDownloadSummary None (setDownloadLoading true s))),
     [Progress (of_Z 0); preview_failed_alert "Supabase configuration missing"]).
Proof.
  unfold request_valid, previewDownload. intros H Hc. rewrite Hc.
  destruct (month_selected s);
    [reflexivity|].
  destruct (truthy_string (downloadStartDate s));
    destruct (truthy_string (downloadEndDate s)); try discriminate; reflexivity.
Qed.

End Unconfigured.

(** C9.  With the backend URL or the anon key missing, neither the preview
    nor the download sends a request, for any state; and once the call has
    passed its guard (a valid filter for the preview, a preview summary for
    the download), all it does is raise the configuration error and alert
    it. *)
Theorem missing_configuration_is_fatal
  (host : Host) (env : Env) (net : Req.t -> FetchResult) (s : DashState) :
  config_missing env = true ->
  (forall fuel,
     fetches (snd (executeDownload host env net fuel s)) = []
     /\ (forall summary,
           downloadSummary s = Some summary ->
           executeDownload host env net fuel s
           = (Ret tt, setDownloadLoading false (started s),
              [Progress (of_Z 0);
               download_failed_alert "Supabase configuration missing"])))
  /\ fetches (snd (previewDownload host env net s)) = []
  /\ (request_valid s = true ->
      previewDownload host env net s
      = (Ret tt,
         setDownloadLoading false
           (setDownloadProgress (of_Z 0)
              (setDownloadSummary None (setDownloadLoading true s))),
         [Progress (of_Z 0);
          preview_failed_alert "Supabase configuration missing"])).
Proof.
  intros Hc. split; [|split].
  - intros fuel. split.
    + destruct (downloadSummary s) as [summary|] eqn:Hs.
      * now rewrite (executeDownload_no_configuration host env net fuel s summary).
      * now rewrite executeDownload_no_preview.
    + intros summary Hs. now apply executeDownload_no_configuration with summary.
  - destruct (request_valid s) eqn:Hv.
    + now rewrite previewDownload_no_configuration.
    + now rewrite previewDownload_invalid.
  - intros Hv. now apply previewDownload_no_configuration.
Qed.

Lemma missing_configuration_is_fatal_witness :
  config_missing unconfigured = true
  /\ downloadSummary (previewed 7) = Some (summary_of 7)
  /\ request_valid (previewed 7) = true
  /\ (forall fuel,
        fetches (snd (executeDownload exact_host unconfigured (paged_endpoint [])
                        fuel (previewed 7))) = []
        /\ (forall summary,
              downloadSummary (previewed 7) = Some summary ->
              executeDownload exact_host unconfigured (paged_endpoint []) fuel
                (previewed 7)
              = (Ret tt, setDownloadLoading false (started (previewed 7)),
                 [Progress (of_Z 0);
                  download_failed_alert "Supabase configuration missing"])))
  /\ fetches (snd (previewDownload exact_host unconfigured (paged_endpoint [])
                     (previewed 7))) = []
  /\ previewDownload exact_host unconfigured (paged_endpoint []) (previewed 7)
     = (Ret tt,
        setDownloadLoading false
          (setDownloadProgress (of_Z 0)
             (setDownloadSummary None (setDownloadLoading true (previewed 7)))),
        [Progress (of_Z 0);
         preview_failed_alert "Supabase configuration missing"]).
Proof.
  pose proof (missing_configuration_is_fatal exact_host unconfigured
                (paged_endpoint []) (previewed 7) eq_refl) as (H1 & H2 & H3).
  split; [reflexivity|]. split; [reflexivity|]. split; [reflexivity|].
  split; [exact H1|]. split; [exact H2|]. exact (H3 eq_refl).
Defined.

(** ** Month and date range exclude each other *)

Lemma onMonthChange_exclusive (v : string) (s : DashState) :
  exclusive (onMonthChange v s).
Proof.
  unfold exclusive, onMonthChange, month_selected, range_set.
  destruct (truthy_string v); cbn.
  - destruct (truthy_number (parseInt v)) eqn:Hm; cbn; now rewrite Hm.
  - reflexivity.
Qed.

Lemma onStartDateChange_exclusive (v : string) (s : DashState) :
  exclusive s -> exclusive (onStartDateChange v s).
Proof.
  unfold exclusive, onStartDateChange, month_selected, range_set.
  destruct v as [|c v]; cbn; [|reflexivity].
  destruct (downloadMonth s) as [m|]; [|reflexivity].
  destruct (truthy_number m); [|reflexivity].
  cbn. now destruct (truthy_string (downloadStartDate s)).
Qed.

Lemma onEndDateChange_exclusive (v : string) (s : DashState) :
  exclusive s -> exclusive (onEndDateChange v s).
Proof.
  unfold exclusive, onEndDateChange, month_selected, range_set.
  destruct v as [|c v]; cbn; [|reflexivity].
  destruct (downloadMonth s) as [m|]; [|reflexivity].
  destruct (truthy_number m); [|reflexivity].
  cbn. destruct (truthy_string (downloadStartDate s)); [discriminate|].
  reflexivity.
Qed.

Lemma apply_op_exclusive (s : DashState) (op : FilterOp) :
  exclusive s -> exclusive (apply_op s op).
Proof.
  destruct op as [v|v|v|v|v|t]; cbn [apply_op]; intros H.
  - apply onMonthChange_exclusive.
  - now apply onStartDateChange_exclusive.
  - now apply onEndDateChange_exclusive.
  - exact H.
  - exact H.
  - exact H.
Qed.

(** The clearing after a completed download keeps the exclusion too. *)
Lemma cleared_exclusive (s : DashState) : exclusive (cleared s).
Proof. reflexivity. Qed.

(** The values of the options of the selector select their month. *)
Lemma month_options_select (m : Z * string) (s : DashState) :
  In m months ->
  downloadMonth (onMonthChange (decimal (fst m)) s) = Some (of_Z (fst m))
  /\ month_selected (onMonthChange (decimal (fst m)) s) = true.
Proof.
  unfold months. cbn [In].
  intros H. repeat (destruct H as [<-|H]; [split; reflexivity|]).
  contradiction.
Qed.

(** A change of the selector that selects a month empties both dates. *)
Lemma onMonthChange_clears_dates (v : string) (s : DashState) :
  month_selected (onMonthChange v s) = true ->
  downloadStartDate (onMonthChange v s) = EmptyString
  /\ downloadEndDate (onMonthChange v s) = EmptyString.
Proof.
  unfold onMonthChange, month_selected.
  destruct (truthy_string v); cbn.
  - destruct (truthy_number (parseInt v)) eqn:Hm; cbn.
    + intros _. split; reflexivity.
    + rewrite Hm. discriminate.
  - discriminate.
Qed.

Lemma truthy_string_false (v : string) :
  truthy_string v = false -> v = EmptyString.
Proof. destruct v; [reflexivity | discriminate]. Qed.

Lemma apply_op_strictly_exclusive (s : DashState) (op : FilterOp) :
  from_inputs op -> strictly_exclusive s -> strictly_exclusive (apply_op s op).
Proof.
  unfold strictly_exclusive.
  destruct op as [v|v|v|v|v|t]; cbn [apply_op from_inputs]; intros Hop H.
  - destruct Hop as [->|(m & Hm & ->)].
    + left. reflexivity.
    + right. apply onMonthChange_clears_dates.
      now apply month_options_select.
  - unfold onStartDateChange. destruct (truthy_string v) eqn:Hv.
    + left. reflexivity.
    + apply truthy_string_false in Hv. subst v. cbn.
      destruct H as [H|[_ H]]; [now left | now right].
  - unfold onEndDateChange. destruct (truthy_string v) eqn:Hv.
    + left. reflexivity.
    + apply truthy_string_false in Hv. subst v. cbn.
      destruct H as [H|[H _]]; [now left | now right].
  - exact H.
  - exact H.
  - exact H.
Qed.

(** C5.  A change of the month selector that selects a month empties both
    dates; a change of the start or of the end date to a date clears the
    month; and so, from the initial state and from every state in which not
    both are set, every sequence of operations on the filters leads to a
    state in which a selected month and a date of the range are not both
    set.  With the values that the inputs of the page offer, the month is
    even null whenever a date is set. *)
Theorem month_and_range_exclusive :
  (forall v s,
     month_selected (onMonthChange v s) = true ->
     downloadStartDate (onMonthChange v s) = EmptyString
     /\ downloadEndDate (onMonthChange v s) = EmptyString)
  /\ (forall v s,
        truthy_string v = true ->
        downloadMonth (onStartDateChange v s) = None
        /\ downloadMonth (onEndDateChange v s) = None)
  /\ exclusive initial_state
  /\ (forall ops s, exclusive s -> exclusive (fold_left apply_op ops s))
  /\ (forall ops s,
        Forall from_inputs ops ->
        strictly_exclusive s ->
        strictly_exclusive (fold_left apply_op ops s)).
Proof.
  split; [|split; [|split; [|split]]].
  - intros v s. apply onMonthChange_clears_dates.
  - intros v s Hv. unfold onStartDateChange, onEndDateChange.
    rewrite Hv. split; reflexivity.
  - reflexivity.
  - induction ops as [|op ops IH]; intros s Hs; [exact Hs|].
    cbn [fold_left]. apply IH. now apply apply_op_exclusive.
  - induction ops as [|op ops IH]; intros s Hops Hs; [exact Hs|].
    inversion Hops as [|? ? Hop Hrest]; subst.
    cbn [fold_left]. apply IH; [exact Hrest|].
    now apply apply_op_strictly_exclusive.
Qed.

Lemma month_and_range_exclusive_witness :
  let s := onMonthChange "7" (previewed 3) in
  let s' := onEndDateChange "2025-08-31" s in
  let ops := [StartDateChange "2025-07-01"; MonthChange "7";
              EndDateChange "2025-07-31"; TransportClick "Walking";
              MonthChange "12"; StartDateChange EmptyString] in
  (month_selected s = true
   /\ downloadStartDate s = EmptyString /\ downloadEndDate s = EmptyString)
  /\ (truthy_string "2025-08-31" = true
      /\ downloadMonth (onStartDateChange "2025-08-31" s) = None
      /\ downloadMonth s' = None)
  /\ (exclusive (previewed 3)
      /\ exclusive (fold_left apply_op ops (previewed 3)))
  /\ (Forall from_inputs ops
      /\ strictly_exclusive (previewed 3)
      /\ strictly_exclusive (fold_left apply_op ops (previewed 3))).
Proof.
  intros s s' ops.
  destruct month_and_range_exclusive as (H1 & H2 & H3 & H4 & H5).
  assert (Hops : Forall from_inputs ops).
  { unfold ops.
    constructor; [exact I|]. constructor.
    { right. exists (7, "July"). split; [|reflexivity].
      do 6 right. left. reflexivity. }
    constructor; [exact I|]. constructor; [exact I|]. constructor.
    { right. exists (12, "December"). split; [|reflexivity].
      do 11 right. left. reflexivity. }
    constructor; [exact I|]. constructor. }
  assert (Hs : strictly_exclusive (previewed 3)) by (left; reflexivity).
  split; [|split; [|split]].
  - split; [reflexivity|]. exact (H1 "7" (previewed 3) eq_refl).
  - split; [reflexivity|]. exact (H2 "2025-08-31" s eq_refl).
  - split; [reflexivity|]. exact (H4 ops (previewed 3) eq_refl).
  - split; [exact Hops|]. split; [exact Hs|]. exact (H5 ops (previewed 3) Hops Hs).
Defined.

(** ** The requests of a session over a paginated data set *)

Lemma ceil_div_step (x : Z) :
  CHUNK_SIZE < x ->
  ceil_div x CHUNK_SIZE = 1 + ceil_div (x - CHUNK_SIZE) CHUNK_SIZE
  /\ 1 <= ceil_div (x - CHUNK_SIZE) CHUNK_SIZE.
Proof.
  unfold ceil_div, CHUNK_SIZE. intros H.
  Z.div_mod_to_equations. lia.
Qed.

Lemma ceil_div_last (x : Z) :
  x <= CHUNK_SIZE -> Z.max 1 (ceil_div x CHUNK_SIZE) = 1.
Proof.
  unfold ceil_div, CHUNK_SIZE. intros H.
  Z.div_mod_to_equations. lia.
Qed.

Section Pagination.

Variable host : Host.
Variable env : Env.
Variable net : Req.t -> FetchResult.
Variable s : DashState.
Variable summary : DownloadSummary.
Variable T : Z.
Hypothesis net_paginates : paginates net T.

(** With enough fuel the loop returns after as many round trips as pages
    remain from its offset, and after one when none remains. *)
Lemma download_loop_paginates (k : nat) :
  forall l st fuel,
    hasMore l = true ->
    Z.of_nat k = Z.max 1 (ceil_div (T - offset l) CHUNK_SIZE) ->
    (k <= fuel)%nat ->
    exists l' st' tr,
      download_loop host env net fuel s summary l st = (Ret l', st', tr)
      /\ List.length (fetches tr) = k.
Proof.
  induction k as [|k IH]; intros l st fuel Hm Hk Hfuel; [lia|].
  destruct fuel as [|fuel]; [lia|].
  rewrite download_loop_step by assumption.
  destruct (net_paginates (request env s (offset l) CHUNK_SIZE))
    as (chunk & Hp & Hmore).
  rewrite Hp. cbn [Req.offset Req.limit request] in Hmore.
  destruct (offset l + CHUNK_SIZE <? T) eqn:Hlt.
  - apply Z.ltb_lt in Hlt.
    destruct (ceil_div_step (T - offset l)) as [Hstep Hpos]; [lia|].
    destruct (IH (next_locals host l chunk)
                (setDownloadProgress
                   (progress_of host (totalFetched (next_locals host l chunk))
                      (count summary)) st) fuel)
      as (l' & st' & tr & Hrun & Hlen).
    + exact Hmore.
    + cbn [offset next_locals].
      replace (T - (offset l + CHUNK_SIZE)) with (T - offset l - CHUNK_SIZE) by lia.
      lia.
    + lia.
    + rewrite Hrun. exists l', st'. eexists. split; [reflexivity|].
      cbn [fetches List.length]. now rewrite Hlen.
  - apply Z.ltb_ge in Hlt.
    rewrite ceil_div_last in Hk by lia.
    rewrite download_loop_done by exact Hmore.
    do 3 eexists. split; [reflexivity|]. cbn. lia.
Qed.

End Pagination.

(** C1, amended.  Let the endpoint answer every request with a page and
    report [hasMore] exactly when records remain beyond it, for a data set
    of [T] records.  Then a download with a preview, a configured backend
    and enough fuel completes; it sends [max 1 (ceil (T / 5000))] requests,
    that is [ceil (T / 5000)] when [T] is positive and one when the data set
    is empty; every request asks for 5000 records, and the offsets are 0,
    5000, 10000, ... in this order. *)
Theorem page_requests_of_session
  (host : Host) (env : Env) (net : Req.t -> FetchResult)
  (s : DashState) (summary : DownloadSummary) (T : Z) (fuel : nat) :
  downloadSummary s = Some summary ->
  config_missing env = false ->
  0 <= T ->
  paginates net T ->
  (round_trips T <= fuel)%nat ->
  exists st' tr,
    executeDownload host env net fuel s = (Ret tt, st', tr)
    /\ Z.of_nat (List.length (fetches tr)) = Z.max 1 (ceil_div T CHUNK_SIZE)
    /\ (0 < T -> Z.of_nat (List.length (fetches tr)) = ceil_div T CHUNK_SIZE)
    /\ fetches tr
       = map (fun i => request env s (Z.of_nat i * CHUNK_SIZE) CHUNK_SIZE)
           (seq 0 (List.length (fetches tr)))
    /\ map Req.offset (fetches tr)
       = map (fun i => Z.of_nat i * CHUNK_SIZE) (seq 0 (List.length (fetches tr)))
    /\ Forall (fun r => Req.limit r = CHUNK_SIZE) (fetches tr).
Proof.
  intros Hs Hc HT Hnet Hfuel.
  assert (Hk : Z.of_nat (round_trips T)
               = Z.max 1 (ceil_div (T - offset initial_locals) CHUNK_SIZE)).
  { unfold round_trips. cbn [offset initial_locals]. rewrite Z.sub_0_r.
    rewrite Z2Nat.id by lia. reflexivity. }
  destruct (download_loop_paginates host env net s summary T Hnet
              (round_trips T) initial_locals (started s) fuel eq_refl Hk Hfuel)
    as (l' & s1 & t1 & Hrun & Hlen).
  rewrite (executeDownload_loop host env net fuel s summary Hs Hc), Hrun.
  do 2 eexists. split; [reflexivity|].
  assert (Hf : fetches (Progress (of_Z 0) :: t1 ++ completion host s l') = fetches t1).
  { cbn [fetches]. now rewrite fetches_app, fetches_completion, app_nil_r. }
  rewrite Hf.
  pose proof (loop_run_requests host env net s summary _ _ _ _ _
                (download_loop_run host env net s summary fuel _ _ _ _ _ Hrun))
    as Hreq.
  cbn [offset initial_locals] in Hreq.
  assert (Hcount : Z.of_nat (List.length (fetches t1))
                   = Z.max 1 (ceil_div T CHUNK_SIZE)).
  { rewrite Hlen. unfold round_trips. rewrite Z2Nat.id by lia. reflexivity. }
  split; [exact Hcount|]. split; [|split; [|split]].
  - intros Hpos. rewrite Hcount.
    assert (1 <= ceil_div T CHUNK_SIZE); [|lia].
    unfold ceil_div, CHUNK_SIZE. Z.div_mod_to_equations. lia.
  - exact Hreq.
  - rewrite Hreq at 1. rewrite map_map. reflexivity.
  - rewrite Hreq. apply Forall_forall. intros r Hin.
    apply in_map_iff in Hin. destruct Hin as (i & <- & _). reflexivity.
Qed.

Lemma paged_endpoint_paginates (records : list TemperaturePoint) :
  paginates (paged_endpoint records) (Z.of_nat (List.length records)).
Proof. intros r. eexists. split; reflexivity. Qed.

Lemma page_requests_of_session_witness :
  let T := Z.of_nat (List.length example_records) in
  downloadSummary (previewed 12000) = Some (summary_of 12000)
  /\ config_missing configured = false
  /\ 0 <= T
  /\ paginates (paged_endpoint example_records) T
  /\ (round_trips T <= 5)%nat
  /\ exists st' tr,
       example_session = (Ret tt, st', tr)
       /\ Z.of_nat (List.length (fetches tr)) = Z.max 1 (ceil_div T CHUNK_SIZE)
       /\ (0 < T -> Z.of_nat (List.length (fetches tr)) = ceil_div T CHUNK_SIZE)
       /\ fetches tr
          = map (fun i => request configured (previewed 12000)
                            (Z.of_nat i * CHUNK_SIZE) CHUNK_SIZE)
              (seq 0 (List.length (fetches tr)))
       /\ map Req.offset (fetches tr)
          = map (fun i => Z.of_nat i * CHUNK_SIZE)
              (seq 0 (List.length (fetches tr)))
       /\ Forall (fun r => Req.limit r = CHUNK_SIZE) (fetches tr).
Proof.
  intros T.
  assert (HT : T = 12000).
  { unfold T, example_records. rewrite repeat_length. reflexivity. }
  assert (H0 : 0 <= T) by (rewrite HT; lia).
  assert (Hfuel : (round_trips T <= 5)%nat) by (rewrite HT; vm_compute; lia).
  split; [reflexivity|]. split; [reflexivity|]. split; [exact H0|].
  split; [apply paged_endpoint_paginates|]. split; [exact Hfuel|].
  exact (page_requests_of_session exact_host configured
           (paged_endpoint example_records) (previewed 12000)
           (summary_of 12000) T 5 eq_refl eq_refl H0
           (paged_endpoint_paginates example_records) Hfuel).
Defined.

(** The example of the specification: three requests at the offsets 0, 5000
    and 10000, a running total of 12000 at the end, and the progress values
    42, 83 and 100 between the two resets to 0. *)
Example example_session_trace :
  map Req.offset (fetches (snd example_session)) = [0; 5000; 10000]
  /\ progress_values (snd example_session)
     = [of_Z 0; of_Z 42; of_Z 83; of_Z 100; of_Z 0]
  /\ alerts (snd example_session) = ["Successfully downloaded 12000 records!"].
Proof.
  split; [|split]; lazy; reflexivity.
Qed.

(** C1 as stated fails on an empty data set: the loop sends its first request
    before it knows that nothing remains, one request where [ceil (0 / 5000)]
    is zero. *)
Lemma request_count_not_ceiling :
  ~ (forall (host : Host) (env : Env) (net : Req.t -> FetchResult)
       (s : DashState) (summary : DownloadSummary) (T : Z) (fuel : nat) o st' tr,
       downloadSummary s = Some summary ->
       config_missing env = false ->
       0 <= T ->
       paginates net T ->
       executeDownload host env net fuel s = (o, st', tr) ->
       o = Ret tt ->
       Z.of_nat (List.length (fetches tr)) = ceil_div T CHUNK_SIZE).
Proof.
  intros H.
  destruct empty_session as [[o st'] tr] eqn:Hrun.
  specialize (H exact_host configured (paged_endpoint []) (previewed 0)
                (summary_of 0) 0 5%nat o st' tr eq_refl eq_refl (Z.le_refl 0)
                (paged_endpoint_paginates []) Hrun).
  vm_compute in Hrun. inversion Hrun; subst.
  specialize (H eq_refl). vm_compute in H. discriminate H.
Qed.

(** ** The buffer and the file *)

Section Buffer.

Variable host : Host.
Variable env : Env.
Variable net : Req.t -> FetchResult.

(** A blob is made by a completed download only, from the header and the
    fragments of its pages. *)
Lemma blob_of_session (fuel : nat) (s : DashState) o st' tr parts type :
  executeDownload host env net fuel s = (o, st', tr) ->
  In (CreateBlob parts type) tr ->
  parts = csv_header :: data_fragments host net (fetches tr).
Proof.
  intros Hrun Hin. apply executeDownload_run in Hrun.
  destruct Hrun as [Hs|summary Hs Hc|summary l s1 t1 Hs Hc Hl
                   |summary e s1 t1 Hs Hc Hl|summary s1 t1 Hs Hc Hl].
  - destruct Hin as [H|[]]; discriminate.
  - destruct Hin as [H|[H|[]]]; discriminate.
  - destruct Hin as [H|Hin]; [discriminate|].
    apply in_app_or in Hin. destruct Hin as [Hin|Hin].
    + exfalso. exact (loop_run_no_blob _ _ _ _ _ _ _ _ _ _ _ _ Hl Hin).
    + destruct Hin as [H|[H|[H|[H|[H|[]]]]]]; try discriminate.
      inversion H; subst.
      destruct (loop_run_ret _ _ _ _ _ _ _ _ _ _ Hl) as [_ Hparts].
      rewrite Hparts. cbn [fetches].
      now rewrite fetches_app, fetches_completion, app_nil_r.
  - destruct Hin as [H|Hin]; [discriminate|].
    apply in_app_or in Hin. destruct Hin as [Hin|[H|[]]]; [|discriminate].
    exfalso. exact (loop_run_no_blob _ _ _ _ _ _ _ _ _ _ _ _ Hl Hin).
  - destruct Hin as [H|Hin]; [discriminate|].
    exfalso. exact (loop_run_no_blob _ _ _ _ _ _ _ _ _ _ _ _ Hl Hin).
Qed.

(** A call that returns after requests that all succeeded has made the
    blob. *)
Lemma session_makes_blob (fuel : nat) (s : DashState) summary st' tr :
  downloadSummary s = Some summary ->
  config_missing env = false ->
  executeDownload host env net fuel s = (Ret tt, st', tr) ->
  Forall (fun r => page_failed net r = false) (fetches tr) ->
  In (CreateBlob (csv_header :: data_fragments host net (fetches tr))
        "text/csv;charset=utf-8;") tr.
Proof.
  intros Hs Hc Hrun Hall.
  apply executeDownload_run in Hrun.
  inversion Hrun as [Hs'|summary' Hs' Hc'|summary' l s1 t1 Hs' Hc' Hl
                    |summary' e s1 t1 Hs' Hc' Hl|]; subst.
  - rewrite Hs in Hs'. discriminate.
  - rewrite Hc in Hc'. discriminate.
  - right. apply in_or_app. right. left.
    destruct (loop_run_ret _ _ _ _ _ _ _ _ _ _ Hl) as [_ Hparts].
    rewrite Hparts. cbn [fetches].
    now rewrite fetches_app, fetches_completion, app_nil_r.
  - exfalso.
    destruct (loop_run_throw _ _ _ _ _ _ _ _ _ _ Hl)
      as (pre & r0 & -> & Hp & _ & _).
    cbn [fetches] in Hall. rewrite !fetches_app in Hall.
    apply Forall_app in Hall. destruct Hall as [Hall _].
    apply Forall_app in Hall. destruct Hall as [_ Hall].
    cbn [fetches] in Hall. inversion Hall as [|? ? Hr0 _]; subst.
    unfold page_failed in Hr0. rewrite Hp in Hr0. discriminate.
Qed.

Lemma delimited_file_rows (records : list TemperaturePoint) :
  delimited_file host records
  = csv_header ++ String.concat EmptyString (map (csv_row host) records).
Proof.
  unfold delimited_file. cbn [map]. rewrite concat_empty_cons.
  rewrite <- csv_header_delimited. f_equal. rewrite map_map. f_equal.
  apply map_ext. intros row. symmetry. apply csv_row_delimited.
Qed.

End Buffer.

(** The text the code makes of a page is the lines of its records. *)
Lemma chunk_csv_record_lines (host : Host) (data : list TemperaturePoint) :
  chunk_csv host data = record_lines host data.
Proof.
  rewrite chunk_csv_rows. unfold record_lines. f_equal.
  apply map_ext. intros row. apply csv_row_delimited.
Qed.

(** C2.  In a call of [executeDownload] with a preview and a configured
    backend that returns after requests that all succeeded, the buffer given
    to the blob is the header followed by the data fragments in the order in
    which they were appended; the fragments are, request after request, the
    lines of the records of each page that has any, a line being the six
    fields of the record joined by commas; and their concatenation is the
    lines of all the records that the server returned, page after page and
    in the order within each page: every record once, none left out, none
    moved. *)
Theorem fragments_encode_returned_records
  (host : Host) (env : Env) (net : Req.t -> FetchResult)
  (fuel : nat) (s : DashState) summary st' tr :
  downloadSummary s = Some summary ->
  config_missing env = false ->
  executeDownload host env net fuel s = (Ret tt, st', tr) ->
  Forall (fun r => page_failed net r = false) (fetches tr) ->
  exists fragments,
    In (CreateBlob (csv_header :: fragments) "text/csv;charset=utf-8;") tr
    /\ fragments
       = filter (fun fragment => (0 <? String.length fragment)%nat)
           (map (fun r => record_lines host (page_data net r)) (fetches tr))
    /\ returned_records net tr = flat_map (page_data net) (fetches tr)
    /\ String.concat EmptyString fragments
       = record_lines host (returned_records net tr).
Proof.
  intros Hs Hc Hrun Hall.
  exists (data_fragments host net (fetches tr)).
  split; [exact (session_makes_blob host env net fuel s summary st' tr
                  Hs Hc Hrun Hall)|].
  split; [|split; [reflexivity|]].
  - unfold data_fragments. f_equal. apply map_ext.
    intros r. apply chunk_csv_record_lines.
  - rewrite data_fragments_text. unfold returned_records.
    apply chunk_csv_record_lines.
Qed.

Lemma fragments_encode_returned_records_witness :
  let net := scripted_endpoint sparse_script in
  downloadSummary (previewed 3) = Some (summary_of 3)
  /\ config_missing configured = false
  /\ exists st' tr,
       sparse_session = (Ret tt, st', tr)
       /\ Forall (fun r => page_failed net r = false) (fetches tr)
       /\ exists fragments,
            In (CreateBlob (csv_header :: fragments) "text/csv;charset=utf-8;") tr
            /\ fragments
               = filter (fun fragment => (0 <? String.length fragment)%nat)
                   (map (fun r => record_lines exact_host (page_data net r))
                      (fetches tr))
            /\ returned_records net tr = flat_map (page_data net) (fetches tr)
            /\ String.concat EmptyString fragments
               = record_lines exact_host (returned_records net tr).
Proof.
  intros net. split; [reflexivity|]. split; [reflexivity|].
  destruct sparse_session as [[o st'] tr] eqn:Hrun.
  assert (Ho : o = Ret tt) by (vm_compute in Hrun; now inversion Hrun).
  subst o.
  assert (Hall : Forall (fun r => page_failed net r = false) (fetches tr)).
  { vm_compute in Hrun. inversion Hrun; subst. repeat constructor. }
  exists st', tr. split; [reflexivity|]. split; [exact Hall|].
  exact (fragments_encode_returned_records exact_host configured net 5
           (previewed 3) (summary_of 3) st' tr eq_refl eq_refl Hrun Hall).
Defined.

(** The records returned in the session with an empty second page, and the
    lines that stand for them in the buffer: three records in the order of
    the server, three lines. *)
Example sparse_session_lines :
  returned_records (scripted_endpoint sparse_script) (snd sparse_session)
  = [reading "2025-07-01" 70; reading "2025-07-02" 71; reading "2025-07-03" 72]
  /\ record_lines exact_host
       (returned_records (scripted_endpoint sparse_script) (snd sparse_session))
     = "2025-07-01,12:00:00,33,-84,70,walking" ++ LF
       ++ "2025-07-02,12:00:00,33,-84,71,walking" ++ LF
       ++ "2025-07-03,12:00:00,33,-84,72,walking" ++ LF.
Proof. split; reflexivity. Qed.

(** The fragments of the session with an empty second page: two, in the
    order of the pages, after the header. *)
Example sparse_session_blob :
  In (CreateBlob
        [ csv_header;
          "2025-07-01,12:00:00,33,-84,70,walking" ++ LF
          ++ "2025-07-02,12:00:00,33,-84,71,walking" ++ LF;
          "2025-07-03,12:00:00,33,-84,72,walking" ++ LF ]
        "text/csv;charset=utf-8;")
    (snd sparse_session).
Proof. vm_compute. do 10 right. left. reflexivity. Qed.

(** C6.  The text of every blob that [executeDownload] makes is the
    delimited file of the records the server returned: the line of the six
    field names date, time, latitude, longitude, probe_temperature_f and
    transit joined by commas, then for each record, in the order returned,
    the line of its six fields in that order joined by commas; a line is a
    plain concatenation, no field is quoted or escaped. *)
Theorem artifact_is_delimited_file
  (host : Host) (env : Env) (net : Req.t -> FetchResult)
  (fuel : nat) (s : DashState) o st' tr parts type :
  executeDownload host env net fuel s = (o, st', tr) ->
  In (CreateBlob parts type) tr ->
  blob_text parts = delimited_file host (returned_records net tr)
  /\ delimited_line field_names
     = "date,time,latitude,longitude,probe_temperature_f,transit" ++ LF
  /\ forall r,
       delimited_line (record_fields host r)
       = date r ++ "," ++ time r ++ "," ++ Number_toString host (latitude r)
         ++ "," ++ Number_toString host (longitude r) ++ ","
         ++ Number_toString host (probe_temperature_f r) ++ ","
         ++ transit r ++ LF.
Proof.
  intros Hrun Hin. split; [|split].
  - rewrite (blob_of_session host env net fuel s o st' tr parts type Hrun Hin).
    unfold blob_text. rewrite concat_empty_cons, data_fragments_text.
    rewrite delimited_file_rows, chunk_csv_rows. reflexivity.
  - reflexivity.
  - intros r. rewrite <- csv_row_delimited. reflexivity.
Qed.

Lemma artifact_is_delimited_file_witness :
  let net := scripted_endpoint sparse_script in
  let parts :=
    [ csv_header;
      "2025-07-01,12:00:00,33,-84,70,walking" ++ LF
      ++ "2025-07-02,12:00:00,33,-84,71,walking" ++ LF;
      "2025-07-03,12:00:00,33,-84,72,walking" ++ LF ] in
  In (CreateBlob parts "text/csv;charset=utf-8;") (snd sparse_session)
  /\ blob_text parts
     = delimited_file exact_host (returned_records net (snd sparse_session)).
Proof.
  intros net parts.
  assert (Hin : In (CreateBlob parts "text/csv;charset=utf-8;")
                  (snd sparse_session)).
  { vm_compute. do 10 right. left. reflexivity. }
  split; [exact Hin|].
  destruct sparse_session as [[o st'] tr] eqn:Hrun.
  exact (proj1 (artifact_is_delimited_file exact_host configured net 5
                  (previewed 3) o st' tr parts _ Hrun Hin)).
Defined.

(** A comma inside a field goes to the file as it is. *)
Example comma_in_field_is_not_quoted :
  csv_row exact_host
    {| date := "2025-07-01"; time := "12:00:00"; latitude := of_Z 33;
       longitude := of_Z (-84); probe_temperature_f := of_Z 70;
       transit := "bus,tram" |}
  = "2025-07-01,12:00:00,33,-84,70,bus,tram" ++ LF.
Proof. reflexivity. Qed.

(** ** The number of fragments *)

Lemma pages_with_records_length (net : Req.t -> FetchResult)
  (requests : list Req.t) :
  (List.length (pages_with_records net requests) <= List.length requests)%nat.
Proof. unfold pages_with_records. apply filter_length_le. Qed.

Lemma pages_with_records_all (net : Req.t -> FetchResult)
  (requests : list Req.t) :
  Forall (fun r => page_data net r <> []) requests ->
  pages_with_records net requests = requests.
Proof.
  unfold pages_with_records.
  induction 1 as [|r requests Hr _ IH]; [reflexivity|].
  cbn [filter]. destruct (page_data net r); [contradiction|].
  now rewrite IH.
Qed.

(** C7, amended.  The buffer of every blob holds the header and one fragment
    for each page that returned at least one record: a page without records
    adds nothing.  So it holds at most one fragment more than there were
    round trips, and exactly one more when every page had a record. *)
Theorem buffer_holds_header_and_pages_with_records
  (host : Host) (env : Env) (net : Req.t -> FetchResult)
  (fuel : nat) (s : DashState) o st' tr parts type :
  executeDownload host env net fuel s = (o, st', tr) ->
  In (CreateBlob parts type) tr ->
  List.length parts = S (List.length (pages_with_records net (fetches tr)))
  /\ (List.length parts <= S (List.length (fetches tr)))%nat
  /\ (Forall (fun r => page_data net r <> []) (fetches tr) ->
      List.length parts = S (List.length (fetches tr))).
Proof.
  intros Hrun Hin.
  rewrite (blob_of_session host env net fuel s o st' tr parts type Hrun Hin).
  cbn [List.length]. rewrite data_fragments_length.
  split; [reflexivity|]. split.
  - pose proof (pages_with_records_length net (fetches tr)). lia.
  - intros Hall. now rewrite pages_with_records_all.
Qed.

Lemma buffer_holds_header_and_pages_with_records_witness :
  let net := scripted_endpoint sparse_script in
  let parts :=
    [ csv_header;
      "2025-07-01,12:00:00,33,-84,70,walking" ++ LF
      ++ "2025-07-02,12:00:00,33,-84,71,walking" ++ LF;
      "2025-07-03,12:00:00,33,-84,72,walking" ++ LF ] in
  In (CreateBlob parts "text/csv;charset=utf-8;") (snd sparse_session)
  /\ List.length (fetches (snd sparse_session)) = 3%nat
  /\ List.length parts
     = S (List.length (pages_with_records net (fetches (snd sparse_session))))
  /\ (List.length parts <= S (List.length (fetches (snd sparse_session))))%nat.
Proof.
  intros net parts.
  assert (Hin : In (CreateBlob parts "text/csv;charset=utf-8;")
                  (snd sparse_session)).
  { vm_compute. do 10 right. left. reflexivity. }
  split; [exact Hin|]. split; [reflexivity|].
  destruct sparse_session as [[o st'] tr] eqn:Hrun.
  destruct (buffer_holds_header_and_pages_with_records exact_host configured
              net 5 (previewed 3) o st' tr parts _ Hrun Hin) as (H1 & H2 & _).
  split; [exact H1 | exact H2].
Defined.

(** C7 as stated fails when a page returns no record: the download of an
    empty data set makes one round trip and its buffer holds the header
    alone. *)
Lemma fragments_not_one_per_page :
  ~ (forall (host : Host) (env : Env) (net : Req.t -> FetchResult)
       (fuel : nat) (s : DashState) o st' tr parts type,
       executeDownload host env net fuel s = (o, st', tr) ->
       Forall (fun r => page_failed net r = false) (fetches tr) ->
       In (CreateBlob parts type) tr ->
       List.length parts = S (List.length (fetches tr))).
Proof.
  intros H.
  destruct empty_session as [[o st'] tr] eqn:Hrun.
  specialize (H exact_host configured (paged_endpoint []) 5%nat (previewed 0)
                o st' tr [csv_header] "text/csv;charset=utf-8;" Hrun).
  vm_compute in Hrun. inversion Hrun; subst.
  assert (Hlen : List.length [csv_header] = 2%nat).
  { apply H.
    - repeat constructor.
    - do 4 right. left. reflexivity. }
  discriminate Hlen.
Qed.

(** ** Progress *)

Lemma Qeq_bool_inject_Z (a b : Z) : Qeq_bool (inject_Z a) (inject_Z b) = (a =? b).
Proof.
  unfold Qeq_bool, inject_Z. cbn. now rewrite !Z.mul_1_r.
Qed.

Lemma Qle_bool_inject_Z (a b : Z) : Qle_bool (inject_Z a) (inject_Z b) = (a <=? b).
Proof. unfold Qle_bool, inject_Z. cbn. now rewrite !Z.mul_1_r. Qed.

Lemma js_le_of_Z (a b : Z) : js_le (of_Z a) (of_Z b) = (a <=? b).
Proof. apply Qle_bool_inject_Z. Qed.

Section Progress.

Variable host : Host.

(** With no record expected and none fetched the quotient is 0/0. *)
Lemma progress_of_zero_zero : progress_of host 0 0 = NaN.
Proof. reflexivity. Qed.

(** For a positive count the progress is the percentage, capped at 100. *)
Lemma progress_of_positive (totalFetched count : Z) :
  0 < count ->
  progress_of host totalFetched count
  = of_Z (Z.min (percent host totalFetched count) 100).
Proof.
  intros Hc. unfold progress_of, js_div, of_Z. cbn beta iota.
  destruct (Qeq_bool (inject_Z count) 0) eqn:Hz.
  { apply Qeq_bool_iff in Hz. unfold Qeq in Hz. cbn in Hz. lia. }
  cbn [js_mul Math_round]. unfold of_Z, Math_min.
  fold (percent host totalFetched count).
  rewrite (Qle_bool_inject_Z (percent host totalFetched count) 100).
  destruct (Z.leb_spec (percent host totalFetched count) 100) as [H|H].
  - now rewrite Z.min_l by exact H.
  - now rewrite Z.min_r by lia.
Qed.

Lemma progress_of_bounded (totalFetched count : Z) :
  0 < count -> js_le (progress_of host totalFetched count) (of_Z 100) = true.
Proof.
  intros Hc. rewrite progress_of_positive by exact Hc.
  rewrite js_le_of_Z. apply Z.leb_le. apply Z.le_min_r.
Qed.

Hypothesis fl_monotone : forall x y : Q, (x <= y)%Q -> (fl host x <= fl host y)%Q.

Lemma percent_monotone (a b count : Z) :
  0 < count -> a <= b -> percent host a count <= percent host b count.
Proof.
  intros Hc Hab. unfold percent.
  apply Qfloor_resp_le. apply Qplus_le_l. apply fl_monotone.
  apply Qmult_le_compat_r; [|discriminate].
  apply fl_monotone. unfold Qdiv.
  apply Qmult_le_compat_r.
  - now rewrite <- Zle_Qle.
  - apply Qinv_le_0_compat. change 0%Q with (inject_Z 0).
    rewrite <- Zle_Qle. lia.
Qed.

Lemma progress_of_monotone (a b count : Z) :
  0 < count -> a <= b ->
  js_le (progress_of host a count) (progress_of host b count) = true.
Proof.
  intros Hc Hab. rewrite !progress_of_positive by exact Hc.
  rewrite js_le_of_Z. apply Z.leb_le.
  pose proof (percent_monotone a b count Hc Hab). lia.
Qed.

Variable env : Env.
Variable net : Req.t -> FetchResult.
Variable s : DashState.
Variable summary : DownloadSummary.

Hypothesis count_positive : 0 < count summary.
Hypothesis counts_not_negative :
  forall r chunk, page net r = Some chunk -> 0 <= Chunk.fetchedCount chunk.

(** For a positive count and pages that report counts that are not negative,
    the progress values of the loop are at most 100 and never decrease. *)
Lemma loop_run_progress l st o st' tr :
  loop_run host env net s summary l st o st' tr ->
  Forall (fun p => js_le p (of_Z 100) = true) (progress_values tr)
  /\ non_decreasing
       (progress_of host (totalFetched l) (count summary) :: progress_values tr)
     = true.
Proof.
  induction 1 as [l st Hm|l st Hm|l st Hm Hp|l st chunk o st' tr Hm Hp Hr IH].
  - split; [constructor | reflexivity].
  - split; [constructor | reflexivity].
  - split; [constructor | reflexivity].
  - destruct IH as [IHb IHm]. cbn [progress_values]. split.
    + constructor; [|exact IHb]. now apply progress_of_bounded.
    + cbn [non_decreasing] in IHm |- *.
      rewrite progress_of_monotone; [exact IHm | exact count_positive |].
      cbn [totalFetched next_locals].
      pose proof (counts_not_negative _ _ Hp). lia.
Qed.

Lemma non_decreasing_tail (p : number) (ps : list number) :
  non_decreasing (p :: ps) = true -> non_decreasing ps = true.
Proof.
  destruct ps as [|q ps]; [reflexivity|].
  cbn [non_decreasing]. intros H. now apply andb_prop in H.
Qed.

Lemma download_loop_progress (fuel : nat) (l : Locals) (st : DashState) :
  let tr := snd (download_loop host env net fuel s summary l st) in
  Forall (fun p => js_le p (of_Z 100) = true) (progress_values tr)
  /\ non_decreasing (progress_values tr) = true.
Proof.
  destruct (download_loop host env net fuel s summary l st)
    as [[o st'] tr] eqn:Hrun.
  apply download_loop_run in Hrun. apply loop_run_progress in Hrun.
  destruct Hrun as [Hb Hm]. cbn [snd]. split; [exact Hb|].
  now apply non_decreasing_tail in Hm.
Qed.

End Progress.

(** C4, at a preview that counted no record.  The preview of a data set
    without records leaves a summary with the count 0, and the download
    button is there.  The download that follows fetches one empty page and
    sets the progress to [Math.min(Math.round(0 / 0 * 100), 100)], which is
    NaN on every host: the value is not a percentage, [NaN <= 100] is false,
    and after the 0 set at the start the sequence is not non-decreasing. *)
Theorem zero_count_progress_is_NaN :
  option_map count (downloadSummary (snd (fst empty_preview))) = Some 0
  /\ progress_values (snd download_after_empty_preview) = [of_Z 0; NaN; of_Z 0]
  /\ js_le NaN (of_Z 100) = false
  /\ non_decreasing [of_Z 0; NaN] = false
  /\ forall host, progress_of host 0 0 = NaN.
Proof.
  split; [reflexivity|]. split; [reflexivity|]. split; [reflexivity|].
  split; [reflexivity|]. intros host. apply progress_of_zero_zero.
Qed.

(** ** The colour of a temperature *)

Lemma Qlt_bool_true (x y : Q) : Qlt_bool x y = true <-> (x < y)%Q.
Proof.
  unfold Qlt_bool. rewrite negb_true_iff. split.
  - intros H. apply Qnot_le_lt. intros Hle.
    apply Qle_bool_iff in Hle. congruence.
  - intros H. destruct (Qle_bool y x) eqn:Hle; [|reflexivity].
    apply Qle_bool_iff in Hle. exfalso. exact (Qlt_not_le _ _ H Hle).
Qed.

Lemma Qlt_bool_false (x y : Q) : Qlt_bool x y = false <-> (y <= x)%Q.
Proof.
  unfold Qlt_bool. rewrite negb_false_iff. apply Qle_bool_iff.
Qed.

(** A threshold passed by a temperature is passed by every higher one. *)
Lemma Qlt_bool_upwards (x y c : Q) :
  (x <= y)%Q -> Qlt_bool x c = false -> Qlt_bool y c = false.
Proof.
  rewrite !Qlt_bool_false. intros Hxy Hc. now apply Qle_trans with x.
Qed.

Lemma getTemperatureColor_in_scale (temp : number) :
  In (getTemperatureColor temp) temperature_scale.
Proof.
  unfold getTemperatureColor, temperature_scale.
  destruct (js_lt temp (of_Z 32)); [now left|].
  destruct (js_lt temp (of_Z 50)); [right; now left|].
  destruct (js_lt temp (of_Z 70)); [do 2 right; now left|].
  destruct (js_lt temp (of_Z 80)); [do 3 right; now left|].
  destruct (js_lt temp (of_Z 90)); [do 4 right; now left|].
  do 5 right. now left.
Qed.

Lemma scale_index_bound (temp : number) :
  (scale_index temperature_scale (getTemperatureColor temp) <= 5)%nat.
Proof.
  pose proof (getTemperatureColor_in_scale temp) as H.
  unfold temperature_scale in H. cbn [In] in H.
  repeat (destruct H as [<-|H]; [cbn; lia|]). contradiction.
Qed.

Lemma getTemperatureColor_monotone_finite (x y : Q) :
  (x <= y)%Q ->
  (scale_index temperature_scale (getTemperatureColor (Num x))
   <= scale_index temperature_scale (getTemperatureColor (Num y)))%nat.
Proof.
  intros Hxy. unfold getTemperatureColor, js_lt, of_Z.
  destruct (Qlt_bool x (inject_Z 32)) eqn:H32; [cbn; lia|].
  rewrite (Qlt_bool_upwards x y _ Hxy H32).
  destruct (Qlt_bool x (inject_Z 50)) eqn:H50;
    [destruct (Qlt_bool y (inject_Z 50)), (Qlt_bool y (inject_Z 70)),
       (Qlt_bool y (inject_Z 80)), (Qlt_bool y (inject_Z 90)); cbn; lia|].
  rewrite (Qlt_bool_upwards x y _ Hxy H50).
  destruct (Qlt_bool x (inject_Z 70)) eqn:H70;
    [destruct (Qlt_bool y (inject_Z 70)), (Qlt_bool y (inject_Z 80)),
       (Qlt_bool y (inject_Z 90)); cbn; lia|].
  rewrite (Qlt_bool_upwards x y _ Hxy H70).
  destruct (Qlt_bool x (inject_Z 80)) eqn:H80;
    [destruct (Qlt_bool y (inject_Z 80)), (Qlt_bool y (inject_Z 90)); cbn; lia|].
  rewrite (Qlt_bool_upwards x y _ Hxy H80).
  destruct (Qlt_bool x (inject_Z 90)) eqn:H90;
    [destruct (Qlt_bool y (inject_Z 90)); cbn; lia|].
  rewrite (Qlt_bool_upwards x y _ Hxy H90).
  cbn. lia.
Qed.

(** X1.  [getTemperatureColor] returns one of the six colours of the legend,
    and follows the order of the legend: of two temperatures with [a <= b]
    the colour of [a] is not after the colour of [b] on the scale from blue
    to red.  A reading that is not a number compares false with every
    threshold and is drawn in red, the colour of the hottest band. *)
Theorem temperature_colour_follows_scale :
  (forall temp, In (getTemperatureColor temp) temperature_scale)
  /\ (forall a b,
        js_le a b = true ->
        (scale_index temperature_scale (getTemperatureColor a)
         <= scale_index temperature_scale (getTemperatureColor b))%nat)
  /\ getTemperatureColor NaN = "#ff0000".
Proof.
  split; [exact getTemperatureColor_in_scale|]. split; [|reflexivity].
  intros a b Hab.
  destruct b as [| | |y].
  - destruct a; discriminate Hab.
  - change (getTemperatureColor PosInf) with "#ff0000".
    change (scale_index temperature_scale "#ff0000") with 5%nat.
    apply scale_index_bound.
  - destruct a; try discriminate Hab. apply Nat.le_refl.
  - destruct a as [| | |x]; try discriminate Hab.
    + change (getTemperatureColor NegInf) with "#0066cc".
      change (scale_index temperature_scale "#0066cc") with 0%nat. lia.
    + apply getTemperatureColor_monotone_finite.
      now apply Qle_bool_iff.
Qed.

Lemma temperature_colour_follows_scale_witness :
  js_le (of_Z 31) (of_Z 95) = true
  /\ (scale_index temperature_scale (getTemperatureColor (of_Z 31))
      <= scale_index temperature_scale (getTemperatureColor (of_Z 95)))%nat.
Proof.
  split; [reflexivity|].
  exact (proj1 (proj2 temperature_colour_follows_scale) (of_Z 31) (of_Z 95)
           eq_refl).
Defined.

(** The bounds of the bands: 32 is no longer blue, 90 is already red. *)
Example temperature_band_edges :
  getTemperatureColor (of_Z 32) = "#00cccc"
  /\ getTemperatureColor (Num (319 # 10)) = "#0066cc"
  /\ getTemperatureColor (of_Z 90) = "#ff0000"
  /\ getTemperatureColor (Num (899 # 10)) = "#ff8800".
Proof. repeat split; reflexivity. Qed.

(** ** The points of the map *)

Section MapProperties.

Variable invoke : string -> Points.Payload -> Points.Result.

Lemma notify_initial (message : string) : notify true message = [].
Proof. reflexivity. Qed.

Lemma fetchPoints_try_alerts_initial (payload : Points.Payload) (s : MapView.t) :
  snd (fetchPoints_try invoke true payload s) = [].
Proof.
  unfold fetchPoints_try.
  destruct (invoke "get-temperature-points" payload) as [e|e|[json|]];
    try reflexivity.
  destruct (Points.success json); reflexivity.
Qed.

Lemma fetchPoints_try_no_invocation (b : bool) (payload : Points.Payload)
  (s : MapView.t) :
  MapView.invocations (snd (fetchPoints_try invoke b payload s)) = [].
Proof.
  unfold fetchPoints_try, notify.
  destruct (invoke "get-temperature-points" payload) as [e|e|[json|]];
    try (destruct b; reflexivity).
  destruct (Points.success json); cbn [negb].
  - cbn [snd]. destruct (negb b && _); reflexivity.
  - destruct b; reflexivity.
Qed.

(** The [try] block writes the last result, the points and the flag of the
    initial load, and nothing else. *)
Lemma fetchPoints_try_filters (b : bool) (payload : Points.Payload)
  (s : MapView.t) :
  let s' := fst (fetchPoints_try invoke b payload s) in
  MapView.selectedDate s' = MapView.selectedDate s
  /\ MapView.startTime s' = MapView.startTime s
  /\ MapView.endTime s' = MapView.endTime s
  /\ MapView.transport s' = MapView.transport s
  /\ MapView.mapStyle s' = MapView.mapStyle s
  /\ MapView.mapRef s' = MapView.mapRef s
  /\ MapView.loading s' = MapView.loading s.
Proof.
  unfold fetchPoints_try.
  destruct (invoke "get-temperature-points" payload) as [e|e|[json|]];
    try (cbn; repeat split; reflexivity).
  destruct (Points.success json); cbn [negb fst];
    [destruct b|]; cbn; repeat split; reflexivity.
Qed.

End MapProperties.

(** X2.  A call of [fetchPoints] for the initial load never alerts, whatever
    the map, the state and the answer of the function are; and neither do
    any number of runs of the effect that loads the data of the day. *)
Theorem initial_load_never_alerts
  (invoke : string -> Points.Payload -> Points.Result) (s : MapView.t) :
  MapView.alerts (snd (fetchPoints invoke true s)) = []
  /\ forall n, MapView.alerts (snd (autoload_rounds invoke n s)) = [].
Proof.
  assert (H : forall s0, MapView.alerts (snd (fetchPoints invoke true s0)) = []).
  { intros s0. unfold fetchPoints.
    destruct (MapView.mapRef s0) as [map|]; [|reflexivity].
    pose proof (fetchPoints_try_alerts_initial invoke (points_payload s0 map)
                  (MapView.setLoading true s0)) as Htry.
    destruct (fetchPoints_try invoke true (points_payload s0 map)
                (MapView.setLoading true s0)) as [s' tr].
    cbn [snd] in Htry |- *. subst tr. reflexivity. }
  split; [apply H|].
  intros n. revert s. induction n as [|n IH]; intros s; [reflexivity|].
  cbn [autoload_rounds]. unfold autoload.
  destruct (autoload_due s).
  - specialize (H s). destruct (fetchPoints invoke true s) as [s1 t1].
    specialize (IH s1). destruct (autoload_rounds invoke n s1) as [s2 t2].
    cbn [snd] in *.
    assert (Happ : forall a b, MapView.alerts (a ++ b)
                               = (MapView.alerts a ++ MapView.alerts b)%list).
    { intros a b. induction a as [|e a IHa]; [reflexivity|].
      destruct e; cbn [app MapView.alerts]; now rewrite IHa. }
    now rewrite Happ, H, IH.
  - specialize (IH s). destruct (autoload_rounds invoke n s) as [s2 t2].
    cbn [snd app] in *. exact IH.
Qed.

(** X3.  Without a map [fetchPoints] sends nothing and leaves the state as
    it is.  With a map it calls the function exactly once, for the single
    day selected (start and end date are both the selected date), with the
    time bounds and the transport of the state and the bounds of the map;
    it leaves the filters as they are, and the loading flag is off when it
    returns, whatever the function answers. *)
Theorem fetchPoints_one_request_for_the_day
  (invoke : string -> Points.Payload -> Points.Result)
  (isInitialLoad : bool) (s : MapView.t) :
  (MapView.mapRef s = None ->
   fst (fetchPoints invoke isInitialLoad s) = s
   /\ MapView.invocations (snd (fetchPoints invoke isInitialLoad s)) = [])
  /\ (forall map,
        MapView.mapRef s = Some map ->
        let s' := fst (fetchPoints invoke isInitialLoad s) in
        MapView.invocations (snd (fetchPoints invoke isInitialLoad s))
        = [ {| Points.startDate := MapView.selectedDate s;
               Points.endDate := MapView.selectedDate s;
               Points.startTime := MapView.startTime s;
               Points.endTime := MapView.endTime s;
               Points.transport := MapView.transport s;
               Points.bounds := map |} ]
        /\ MapView.loading s' = false
        /\ MapView.selectedDate s' = MapView.selectedDate s
        /\ MapView.startTime s' = MapView.startTime s
        /\ MapView.endTime s' = MapView.endTime s
        /\ MapView.transport s' = MapView.transport s
        /\ MapView.mapRef s' = MapView.mapRef s).
Proof.
  split.
  - intros Hmap. unfold fetchPoints. rewrite Hmap. split; [reflexivity|].
    unfold notify. destruct isInitialLoad; reflexivity.
  - intros map Hmap. unfold fetchPoints. rewrite Hmap.
    pose proof (fetchPoints_try_no_invocation invoke isInitialLoad
                  (points_payload s map) (MapView.setLoading true s)) as Hinv.
    pose proof (fetchPoints_try_filters invoke isInitialLoad
                  (points_payload s map) (MapView.setLoading true s)) as Hf.
    destruct (fetchPoints_try invoke isInitialLoad (points_payload s map)
                (MapView.setLoading true s)) as [s' tr].
    cbn [fst snd] in *.
    destruct Hf as (H1 & H2 & H3 & H4 & _ & H6 & _).
    cbn [MapView.invocations]. rewrite Hinv.
    cbn in H1, H2, H3, H4, H6 |- *. rewrite Hmap in H6.
    repeat split; assumption.
Qed.

Lemma fetchPoints_one_request_for_the_day_witness :
  let unmounted := MapView.setMapRef None mounted in
  (MapView.mapRef unmounted = None
   /\ fst (fetchPoints refuses false unmounted) = unmounted
   /\ MapView.invocations (snd (fetchPoints refuses false unmounted)) = [])
  /\ (MapView.mapRef mounted = Some atlanta
      /\ MapView.invocations (snd (fetchPoints refuses false mounted))
         = [ {| Points.startDate := "2025-07-04";
                Points.endDate := "2025-07-04";
                Points.startTime := "08:00";
                Points.endTime := EmptyString;
                Points.transport := Some "Walking";
                Points.bounds := atlanta |} ]
      /\ MapView.loading (fst (fetchPoints refuses false mounted)) = false).
Proof.
  intros unmounted. split.
  - split; [reflexivity|].
    exact (proj1 (fetchPoints_one_request_for_the_day refuses false unmounted)
             eq_refl).
  - split; [reflexivity|].
    destruct (proj2 (fetchPoints_one_request_for_the_day refuses false mounted)
                atlanta eq_refl) as (H1 & H2 & _).
    split; [exact H1 | exact H2].
Defined.

Section MapOutcomes.

Variable invoke : string -> Points.Payload -> Points.Result.

Lemma notify_length (b : bool) (message : string) :
  List.length (MapView.alerts (notify b message)) = if b then 0%nat else 1%nat.
Proof. destruct b; reflexivity. Qed.

Lemma fetchPoints_try_failed (b : bool) (payload : Points.Payload)
  (s : MapView.t) :
  points_failed (invoke "get-temperature-points" payload) = true ->
  let r := fetchPoints_try invoke b payload s in
  MapView.temperaturePoints (fst r) = MapView.temperaturePoints s
  /\ MapView.hasInitiallyLoaded (fst r) = MapView.hasInitiallyLoaded s
  /\ MapView.lastResult (fst r)
     = match invoke "get-temperature-points" payload with
       | Points.Answered json => json
       | _ => MapView.lastResult s
       end
  /\ List.length (MapView.alerts (snd r)) = if b then 0%nat else 1%nat.
Proof.
  unfold fetchPoints_try, points_failed.
  destruct (invoke "get-temperature-points" payload) as [e|e|[json|]];
    intros H; cbn [fst snd]; try (repeat split; apply notify_length).
  destruct (Points.success json); [discriminate|].
  cbn [negb fst snd]. repeat split. apply notify_length.
Qed.

Lemma fetchPoints_try_succeeded (b : bool) (payload : Points.Payload)
  (s : MapView.t) (json : Points.Json) :
  invoke "get-temperature-points" payload = Points.Answered (Some json) ->
  Points.success json = true ->
  let r := fetchPoints_try invoke b payload s in
  MapView.temperaturePoints (fst r)
  = match Points.data json with Some d => d | None => [] end
  /\ MapView.hasInitiallyLoaded (fst r) = b || MapView.hasInitiallyLoaded s
  /\ MapView.lastResult (fst r) = Some json.
Proof.
  intros Hi Hs. unfold fetchPoints_try. rewrite Hi, Hs.
  cbn [negb fst]. destruct b; repeat split.
Qed.

End MapOutcomes.

Lemma invocations_app (a b : list MapView.Event) :
  MapView.invocations (a ++ b)
  = (MapView.invocations a ++ MapView.invocations b)%list.
Proof.
  induction a as [|e a IHa]; [reflexivity|].
  destruct e; cbn [app MapView.invocations]; now rewrite IHa.
Qed.

(** X4.  When the call of the function fails (it throws, returns an error,
    a null body or a body with [success] false), [fetchPoints] leaves the
    points on the map and the flag of the initial load as they were, alerts
    exactly once unless the call is the initial load, and stores the body,
    when there is one, as the last result.  When the body says [success],
    the points become its data ([[]] when it has none), the body becomes the
    last result, and an initial load sets its flag. *)
Theorem fetchPoints_outcome
  (invoke : string -> Points.Payload -> Points.Result)
  (isInitialLoad : bool) (s : MapView.t) (map : Points.Bounds) :
  MapView.mapRef s = Some map ->
  let result := invoke "get-temperature-points" (points_payload s map) in
  let s' := fst (fetchPoints invoke isInitialLoad s) in
  (points_failed result = true ->
   MapView.temperaturePoints s' = MapView.temperaturePoints s
   /\ MapView.hasInitiallyLoaded s' = MapView.hasInitiallyLoaded s
   /\ MapView.lastResult s'
      = match result with
        | Points.Answered json => json
        | _ => MapView.lastResult s
        end
   /\ List.length (MapView.alerts (snd (fetchPoints invoke isInitialLoad s)))
      = if isInitialLoad then 0%nat else 1%nat)
  /\ (forall json,
        result = Points.Answered (Some json) ->
        Points.success json = true ->
        MapView.temperaturePoints s'
        = match Points.data json with Some d => d | None => [] end
        /\ MapView.hasInitiallyLoaded s'
           = isInitialLoad || MapView.hasInitiallyLoaded s
        /\ MapView.lastResult s' = Some json).
Proof.
  intros Hmap result s'. subst result s'. unfold fetchPoints. rewrite Hmap.
  split.
  - intros Hfail.
    pose proof (fetchPoints_try_failed invoke isInitialLoad
                  (points_payload s map) (MapView.setLoading true s) Hfail) as H.
    destruct (fetchPoints_try invoke isInitialLoad (points_payload s map)
                (MapView.setLoading true s)) as [s' tr].
    cbn in H |- *. exact H.
  - intros json Hi Hs.
    pose proof (fetchPoints_try_succeeded invoke isInitialLoad
                  (points_payload s map) (MapView.setLoading true s) json Hi Hs)
      as H.
    destruct (fetchPoints_try invoke isInitialLoad (points_payload s map)
                (MapView.setLoading true s)) as [s' tr].
    cbn in H |- *. exact H.
Qed.

Lemma fetchPoints_outcome_witness :
  let rows := [reading "2025-07-04" 88] in
  MapView.mapRef mounted = Some atlanta
  /\ (points_failed (refuses "get-temperature-points"
                       (points_payload mounted atlanta)) = true
      /\ MapView.temperaturePoints (fst (fetchPoints refuses false mounted))
         = [reading "2025-07-03" 75]
      /\ MapView.alerts (snd (fetchPoints refuses false mounted))
         = ["Error: Function not found"])
  /\ (MapView.temperaturePoints (fst (fetchPoints (serves rows) true mounted))
      = rows
      /\ MapView.hasInitiallyLoaded (fst (fetchPoints (serves rows) true mounted))
         = true).
Proof.
  intros rows. split; [reflexivity|].
  pose proof (fetchPoints_outcome refuses false mounted atlanta eq_refl) as Hr.
  pose proof (fetchPoints_outcome (serves rows) true mounted atlanta eq_refl)
    as Hs.
  cbv zeta in Hr, Hs. split.
  - split; [reflexivity|].
    destruct (proj1 Hr eq_refl) as (H1 & _). split; [exact H1 | reflexivity].
  - destruct (proj2 Hs _ eq_refl eq_refl) as (H1 & H2 & _).
    split; [exact H1 | exact H2].
Defined.

(** X5.  While the function keeps failing, the condition of the effect of
    the initial load stays true: [n] runs of the effect call the function [n]
    times, the points stay as they were, and (X2) no run alerts. *)
Theorem failed_initial_load_is_due_again
  (invoke : string -> Points.Payload -> Points.Result) (s : MapView.t) :
  autoload_due s = true ->
  (forall name body, points_failed (invoke name body) = true) ->
  forall n,
    autoload_due (fst (autoload_rounds invoke n s)) = true
    /\ List.length (MapView.invocations (snd (autoload_rounds invoke n s))) = n
    /\ MapView.temperaturePoints (fst (autoload_rounds invoke n s))
       = MapView.temperaturePoints s.
Proof.
  intros Hdue Hfail n. revert s Hdue.
  induction n as [|n IH]; intros s Hdue; [repeat split; exact Hdue|].
  cbn [autoload_rounds]. unfold autoload. rewrite Hdue.
  assert (Hmap : exists map, MapView.mapRef s = Some map).
  { unfold autoload_due in Hdue. destruct (MapView.mapRef s) as [map|];
      [now exists map | discriminate]. }
  destruct Hmap as [map Hmap].
  unfold fetchPoints. rewrite Hmap.
  pose proof (fetchPoints_try_failed invoke true (points_payload s map)
                (MapView.setLoading true s) (Hfail _ _)) as (Hpts & Hflag & _).
  pose proof (fetchPoints_try_filters invoke true (points_payload s map)
                (MapView.setLoading true s)) as (_ & _ & _ & _ & _ & Href & _).
  pose proof (fetchPoints_try_no_invocation invoke true (points_payload s map)
                (MapView.setLoading true s)) as Hinv.
  destruct (fetchPoints_try invoke true (points_payload s map)
              (MapView.setLoading true s)) as [s1 t1].
  cbn [fst snd] in *.
  assert (Hdue1 : autoload_due (MapView.setLoading false s1) = true).
  { unfold autoload_due in Hdue |- *. cbn in Href, Hflag |- *.
    rewrite Href, Hflag, Hmap. rewrite Hmap in Hdue.
    destruct (MapView.hasInitiallyLoaded s); [discriminate | reflexivity]. }
  destruct (IH _ Hdue1) as (IH1 & IH2 & IH3).
  destruct (autoload_rounds invoke n (MapView.setLoading false s1)) as [s2 t2].
  cbn [fst snd] in *.
  split; [exact IH1|]. split.
  - cbn [app MapView.invocations List.length].
    rewrite invocations_app, length_app, Hinv, IH2. reflexivity.
  - rewrite IH3. cbn. exact Hpts.
Qed.

Lemma failed_initial_load_is_due_again_witness :
  autoload_due mounted = true
  /\ (forall name body, points_failed (refuses name body) = true)
  /\ autoload_due (fst (autoload_rounds refuses 3 mounted)) = true
  /\ List.length (MapView.invocations (snd (autoload_rounds refuses 3 mounted)))
     = 3%nat
  /\ MapView.temperaturePoints (fst (autoload_rounds refuses 3 mounted))
     = MapView.temperaturePoints mounted.
Proof.
  split; [reflexivity|]. split; [intros name body; reflexivity|].
  exact (failed_initial_load_is_due_again refuses mounted eq_refl
           (fun name body => eq_refl) 3%nat).
Defined.

(** X6.  After [resetToDefaults], with the map mounted and no request under
    way, the effect of the initial load is due.  Its request asks for the
    new default date, without time bounds and without transport, whatever
    the filters were; when the function answers with [success], the points
    are its data, and however often the effect runs after that, the function
    has been called once. *)
Theorem reset_reloads_the_default_day
  (invoke : string -> Points.Payload -> Points.Result)
  (newSelectedDate : string) (s : MapView.t) (map : Points.Bounds)
  (json : Points.Json) :
  MapView.mapRef s = Some map ->
  MapView.loading s = false ->
  let payload :=
    {| Points.startDate := newSelectedDate;
       Points.endDate := newSelectedDate;
       Points.startTime := EmptyString;
       Points.endTime := EmptyString;
       Points.transport := None;
       Points.bounds := map |} in
  invoke "get-temperature-points" payload = Points.Answered (Some json) ->
  Points.success json = true ->
  autoload_due (resetToDefaults newSelectedDate s) = true
  /\ forall n,
       let r := autoload_rounds invoke (S n) (resetToDefaults newSelectedDate s) in
       MapView.invocations (snd r) = [payload]
       /\ MapView.temperaturePoints (fst r)
          = match Points.data json with Some d => d | None => [] end
       /\ MapView.hasInitiallyLoaded (fst r) = true
       /\ MapView.loading (fst r) = false.
Proof.
  intros Hmap Hload payload Hi Hs.
  assert (Hdue : autoload_due (resetToDefaults newSelectedDate s) = true).
  { unfold autoload_due. cbn. now rewrite Hmap, Hload. }
  split; [exact Hdue|].
  intros n. cbn [autoload_rounds]. unfold autoload. rewrite Hdue.
  unfold fetchPoints.
  assert (Hmap0 : MapView.mapRef (resetToDefaults newSelectedDate s) = Some map)
    by exact Hmap.
  rewrite Hmap0.
  assert (Hp : points_payload (resetToDefaults newSelectedDate s) map = payload)
    by reflexivity.
  rewrite Hp.
  pose proof (fetchPoints_try_succeeded invoke true payload
                (MapView.setLoading true (resetToDefaults newSelectedDate s))
                json Hi Hs) as (Hpts & Hflag & _).
  pose proof (fetchPoints_try_filters invoke true payload
                (MapView.setLoading true (resetToDefaults newSelectedDate s)))
    as (_ & _ & _ & _ & _ & Href & _).
  pose proof (fetchPoints_try_no_invocation invoke true payload
                (MapView.setLoading true (resetToDefaults newSelectedDate s)))
    as Hinv.
  destruct (fetchPoints_try invoke true payload
              (MapView.setLoading true (resetToDefaults newSelectedDate s)))
    as [s1 t1].
  cbn [fst snd] in *.
  assert (Hrest : forall k, autoload_rounds invoke k (MapView.setLoading false s1)
                            = (MapView.setLoading false s1, [])).
  { induction k as [|k IHk]; [reflexivity|].
    cbn [autoload_rounds]. unfold autoload, autoload_due.
    cbn. rewrite Hflag. cbn. rewrite andb_false_r. cbn.
    cbn in IHk. rewrite IHk. reflexivity. }
  rewrite Hrest. cbn [fst snd app MapView.invocations].
  rewrite app_nil_r, Hinv. repeat split; assumption.
Qed.

Lemma reset_reloads_the_default_day_witness :
  let rows := [reading "2025-07-05" 91] in
  let payload :=
    {| Points.startDate := "2025-07-05";
       Points.endDate := "2025-07-05";
       Points.startTime := EmptyString;
       Points.endTime := EmptyString;
       Points.transport := None;
       Points.bounds := atlanta |} in
  MapView.mapRef mounted = Some atlanta
  /\ MapView.loading mounted = false
  /\ autoload_due (resetToDefaults "2025-07-05" mounted) = true
  /\ forall n,
       let r := autoload_rounds (serves rows) (S n)
                  (resetToDefaults "2025-07-05" mounted) in
       MapView.invocations (snd r) = [payload]
       /\ MapView.temperaturePoints (fst r) = rows
       /\ MapView.hasInitiallyLoaded (fst r) = true
       /\ MapView.loading (fst r) = false.
Proof.
  intros rows payload. split; [reflexivity|]. split; [reflexivity|].
  exact (reset_reloads_the_default_day (serves rows) "2025-07-05" mounted
           atlanta _ eq_refl eq_refl eq_refl eq_refl).
Defined.

(** ** The preview *)

Section Preview.

Variable host : Host.
Variable env : Env.
Variable net : Req.t -> FetchResult.

(** A preview that passes its validation and finds the configuration sends
    its request and ends in one of two ways. *)
Lemma previewDownload_cases (s : DashState) :
  request_valid s = true ->
  config_missing env = false ->
  match page net (request env s 0 1) with
  | Some json =>
      exists summary,
        previewDownload host env net s
        = (Ret tt,
           setDownloadLoading false (setDownloadSummary (Some summary) (prepared s)),
           Progress (of_Z 0) :: Fetch (request env s 0 1)
           :: if total_or_zero json =? 0 then [no_data_alert] else [])
        /\ count summary = total_or_zero json
  | None =>
      previewDownload host env net s
      = (Ret tt, setDownloadLoading false (prepared s),
         [Progress (of_Z 0); Fetch (request env s 0 1);
          preview_failed_alert (preview_failure_message host (net (request env s 0 1)))])
  end.
Proof.
  intros Hv Hc.
  assert (Hguard : negb (month_selected s)
                   && (negb (truthy_string (downloadStartDate s))
                       || negb (truthy_string (downloadEndDate s))) = false).
  { unfold request_valid in Hv. destruct (month_selected s); [reflexivity|].
    cbn in Hv |- *. apply andb_prop in Hv. destruct Hv as [-> ->]. reflexivity. }
  unfold previewDownload. rewrite Hguard, Hc.
  unfold page, preview_failure_message, fetch, response_json, bind, emit, alert,
    update, throw, ret, try_catch_finally, total_or_zero, preview_failed_alert,
    no_data_alert, prepared.
  destruct (net (request env s 0 1)) as [e|r]; [reflexivity|].
  destruct (Resp.ok r); cbn [negb]; [|reflexivity].
  destruct (Resp.json r) as [json|e]; [|reflexivity].
  destruct (Chunk.success json); cbn [negb]; [|reflexivity].
  eexists. split.
  - destruct (match Chunk.total json with Some t => t | None => 0 end =? 0);
      reflexivity.
  - reflexivity.
Qed.

End Preview.



(** X8.  A preview whose request succeeds stores a summary whose count is
    the [total] of the answer, and 0 when the answer has no [total]; the
    progress is 0.  A count of 0 is alerted, and the summary is stored all
    the same, so that the download may start. *)
Theorem preview_counts_the_total
  (host : Host) (env : Env) (net : Req.t -> FetchResult) (s : DashState)
  (json : Chunk.t) :
  request_valid s = true ->
  config_missing env = false ->
  page net (request env s 0 1) = Some json ->
  let '(o, s', tr) := previewDownload host env net s in
  option_map count (downloadSummary s') = Some (total_or_zero json)
  /\ downloadProgress s' = of_Z 0
  /\ alerts tr = (if total_or_zero json =? 0
                  then ["No data found for the selected filters. Please adjust your selection."]
                  else []).
Proof.
  intros Hv Hc Hp.
  pose proof (previewDownload_cases host env net s Hv Hc) as H.
  rewrite Hp in H. destruct H as (summary & -> & Hcount).
  split; [cbn; now rewrite Hcount|]. split; [reflexivity|].
  destruct (total_or_zero json =? 0); reflexivity.
Qed.

Lemma preview_counts_the_total_witness :
  request_valid not_previewed = true
  /\ config_missing configured = false
  /\ (let '(o, s', tr) := empty_preview in
      option_map count (downloadSummary s') = Some 0
      /\ downloadProgress s' = of_Z 0
      /\ alerts tr
         = ["No data found for the selected filters. Please adjust your selection."]).
Proof.
  split; [reflexivity|]. split; [reflexivity|].
  exact (preview_counts_the_total exact_host configured (paged_endpoint [])
           not_previewed _ eq_refl eq_refl eq_refl).
Defined.

(** X9.  A preview that fails, by a missing configuration or by its request,
    erases the summary of an earlier preview and alerts the failure; the
    download called next refuses with its alert and does nothing else. *)
Theorem failed_preview_blocks_download
  (host : Host) (env : Env) (net : Req.t -> FetchResult) (s : DashState) :
  request_valid s = true ->
  config_missing env = true \/ page_failed net (request env s 0 1) = true ->
  let '(o, s', tr) := previewDownload host env net s in
  downloadSummary s' = None
  /\ (exists message, alerts tr = ["Failed to preview download: " ++ message
                                    ++ LF ++ LF ++ "Check console for details."])
  /\ forall fuel,
       executeDownload host env net fuel s'
       = (Ret tt, s', [Alert "No preview available"]).
Proof.
  intros Hv Hfail.
  destruct (config_missing env) eqn:Hc.
  - rewrite (previewDownload_no_configuration host env net s Hv Hc).
    split; [reflexivity|]. split; [eexists; reflexivity|].
    intros fuel. now apply executeDownload_no_preview.
  - destruct Hfail as [Hfail|Hfail]; [discriminate|].
    pose proof (previewDownload_cases host env net s Hv Hc) as H.
    unfold page_failed in Hfail.
    destruct (page net (request env s 0 1)); [discriminate|].
    rewrite H. split; [reflexivity|]. split; [eexists; reflexivity|].
    intros fuel. now apply executeDownload_no_preview.
Qed.

Lemma failed_preview_blocks_download_witness :
  let net := scripted_endpoint [http_error 503 "Unavailable"] in
  request_valid (previewed 3) = true
  /\ page_failed net (request configured (previewed 3) 0 1) = true
  /\ (let '(o, s', tr) := previewDownload exact_host configured net (previewed 3) in
      downloadSummary s' = None
      /\ (exists message,
            alerts tr = ["Failed to preview download: " ++ message
                         ++ LF ++ LF ++ "Check console for details."])
      /\ forall fuel,
           executeDownload exact_host configured net fuel s'
           = (Ret tt, s', [Alert "No preview available"])).
Proof.
  intros net. split; [reflexivity|]. split; [reflexivity|].
  exact (failed_preview_blocks_download exact_host configured net (previewed 3)
           eq_refl (or_intror eq_refl)).
Defined.

(** ** More on the download *)

Section DownloadRuns.

Variable host : Host.
Variable env : Env.
Variable net : Req.t -> FetchResult.

Lemma loop_run_no_click s summary l st o st' tr f :
  loop_run host env net s summary l st o st' tr -> ~ In (ClickLink f) tr.
Proof.
  intros H Hin. apply loop_run_events in H.
  rewrite Forall_forall in H. exact (H _ Hin).
Qed.

(** The count of the locals after the loop: the counts of the pages added
    up. *)
Lemma loop_run_total s summary l st l' st' tr :
  loop_run host env net s summary l st (Ret l') st' tr ->
  totalFetched l' = totalFetched l + fetched_total net (fetches tr).
Proof.
  intros H. remember (Ret l') as o eqn:Ho.
  induction H as [l st Hm|l st Hm|l st Hm Hp|l st chunk o st' tr Hm Hp Hr IH];
    try discriminate.
  - inversion Ho; subst. cbn. lia.
  - rewrite (IH Ho). cbn [fetches fetched_total fold_right].
    rewrite Hp. cbn [totalFetched next_locals]. fold (fetched_total net (fetches tr)).
    lia.
Qed.

(** A call whose trace has the click on the link is a completed one. *)
Lemma clicked_session (fuel : nat) (s : DashState) o s' tr f :
  executeDownload host env net fuel s = (o, s', tr) ->
  In (ClickLink f) tr ->
  exists summary l s1 t1,
    downloadSummary s = Some summary
    /\ loop_run host env net s summary initial_locals (started s) (Ret l) s1 t1
    /\ o = Ret tt /\ s' = cleared s1
    /\ tr = (Progress (of_Z 0) :: t1 ++ completion host s l)%list.
Proof.
  intros Hrun Hin. apply executeDownload_run in Hrun.
  destruct Hrun as [Hs|summary Hs Hc|summary l s1 t1 Hs Hc Hl
                   |summary e s1 t1 Hs Hc Hl|summary s1 t1 Hs Hc Hl].
  - destruct Hin as [H|[]]; discriminate.
  - destruct Hin as [H|[H|[]]]; discriminate.
  - exists summary, l, s1, t1. repeat split; assumption.
  - exfalso. destruct Hin as [H|Hin]; [discriminate|].
    apply in_app_or in Hin. destruct Hin as [Hin|[H|[]]]; [|discriminate].
    exact (loop_run_no_click _ _ _ _ _ _ _ _ Hl Hin).
  - exfalso. destruct Hin as [H|Hin]; [discriminate|].
    exact (loop_run_no_click _ _ _ _ _ _ _ _ Hl Hin).
Qed.

(** While every page says that more remain, the loop uses up any fuel. *)
Lemma download_loop_always_more s summary :
  always_more net ->
  forall fuel l st,
    hasMore l = true ->
    exists st' tr,
      download_loop host env net fuel s summary l st = (Diverge, st', tr)
      /\ List.length (fetches tr) = fuel.
Proof.
  intros Hmore. induction fuel as [|fuel IH]; intros l st Hm.
  - rewrite download_loop_out_of_fuel by exact Hm. now exists st, [].
  - rewrite download_loop_step by exact Hm.
    destruct (Hmore (request env s (offset l) CHUNK_SIZE)) as (chunk & Hp & Hc).
    rewrite Hp.
    destruct (IH (next_locals host l chunk)
                (setDownloadProgress
                   (progress_of host (totalFetched (next_locals host l chunk))
                      (count summary)) st) Hc) as (st' & tr & Hrun & Hlen).
    rewrite Hrun. do 2 eexists. split; [reflexivity|].
    cbn [fetches List.length]. now rewrite Hlen.
Qed.

End DownloadRuns.

Lemma alerts_app (a b : list Event) :
  alerts (a ++ b) = (alerts a ++ alerts b)%list.
Proof.
  induction a as [|e a IHa]; [reflexivity|].
  destruct e; cbn [app alerts]; now rewrite IHa.
Qed.

(** The loop alerts nothing and makes nothing of the file. *)
Lemma loop_run_quiet host env net s summary l st o st' tr :
  loop_run host env net s summary l st o st' tr ->
  alerts tr = [] /\ filter is_artifact tr = [].
Proof.
  intros H. apply loop_run_events in H.
  induction H as [|e t He _ IH]; [split; reflexivity|].
  destruct IH as [IH1 IH2].
  destruct e; try contradiction; cbn; now rewrite ?IH1, ?IH2.
Qed.

Lemma cleared_is_initial (s : DashState) : cleared s = initial_state.
Proof. reflexivity. Qed.

(** X10.  [executeDownload] never lets an error out.  When a call that had a
    preview returns, the loading flag is off, whether the download
    completed or failed; as long as the loop runs, the flag is on and no
    file has been made. *)
Theorem download_releases_loading
  (host : Host) (env : Env) (net : Req.t -> FetchResult)
  (fuel : nat) (s : DashState) o s' tr :
  executeDownload host env net fuel s = (o, s', tr) ->
  (forall e, o <> Throw e)
  /\ (o = Ret tt -> downloadSummary s <> None -> downloadLoading s' = false)
  /\ (o = Diverge ->
      downloadLoading s' = true /\ existsb is_artifact tr = false).
Proof.
  intros Hrun. apply executeDownload_run in Hrun.
  destruct Hrun as [Hs|summary Hs Hc|summary l s1 t1 Hs Hc Hl
                   |summary e s1 t1 Hs Hc Hl|summary s1 t1 Hs Hc Hl];
    (split; [discriminate|]); split; try discriminate; try reflexivity.
  - intros _ H. contradiction.
  - intros _.
    destruct (loop_run_state _ _ _ _ _ _ _ _ _ _ Hl) as [_ Hload].
    split; [exact Hload|].
    cbn [existsb is_artifact orb].
    exact (loop_run_no_artifact _ _ _ _ _ _ _ _ _ _ Hl).
Qed.

Lemma download_releases_loading_witness :
  (let '(o, s', tr) := failing_session in
   o = Ret tt /\ downloadSummary (previewed 3) <> None
   /\ downloadLoading s' = false)
  /\ (let '(o, s', tr) :=
        executeDownload exact_host configured endless_endpoint 4 (previewed 3) in
      o = Diverge /\ downloadLoading s' = true
      /\ existsb is_artifact tr = false).
Proof.
  split.
  - destruct failing_session as [[o s'] tr] eqn:Hrun.
    assert (Ho : o = Ret tt) by (vm_compute in Hrun; now inversion Hrun).
    assert (Hs : downloadSummary (previewed 3) <> None) by discriminate.
    split; [exact Ho|]. split; [exact Hs|].
    exact (proj1 (proj2 (download_releases_loading exact_host configured
                           (scripted_endpoint failing_script) 5 (previewed 3)
                           o s' tr Hrun)) Ho Hs).
  - destruct (executeDownload exact_host configured endless_endpoint 4
                (previewed 3)) as [[o s'] tr] eqn:Hrun.
    assert (Ho : o = Diverge) by (vm_compute in Hrun; now inversion Hrun).
    split; [exact Ho|].
    exact (proj2 (proj2 (download_releases_loading exact_host configured
                           endless_endpoint 4 (previewed 3) o s' tr Hrun)) Ho).
Defined.

(** X11.  The loop has no limit of its own: against an endpoint that answers
    every request with a page and [hasMore] true, also with pages that hold
    no record, the download is still running after any number of round
    trips; it has sent one request per round trip, the loading flag is on,
    and no file has been made. *)
Theorem download_has_no_page_limit
  (host : Host) (env : Env) (net : Req.t -> FetchResult)
  (s : DashState) (summary : DownloadSummary) :
  downloadSummary s = Some summary ->
  config_missing env = false ->
  always_more net ->
  forall fuel, exists s' tr,
    executeDownload host env net fuel s = (Diverge, s', tr)
    /\ List.length (fetches tr) = fuel
    /\ downloadLoading s' = true
    /\ existsb is_artifact tr = false.
Proof.
  intros Hs Hc Hmore fuel.
  destruct (download_loop_always_more host env net s summary Hmore fuel
              initial_locals (started s) eq_refl) as (s1 & t1 & Hrun & Hlen).
  rewrite (executeDownload_loop host env net fuel s summary Hs Hc), Hrun.
  apply download_loop_run in Hrun.
  exists s1, (Progress (of_Z 0) :: t1). split; [reflexivity|].
  split; [exact Hlen|]. split.
  - now destruct (loop_run_state _ _ _ _ _ _ _ _ _ _ Hrun) as [_ ->].
  - cbn [existsb is_artifact orb].
    exact (loop_run_no_artifact _ _ _ _ _ _ _ _ _ _ Hrun).
Qed.

Lemma endless_endpoint_always_more : always_more endless_endpoint.
Proof. intros r. eexists. split; reflexivity. Qed.

Lemma download_has_no_page_limit_witness :
  downloadSummary (previewed 3) = Some (summary_of 3)
  /\ config_missing configured = false
  /\ always_more endless_endpoint
  /\ forall fuel, exists s' tr,
       executeDownload exact_host configured endless_endpoint fuel (previewed 3)
       = (Diverge, s', tr)
       /\ List.length (fetches tr) = fuel
       /\ downloadLoading s' = true
       /\ existsb is_artifact tr = false.
Proof.
  split; [reflexivity|]. split; [reflexivity|].
  split; [exact endless_endpoint_always_more|].
  exact (download_has_no_page_limit exact_host configured endless_endpoint
           (previewed 3) (summary_of 3) eq_refl eq_refl
           endless_endpoint_always_more).
Defined.

(** X12.  A completed download alerts once, with the sum of the counts that
    the pages reported (not the number of lines written), clicks one link,
    named after the filters of the call, and leaves the download section in
    its initial state: filters empty, no summary, progress 0, not loading. *)
Theorem completed_download_reports_and_resets
  (host : Host) (env : Env) (net : Req.t -> FetchResult)
  (fuel : nat) (s : DashState) o s' tr f :
  executeDownload host env net fuel s = (o, s', tr) ->
  In (ClickLink f) tr ->
  f = download_filename s
  /\ alerts tr
     = ["Successfully downloaded "
        ++ Number_toLocaleString host (fetched_total net (fetches tr))
        ++ " records!"]
  /\ List.length (filter is_artifact tr) = 2%nat
  /\ s' = initial_state.
Proof.
  intros Hrun Hin.
  destruct (clicked_session host env net fuel s o s' tr f Hrun Hin)
    as (summary & l & s1 & t1 & Hs & Hl & -> & -> & ->).
  pose proof (loop_run_total _ _ _ _ _ _ _ _ _ _ Hl) as Htot.
  cbn [totalFetched initial_locals] in Htot. rewrite Z.add_0_l in Htot.
  destruct (loop_run_quiet _ _ _ _ _ _ _ _ _ _ Hl) as [Ha Hf].
  split; [|split; [|split]].
  - destruct Hin as [H|Hin]; [discriminate|].
    apply in_app_or in Hin. destruct Hin as [Hin|Hin].
    + exfalso. exact (loop_run_no_click _ _ _ _ _ _ _ _ _ _ _ Hl Hin).
    + destruct Hin as [H|[H|[H|[H|[H|[]]]]]]; try discriminate.
      now inversion H.
  - cbn [alerts fetches]. rewrite alerts_app, Ha, fetches_app, fetches_completion, app_nil_r.
    cbn. now rewrite Htot.
  - cbn [filter is_artifact]. rewrite filter_app, Hf. reflexivity.
  - apply cleared_is_initial.
Qed.

Lemma completed_download_reports_and_resets_witness :
  let f := "temperature_data_2025-07-01_to_2025-07-31.csv" in
  let '(o, s', tr) := sparse_session in
  In (ClickLink f) tr
  /\ f = download_filename (previewed 3)
  /\ alerts tr
     = ["Successfully downloaded "
        ++ Number_toLocaleString exact_host
             (fetched_total (scripted_endpoint sparse_script) (fetches tr))
        ++ " records!"]
  /\ List.length (filter is_artifact tr) = 2%nat
  /\ s' = initial_state.
Proof.
  intros f.
  destruct sparse_session as [[o s'] tr] eqn:Hrun.
  assert (Hin : In (ClickLink f) tr).
  { vm_compute in Hrun. inversion Hrun; subst.
    do 11 right. left. reflexivity. }
  split; [exact Hin|].
  exact (completed_download_reports_and_resets exact_host configured
           (scripted_endpoint sparse_script) 5 (previewed 3) o s' tr f Hrun Hin).
Defined.

(** The count in the alert is the one the server reports: a page that says
    7 and carries one record adds 7. *)
Example alert_counts_what_the_pages_report :
  alerts (snd (executeDownload exact_host configured
                 (scripted_endpoint
                    [respond {| Chunk.success := true; Chunk.error := None;
                                Chunk.data := [reading "2025-07-01" 70];
                                Chunk.fetchedCount := 7;
                                Chunk.hasMore := false;
                                Chunk.total := None |}])
                 5 (previewed 7)))
  = ["Successfully downloaded 7 records!"].
Proof. reflexivity. Qed.

(** ** A download from an endpoint that serves a list page by page *)

Lemma pages_tile {A : Type} (P : nat) (n : nat) :
  forall l : list A,
    (List.length l <= n * P)%nat ->
    flat_map (fun i => firstn P (skipn (i * P) l)) (seq 0 n) = l.
Proof.
  induction n as [|n IH]; intros l Hlen.
  - destruct l; [reflexivity | cbn in Hlen; lia].
  - cbn [seq flat_map]. rewrite <- seq_shift.
    rewrite flat_map_concat_map, map_map, <- flat_map_concat_map.
    rewrite (flat_map_ext _ (fun i => firstn P (skipn (i * P) (skipn P l)))).
    + rewrite IH.
      * cbn [Nat.mul skipn]. apply firstn_skipn.
      * rewrite length_skipn. cbn [Nat.mul] in Hlen. lia.
    + intros i. rewrite skipn_skipn. f_equal. f_equal. lia.
Qed.

Section PagedEndpoint.

Variable host : Host.
Variable env : Env.
Variable records : list TemperaturePoint.

Lemma paged_endpoint_data (s : DashState) (i : nat) :
  page_data (paged_endpoint records)
    (request env s (Z.of_nat i * CHUNK_SIZE) CHUNK_SIZE)
  = firstn (Z.to_nat CHUNK_SIZE) (skipn (i * Z.to_nat CHUNK_SIZE) records).
Proof.
  unfold page_data, page, paged_endpoint, respond.
  cbn [Resp.ok Resp.json Chunk.success Chunk.data Req.limit Req.offset request].
  f_equal. f_equal. unfold CHUNK_SIZE. lia.
Qed.

Lemma paged_endpoint_total (requests : list Req.t) :
  fetched_total (paged_endpoint records) requests
  = Z.of_nat (List.length (flat_map (page_data (paged_endpoint records)) requests)).
Proof.
  induction requests as [|r requests IH]; [reflexivity|].
  cbn [fetched_total fold_right flat_map].
  fold (fetched_total (paged_endpoint records) requests).
  rewrite length_app, Nat2Z.inj_add, IH.
  unfold page_data, page, paged_endpoint, respond.
  cbn [Resp.ok Resp.json Chunk.success Chunk.data Chunk.fetchedCount].
  reflexivity.
Qed.

Lemma round_trips_cover :
  (List.length records
   <= round_trips (Z.of_nat (List.length records)) * Z.to_nat CHUNK_SIZE)%nat.
Proof.
  unfold round_trips, ceil_div, CHUNK_SIZE.
  apply Nat2Z.inj_le. rewrite Nat2Z.inj_mul, !Z2Nat.id by lia.
  set (T := Z.of_nat (List.length records)).
  assert (0 <= T) by (unfold T; lia).
  Z.div_mod_to_equations. lia.
Qed.

End PagedEndpoint.

(** X13.  From an endpoint that serves a list of records page by page, a
    download with a preview, a configured backend and enough fuel completes;
    the pages it asked for tile the list, no record twice and none left out;
    the text of its blob is the delimited file of the whole list; and the
    alert counts as many records as the list has. *)
Theorem download_of_paged_endpoint
  (host : Host) (env : Env) (records : list TemperaturePoint)
  (s : DashState) (summary : DownloadSummary) (fuel : nat) :
  downloadSummary s = Some summary ->
  config_missing env = false ->
  (round_trips (Z.of_nat (List.length records)) <= fuel)%nat ->
  exists s' tr parts,
    executeDownload host env (paged_endpoint records) fuel s = (Ret tt, s', tr)
    /\ returned_records (paged_endpoint records) tr = records
    /\ In (CreateBlob parts "text/csv;charset=utf-8;") tr
    /\ blob_text parts = delimited_file host records
    /\ alerts tr
       = ["Successfully downloaded "
          ++ Number_toLocaleString host (Z.of_nat (List.length records))
          ++ " records!"].
Proof.
  intros Hs Hc Hfuel.
  set (T := Z.of_nat (List.length records)) in *.
  set (net := paged_endpoint records).
  assert (Hk : Z.of_nat (round_trips T)
               = Z.max 1 (ceil_div (T - offset initial_locals) CHUNK_SIZE)).
  { unfold round_trips. cbn [offset initial_locals]. rewrite Z.sub_0_r.
    rewrite Z2Nat.id by lia. reflexivity. }
  destruct (download_loop_paginates host env net s summary T
              (paged_endpoint_paginates records)
              (round_trips T) initial_locals (started s) fuel eq_refl Hk Hfuel)
    as (l' & s1 & t1 & Hrun & Hlen).
  rewrite (executeDownload_loop host env net fuel s summary Hs Hc), Hrun.
  apply download_loop_run in Hrun.
  pose proof (loop_run_requests _ _ _ _ _ _ _ _ _ _ Hrun) as Hreq.
  rewrite Hlen in Hreq. cbn [offset initial_locals] in Hreq.
  destruct (loop_run_ret _ _ _ _ _ _ _ _ _ _ Hrun) as [_ Hparts].
  pose proof (loop_run_total _ _ _ _ _ _ _ _ _ _ Hrun) as Htot.
  cbn [totalFetched initial_locals] in Htot. rewrite Z.add_0_l in Htot.
  destruct (loop_run_quiet _ _ _ _ _ _ _ _ _ _ Hrun) as [Ha _].
  assert (Hrecords : flat_map (page_data net) (fetches t1) = records).
  { rewrite Hreq, flat_map_concat_map, map_map, <- flat_map_concat_map.
    rewrite (flat_map_ext _
               (fun i => firstn (Z.to_nat CHUNK_SIZE)
                           (skipn (i * Z.to_nat CHUNK_SIZE) records))).
    - apply pages_tile. apply round_trips_cover.
    - intros i. apply (paged_endpoint_data env records s i). }
  exists (cleared s1), (Progress (of_Z 0) :: t1 ++ completion host s l')%list,
    (blobParts l').
  assert (Hf : fetches (Progress (of_Z 0) :: t1 ++ completion host s l') = fetches t1).
  { cbn [fetches]. now rewrite fetches_app, fetches_completion, app_nil_r. }
  split; [reflexivity|]. split; [|split; [|split]].
  - unfold returned_records. now rewrite Hf.
  - right. apply in_or_app. right. left. reflexivity.
  - rewrite Hparts. cbn [initial_locals blobParts app]. unfold blob_text.
    rewrite concat_empty_cons, data_fragments_text, Hrecords.
    now rewrite delimited_file_rows, chunk_csv_rows.
  - cbn [alerts]. rewrite alerts_app, Ha. cbn.
    rewrite Htot. unfold net. rewrite paged_endpoint_total.
    fold net. now rewrite Hrecords.
Qed.

Lemma download_of_paged_endpoint_witness :
  downloadSummary (previewed 12000) = Some (summary_of 12000)
  /\ config_missing configured = false
  /\ (round_trips (Z.of_nat (List.length example_records)) <= 5)%nat
  /\ exists s' tr parts,
       example_session = (Ret tt, s', tr)
       /\ returned_records (paged_endpoint example_records) tr = example_records
       /\ In (CreateBlob parts "text/csv;charset=utf-8;") tr
       /\ blob_text parts = delimited_file exact_host example_records
       /\ alerts tr
          = ["Successfully downloaded "
             ++ Number_toLocaleString exact_host
                  (Z.of_nat (List.length example_records))
             ++ " records!"].
Proof.
  assert (Hfuel : (round_trips (Z.of_nat (List.length example_records)) <= 5)%nat).
  { unfold example_records. rewrite repeat_length.
    rewrite Z2Nat.id by lia. vm_compute. lia. }
  split; [reflexivity|]. split; [reflexivity|]. split; [exact Hfuel|].
  exact (download_of_paged_endpoint exact_host configured example_records
           (previewed 12000) (summary_of 12000) 5 eq_refl eq_refl Hfuel).
Defined.

(** ** Progress over a positive count *)

(** X14.  When the preview counted a positive number of records, the pages
    report counts that are not negative and the rounding of the host is
    monotone, the progress values of a download are: the 0 set at the start,
    then one value per page, each at most 100 and none below the one before,
    and after a completed download the 0 of the reset. *)
Theorem page_progress_bounded_and_monotone
  (host : Host) (env : Env) (net : Req.t -> FetchResult)
  (fuel : nat) (s : DashState) (summary : DownloadSummary) o s' tr :
  (forall x y : Q, (x <= y)%Q -> (fl host x <= fl host y)%Q) ->
  downloadSummary s = Some summary ->
  0 < count summary ->
  config_missing env = false ->
  (forall r chunk, page net r = Some chunk -> 0 <= Chunk.fetchedCount chunk) ->
  executeDownload host env net fuel s = (o, s', tr) ->
  exists pages rest,
    progress_values tr = (of_Z 0 :: pages ++ rest)%list
    /\ (rest = [] \/ rest = [of_Z 0])
    /\ List.length pages = List.length (filter (fun r => negb (page_failed net r))
                                          (fetches tr))
    /\ Forall (fun p => js_le p (of_Z 100) = true) pages
    /\ non_decreasing pages = true.
Proof.
  intros Hfl Hs Hcount Hc Hcounts Hrun.
  rewrite (executeDownload_loop host env net fuel s summary Hs Hc) in Hrun.
  destruct (download_loop host env net fuel s summary initial_locals (started s))
    as [[ol s1] t1] eqn:Hloop.
  pose proof (download_loop_progress host Hfl env net s summary Hcount Hcounts
                fuel initial_locals (started s)) as Hp.
  rewrite Hloop in Hp. cbn [snd] in Hp. destruct Hp as [Hbound Hmono].
  apply download_loop_run in Hloop.
  assert (Hlen : List.length (progress_values t1)
                 = List.length (filter (fun r => negb (page_failed net r))
                                  (fetches t1))).
  { clear - Hloop.
    induction Hloop as [l st Hm|l st Hm|l st Hm Hp|l st chunk o st' tr Hm Hp Hr IH].
    - reflexivity.
    - reflexivity.
    - cbn. unfold page_failed. now rewrite Hp.
    - cbn [progress_values fetches filter]. unfold page_failed at 1.
      rewrite Hp. cbn [negb List.length]. now rewrite IH. }
  exists (progress_values t1).
  destruct ol as [l|e|]; inversion Hrun; subst.
  - exists [of_Z 0]. split; [|split; [now right|split; [|split; assumption]]].
    + cbn [progress_values]. now rewrite progress_values_app.
    + cbn [fetches]. now rewrite fetches_app, fetches_completion, app_nil_r.
  - exists []. split; [|split; [now left|split; [|split; assumption]]].
    + cbn [progress_values]. now rewrite progress_values_app.
    + cbn [fetches]. rewrite fetches_app. cbn. rewrite app_nil_r. exact Hlen.
  - exists []. split; [|split; [now left|split; [|split; assumption]]].
    + cbn [progress_values]. now rewrite app_nil_r.
    + exact Hlen.
Qed.

Lemma sparse_script_counts (r : Req.t) (chunk : Chunk.t) :
  page (scripted_endpoint sparse_script) r = Some chunk ->
  0 <= Chunk.fetchedCount chunk.
Proof.
  unfold page, scripted_endpoint, sparse_script.
  destruct (Z.to_nat (Req.offset r / CHUNK_SIZE)) as [|[|[|[|n]]]];
    cbn; intros H; inversion H; subst; cbn; lia.
Qed.

Lemma page_progress_bounded_and_monotone_witness :
  (forall x y : Q, (x <= y)%Q -> (fl exact_host x <= fl exact_host y)%Q)
  /\ downloadSummary (previewed 3) = Some (summary_of 3)
  /\ 0 < count (summary_of 3)
  /\ config_missing configured = false
  /\ (forall r chunk,
        page (scripted_endpoint sparse_script) r = Some chunk ->
        0 <= Chunk.fetchedCount chunk)
  /\ exists pages rest,
       progress_values (snd sparse_session) = (of_Z 0 :: pages ++ rest)%list
       /\ (rest = [] \/ rest = [of_Z 0])
       /\ List.length pages
          = List.length (filter (fun r => negb (page_failed
                                                  (scripted_endpoint sparse_script) r))
                           (fetches (snd sparse_session)))
       /\ Forall (fun p => js_le p (of_Z 100) = true) pages
       /\ non_decreasing pages = true.
Proof.
  assert (Hfl : forall x y : Q, (x <= y)%Q -> (fl exact_host x <= fl exact_host y)%Q)
    by (intros x y H; exact H).
  split; [exact Hfl|]. split; [reflexivity|]. split; [reflexivity|].
  split; [reflexivity|]. split; [exact sparse_script_counts|].
  destruct sparse_session as [[o s'] tr] eqn:Hrun.
  exact (page_progress_bounded_and_monotone exact_host configured
           (scripted_endpoint sparse_script) 5 (previewed 3) (summary_of 3)
           o s' tr Hfl eq_refl eq_refl eq_refl sparse_script_counts Hrun).
Defined.

(** The session with an empty second page: the progress stays at 67 over
    it. *)
Example sparse_session_progress :
  progress_values (snd sparse_session)
  = [of_Z 0; of_Z 67; of_Z 67; of_Z 100; of_Z 0].
Proof. reflexivity. Qed.

(** ** A preview outlives its filters *)



(** A preview of July 2025 counted 12000; the month selector is then set to
    December.  The summary is still that of the range, and the download asks
    for the month. *)
Example stale_preview :
  let s' := fold_left apply_op [MonthChange "12"] (previewed 12000) in
  option_map count (downloadSummary s') = Some 12000
  /\ option_map dateRange (downloadSummary s') = Some "2025-07-01 to 2025-07-31"
  /\ map Req.filter
       (fetches (snd (executeDownload exact_host configured (paged_endpoint [])
                        5 s')))
     = [ByMonth (of_Z 12)].
Proof. repeat split; reflexivity. Qed.

(** ** The earlier encoder and the chunked one *)

Lemma join_lines (rows : list string) :
  rows <> [] ->
  String.concat LF rows ++ LF
  = String.concat EmptyString (map (fun row => row ++ LF) rows).
Proof.
  induction rows as [|x rows IH]; [congruence|]. intros _.
  destruct rows as [|y rows].
  - reflexivity.
  - change (String.concat LF (x :: y :: rows))
      with (x ++ LF ++ String.concat LF (y :: rows)).
    cbn [map]. rewrite concat_empty_cons. cbn [map] in IH.
    rewrite <- IH by discriminate.
    now rewrite !append_assoc.
Qed.

Lemma fold_push {A B : Type} (f : A -> B) (data : list A) (init : list B) :
  fold_left (fun rows x => (rows ++ [f x])%list) data init
  = (init ++ map f data)%list.
Proof.
  revert init. induction data as [|x data IH]; intros init.
  - cbn. now rewrite app_nil_r.
  - cbn [fold_left map]. rewrite IH, <- app_assoc. reflexivity.
Qed.

Section Encoders.

Variable host : Host.

Lemma convertToCSV_lines (data : list Raw.row) :
  convertToCSV host data ++ LF
  = csv_header
    ++ String.concat EmptyString (map (fun r => joined host r ++ LF) data).
Proof.
  change (convertToCSV host data)
    with (String.concat LF
            (fold_left (fun rows x => (rows ++ [joined host x])%list) data
               [join_commas field_names])).
  rewrite (fold_push (joined host)).
  rewrite join_lines by discriminate.
  cbn [app map]. rewrite concat_empty_cons, map_map. reflexivity.
Qed.

Lemma raw_csv_row_templated (r : Raw.row) :
  raw_csv_row host r = templated host r ++ LF.
Proof.
  unfold raw_csv_row, templated, join_commas. cbn [map String.concat].
  repeat (rewrite append_assoc; cbn [append]). reflexivity.
Qed.

Lemma raw_chunk_csv_lines (data : list Raw.row) :
  raw_chunk_csv host data
  = String.concat EmptyString (map (fun r => templated host r ++ LF) data).
Proof.
  unfold raw_chunk_csv.
  assert (H : forall init,
            fold_left (fun chunkCsv row => chunkCsv ++ raw_csv_row host row)
              data init
            = init ++ String.concat EmptyString
                        (map (fun r => templated host r ++ LF) data)).
  { induction data as [|r data IH]; intros init.
    - cbn. now rewrite append_nil_r.
    - cbn [fold_left map]. rewrite IH, concat_empty_cons.
      rewrite raw_csv_row_templated. now rewrite append_assoc. }
  now rewrite H.
Qed.

Lemma join_text_present (v : Raw.value) :
  present v = true -> join_text host v = template_text host v.
Proof. destruct v; try discriminate; reflexivity. Qed.

Lemma join_text_length (v : Raw.value) :
  (String.length (join_text host v) + (if present v then 0 else 1)
   <= String.length (template_text host v))%nat.
Proof. destruct v; cbn; lia. Qed.

Lemma join_commas_length (a b c d e f : string) :
  String.length (join_commas [a; b; c; d; e; f])
  = (String.length a + String.length b + String.length c + String.length d
     + String.length e + String.length f + 5)%nat.
Proof.
  unfold join_commas. cbn [String.concat].
  rewrite !length_append. cbn [String.length]. lia.
Qed.

Lemma joined_complete (r : Raw.row) :
  complete r = true -> joined host r = templated host r.
Proof.
  unfold complete, joined, templated. intros H.
  repeat (apply andb_prop in H; destruct H as [H ?]).
  cbn [map]. now rewrite !join_text_present by assumption.
Qed.

Lemma joined_length (r : Raw.row) :
  (String.length (joined host r) + (if complete r then 0 else 1)
   <= String.length (templated host r))%nat.
Proof.
  unfold joined, templated. cbn [map]. rewrite !join_commas_length.
  unfold complete.
  pose proof (join_text_length (Raw.date r)).
  pose proof (join_text_length (Raw.time r)).
  pose proof (join_text_length (Raw.latitude r)).
  pose proof (join_text_length (Raw.longitude r)).
  pose proof (join_text_length (Raw.probe_temperature_f r)).
  pose proof (join_text_length (Raw.transit r)).
  destruct (present (Raw.date r)), (present (Raw.time r)),
    (present (Raw.latitude r)), (present (Raw.longitude r)),
    (present (Raw.probe_temperature_f r)), (present (Raw.transit r));
    cbn [andb] in *; lia.
Qed.

Lemma lines_length (data : list Raw.row) :
  (String.length
     (String.concat EmptyString (map (fun r => joined host r ++ LF) data))
   + (if forallb complete data then 0 else 1)
   <= String.length
        (String.concat EmptyString (map (fun r => templated host r ++ LF) data)))%nat.
Proof.
  induction data as [|r data IH]; [cbn; lia|].
  cbn [map forallb]. rewrite !concat_empty_cons, !length_append.
  pose proof (joined_length r) as Hr.
  destruct (complete r), (forallb complete data); cbn [andb] in *; lia.
Qed.

Lemma lines_complete (data : list Raw.row) :
  forallb complete data = true ->
  map (fun r => joined host r ++ LF) data = map (fun r => templated host r ++ LF) data.
Proof.
  induction data as [|r data IH]; [reflexivity|].
  cbn [forallb map]. intros H. apply andb_prop in H. destruct H as [Hr Hd].
  now rewrite (joined_complete r Hr), IH.
Qed.

End Encoders.

(** X16.  On rows as the wire gives them, the earlier helper [convertToCSV]
    and the row loop of the chunked export write the same text, up to the
    line feed that only the export puts after the last line, exactly when
    no field of any row is null or missing: [join] prints such a field as
    nothing, the template literal prints [null] or [undefined].  On the rows
    of the interface, whose fields are all there, the raw row loop is the
    one of the export.  For no row the helper gives the header line without
    line feed. *)
Theorem convertToCSV_agrees_on_complete_rows (host : Host) :
  (forall data,
     forallb complete data = true <->
     convertToCSV host data ++ LF = csv_header ++ raw_chunk_csv host data)
  /\ (forall records,
        raw_chunk_csv host (map of_point records) = chunk_csv host records
        /\ forallb complete (map of_point records) = true)
  /\ convertToCSV host []
     = "date,time,latitude,longitude,probe_temperature_f,transit".
Proof.
  split; [|split].
  - intros data. rewrite convertToCSV_lines, raw_chunk_csv_lines. split.
    + intros H. now rewrite (lines_complete host data H).
    + intros Heq. destruct (forallb complete data) eqn:Hc; [reflexivity|].
      exfalso. pose proof (lines_length host data) as Hlen.
      rewrite Hc in Hlen.
      apply (f_equal String.length) in Heq.
      rewrite !length_append in Heq. lia.
  - intros records. split.
    + rewrite raw_chunk_csv_lines, chunk_csv_rows, map_map. f_equal.
      apply map_ext. intros p.
      rewrite <- raw_csv_row_templated. unfold raw_csv_row, csv_row.
      reflexivity.
    + induction records as [|p records IH]; [reflexivity|].
      cbn [map forallb]. now rewrite IH.
  - reflexivity.
Qed.

Lemma convertToCSV_agrees_on_complete_rows_witness :
  let rows := map of_point [reading "2025-07-01" 70; reading "2025-07-02" 71] in
  (forallb complete rows = true
   /\ convertToCSV exact_host rows ++ LF
      = csv_header ++ raw_chunk_csv exact_host rows)
  /\ (forallb complete [without_transit] = false
      /\ convertToCSV exact_host [without_transit] ++ LF
         <> csv_header ++ raw_chunk_csv exact_host [without_transit]).
Proof.
  intros rows.
  destruct (convertToCSV_agrees_on_complete_rows exact_host) as (H & _ & _).
  split.
  - split; [reflexivity|]. exact (proj1 (H rows) eq_refl).
  - split; [reflexivity|]. intros Heq.
    pose proof (proj2 (H [without_transit]) Heq) as Hc. discriminate Hc.
Defined.

(** The row without transit in both encoders. *)
Example null_transit_in_both_encoders :
  convertToCSV exact_host [without_transit]
  = "date,time,latitude,longitude,probe_temperature_f,transit" ++ LF
    ++ "2025-07-01,12:00:00,33,-84,70,"
  /\ raw_chunk_csv exact_host [without_transit]
     = "2025-07-01,12:00:00,33,-84,70,null" ++ LF.
Proof. split; reflexivity. Qed.

(** ** The sort of the submissions table *)

(** X17.  A click on the header of a column that is not the sorted one sorts
    by it, ascending; a second click on it sorts descending; a third removes
    the sort.  So three clicks on one column, from no sort or from a sort by
    another column, end without sort, and a click never leaves the table
    sorted by a column other than the clicked one. *)
Theorem handleSort_cycles (k : Sort.key) (current : option Sort.SortConfig) :
  (option_map Sort.sort_key current <> Some k ->
   Sort.handleSort k current
   = Some {| Sort.sort_key := k; Sort.sort_direction := Sort.asc |}
   /\ Sort.handleSort k (Sort.handleSort k current)
      = Some {| Sort.sort_key := k; Sort.sort_direction := Sort.desc |}
   /\ Sort.handleSort k (Sort.handleSort k (Sort.handleSort k current)) = None)
  /\ (Sort.handleSort k current = None
      \/ option_map Sort.sort_key (Sort.handleSort k current) = Some k).
Proof.
  assert (Hk : forall d,
            Sort.handleSort k (Some {| Sort.sort_key := k; Sort.sort_direction := d |})
            = match d with
              | Sort.asc => Some {| Sort.sort_key := k; Sort.sort_direction := Sort.desc |}
              | Sort.desc => None
              end).
  { intros d. unfold Sort.handleSort. cbn.
    destruct (Sort.key_eq_dec k k) as [_|Hne]; [reflexivity | congruence]. }
  split.
  - intros Hother.
    assert (H1 : Sort.handleSort k current
                 = Some {| Sort.sort_key := k; Sort.sort_direction := Sort.asc |}).
    { unfold Sort.handleSort. destruct current as [c|]; [|reflexivity].
      destruct (Sort.key_eq_dec (Sort.sort_key c) k) as [Heq|_]; [|reflexivity].
      exfalso. apply Hother. cbn. now rewrite Heq. }
    rewrite H1, !Hk. repeat split.
  - unfold Sort.handleSort. destruct current as [c|]; [|now right].
    destruct (Sort.key_eq_dec (Sort.sort_key c) k); [|now right].
    destruct (Sort.sort_direction c); [now right | now left].
Qed.

Lemma handleSort_cycles_witness :
  let current :=
    Some {| Sort.sort_key := Sort.email; Sort.sort_direction := Sort.desc |} in
  option_map Sort.sort_key current <> Some Sort.duration
  /\ Sort.handleSort Sort.duration current
     = Some {| Sort.sort_key := Sort.duration; Sort.sort_direction := Sort.asc |}
  /\ Sort.handleSort Sort.duration (Sort.handleSort Sort.duration current)
     = Some {| Sort.sort_key := Sort.duration; Sort.sort_direction := Sort.desc |}
  /\ Sort.handleSort Sort.duration
       (Sort.handleSort Sort.duration (Sort.handleSort Sort.duration current))
     = None.
Proof.
  intros current.
  assert (H : option_map Sort.sort_key current <> Some Sort.duration)
    by discriminate.
  split; [exact H|].
  exact (proj1 (handleSort_cycles Sort.duration current) H).
Defined.

(** ** The middleware *)

(** X18.  The middleware never sends a request in a circle: the path it
    redirects to passes for the same session.  Without a session only
    [/login] passes and every other path is redirected to it; with a session
    every path passes but [/login], which is redirected to [/]. *)
Theorem middleware_redirects_once
  {Session : Type} (session : option Session) (pathname : string) :
  match middleware session pathname with
  | Redirect target => middleware session target = Next
  | Next => True
  end
  /\ (middleware (@None Session) pathname = Next <-> pathname = "/login")
  /\ (pathname <> "/login" ->
      middleware (@None Session) pathname = Redirect "/login")
  /\ (forall user : Session,
        (middleware (Some user) pathname = Next <-> pathname <> "/login")
        /\ middleware (Some user) "/login" = Redirect "/").
Proof.
  unfold middleware.
  destruct (String.eqb_spec pathname "/login") as [->|Hne].
  - split; [destruct session; reflexivity|]. split; [easy|].
    split; [congruence|]. intros user. split; [|reflexivity].
    split; [discriminate | congruence].
  - cbn [negb]. split; [destruct session; [exact I | reflexivity]|].
    split; [split; [discriminate | congruence]|].
    split; [reflexivity|]. intros user. split; [|reflexivity]. easy.
Qed.

Lemma middleware_redirects_once_witness :
  "/" <> "/login"
  /\ middleware (@None unit) "/" = Redirect "/login"
  /\ middleware (@None unit) "/login" = Next
  /\ middleware (Some tt) "/login" = Redirect "/"
  /\ middleware (Some tt) "/" = Next.
Proof.
  assert (H : "/" <> "/login") by discriminate.
  destruct (middleware_redirects_once (@None unit) "/") as (_ & _ & H1 & _).
  split; [exact H|]. split; [exact (H1 H)|]. repeat split.
Defined.
